(** * Voice AI Chat client (frontend/app.js): a model of its event handlers

    The JavaScript program is single-threaded and event-driven: every
    handler runs to completion on the shared [state] object and the page
    elements. Each handler is embedded here as a function on [world], the
    record that holds the program's [state], the [elements] it touches and
    the platform objects behind them (promises, sockets, the audio element,
    animation frames). An [async] function is cut at its [await]s: one
    definition per run-to-completion segment, the later segments reading the
    outcome of the awaited promise from the store. Inputs that come from the
    platform (the clock, analyser samples, device failures, the encoded
    blob) are explicit arguments. *)

From Stdlib Require Import ZArith NArith QArith Qminmax String Ascii List Bool Lia.
From stdpp Require Import base option list.
Import ListNotations.

Local Open Scope string_scope.
Local Open Scope list_scope.
Local Open Scope Z_scope.

(** ** JavaScript values carried by protocol messages *)

(** A field of a parsed JSON message. [JOther r] is any value that is neither
    a string, [null] nor missing (a number, a boolean, an object); [r] is
    the text JavaScript's string conversion yields for it. *)
Inductive jsval :=
| JUndefined
| JNull
| JStr (s : string)
| JOther (rendering : string).

(** String conversion, as in a template literal or [x + ' ']. *)
Definition ToString (v : jsval) : string :=
  match v with
  | JUndefined => "undefined"
  | JNull => "null"
  | JStr s => s
  | JOther r => r
  end.

(** Conversion done by the [textContent] setter: null and undefined clear
    the text. *)
Definition toTextContent (v : jsval) : string :=
  match v with
  | JUndefined | JNull => ""
  | JStr s => s
  | JOther r => r
  end.

(** The parsed message object; a missing property reads as [JUndefined]. *)
Record message := mkMessage {
  msg_type : jsval;
  msg_content : jsval;
  msg_full_transcript : jsval;
  msg_audio : jsval;
  msg_index : jsval;
  msg_sentence : jsval;
  msg_message : jsval }.

(** ** Binary data *)

(** A Blob is its bytes; [size] is their number. *)
Definition blob := list N.

Definition blob_size (b : blob) : Z := Z.of_nat (length b).

(** [new Blob(chunks)] *)
Definition Blob (chunks : list blob) : blob := concat chunks.

Definition is_ascii_whitespace (c : ascii) : bool :=
  let n := N_of_ascii c in
  ((n =? 9) || (n =? 10) || (n =? 12) || (n =? 13) || (n =? 32))%N.

Definition b64_value (c : ascii) : option N :=
  let n := N_of_ascii c in
  (if (65 <=? n) && (n <=? 90) then Some (n - 65)
   else if (97 <=? n) && (n <=? 122) then Some (n - 71)
   else if (48 <=? n) && (n <=? 57) then Some (n + 4)
   else if n =? 43 then Some 62
   else if n =? 47 then Some 63
   else None)%N.

Fixpoint b64_values (cs : list ascii) : option (list N) :=
  match cs with
  | [] => Some []
  | c :: cs' =>
      match b64_value c, b64_values cs' with
      | Some v, Some vs => Some (v :: vs)
      | _, _ => None
      end
  end.

Fixpoint b64_bytes (vs : list N) : list N :=
  match vs with
  | a :: b :: c :: d :: rest =>
      (a * 4 + b / 16 :: (b mod 16) * 16 + c / 4 :: (c mod 4) * 64 + d
         :: b64_bytes rest)%N
  | [a; b; c] => [a * 4 + b / 16; (b mod 16) * 16 + c / 4]%N
  | [a; b] => [a * 4 + b / 16]%N
  | _ => []
  end.

Definition strip_padding (cs : list ascii) : list ascii :=
  if (length cs mod 4 =? 0)%nat then
    match rev cs with
    | "="%char :: "="%char :: r => rev r
    | "="%char :: r => rev r
    | _ => cs
    end
  else cs.

(** [atob]: the platform's forgiving base64 decoder; [None] is the
    InvalidCharacterError it throws. *)
Definition atob (s : string) : option (list N) :=
  let cs := strip_padding
              (filter (fun c => negb (is_ascii_whitespace c))
                      (list_ascii_of_string s)) in
  if (length cs mod 4 =? 1)%nat then None
  else option_map b64_bytes (b64_values cs).

(** ** Platform objects *)

Inductive recorder_state := inactive | recording_ | paused.

(** A MediaRecorder: its [state] attribute and the stream it records. *)
Record media_recorder := mkRecorder {
  mr_state : recorder_state;
  mr_stream : nat }.

Record analyser_node := mkAnalyser {
  fftSize : nat;
  smoothingTimeConstant : Q }.

Definition frequencyBinCount (a : analyser_node) : nat := (fftSize a / 2)%nat.

Inductive ready_state := CONNECTING | OPEN | CLOSING | CLOSED.

(** The one outbound request: [{type: 'audio', data, model}]. *)
Record audio_request := mkRequest {
  req_data : string;
  req_model : string }.

(** A WebSocket. Its [onopen]/[onerror] handlers are closures over the
    [resolve]/[reject] of the promise of the [connect] call that created
    it: [ws_owner] is that promise. [ws_sent] is what went out on it. *)
Record web_socket := mkSocket {
  readyState : ready_state;
  ws_owner : nat;
  ws_sent : list audio_request }.

(** Values promises are resolved with. *)
Inductive value :=
| VBool (b : bool)
| VSocket (ws : option nat).

(** A promise: pending, or settled with a value or an [Error] message. *)
Inductive outcome :=
| Pending
| Fulfilled (v : value)
| Rejected (error : string).

(** What a function body does: completes, or throws after the effects it
    already had. *)
Inductive completion (A : Type) :=
| Normal (a : A)
| Throw (error : string) (a : A).
Arguments Normal {A} a.
Arguments Throw {A} error a.

Definition final {A} (c : completion A) : A :=
  match c with Normal a | Throw _ a => a end.

(** ** Configuration *)

Module CONFIG.
Module VAD.
Definition volumeThreshold : Q := 15 # 1.
Definition silenceTimeout : Z := 1000.
Definition minSpeechDuration : Z := 300.
Definition minAudioSize : Z := 1000.
End VAD.
End CONFIG.

Inductive STATUS := READY | RECORDING | PROCESSING.

(** ** Page elements *)

Inductive button_label := StartRecording | StopRecording | HandsFreeActive.

(** A number shown with [toFixed]: kept as the millisecond count it is
    computed from ([DSeconds ms] shows ms/1000). *)
Inductive display :=
| DText (s : string)
| DSeconds (ms : Z).

Inductive volume_text :=
| Listening
| Speaking
| Processing
| AISpeaking
| Silence (remaining_ms : Z).

Inductive volume_class := vc_plain | vc_processing | vc_speaking.

Record volume_status := mkVolumeStatus {
  vs_text : volume_text;
  vs_class : volume_class }.

(** The lines [log] appends, with their parameters. *)
Inductive log_message :=
| LogReady
| LogChatReady
| LogAudioPlayError (error : string)
| LogHandsFreeEnabled
| LogMicrophoneError (error : string)
| LogAudioTooShort
| LogPipelineError (error : string)
| LogConnectionError
| LogTranscribed (head40 : string)
| LogComplete (elapsed_ms : Z)
| LogServerError (message : string)
| LogSending (size : Z)
| LogError (error : string).

Inductive log_type := log_info | log_success | log_error.

Definition log_entry : Type := log_message * log_type.

(** An entry of [state.audio.queue]: [{url, index, sentence}]; the url is
    the object URL of the decoded chunk. *)
Record queue_item := mkItem {
  url : nat;
  index : jsval;
  sentence : jsval }.

(** ** The state object, the elements and the platform store *)

(** Each record comes with its field updates: [set_f x r] is [r] with
    field [f] set to [x]. *)

(** [state.recording]: manual recording. *)
Record recording_st := mkRecording {
  rec_mediaRecorder : option media_recorder;
  rec_chunks : list blob;
  rec_isActive : bool;
  rec_startTime : option Z;
  rec_timer : option nat }.

Definition set_rec_mediaRecorder (x : option media_recorder) (r : recording_st) : recording_st :=
  mkRecording x (rec_chunks r) (rec_isActive r) (rec_startTime r) (rec_timer r).
Definition set_rec_chunks (x : list blob) (r : recording_st) : recording_st :=
  mkRecording (rec_mediaRecorder r) x (rec_isActive r) (rec_startTime r) (rec_timer r).
Definition set_rec_isActive (x : bool) (r : recording_st) : recording_st :=
  mkRecording (rec_mediaRecorder r) (rec_chunks r) x (rec_startTime r) (rec_timer r).
Definition set_rec_startTime (x : option Z) (r : recording_st) : recording_st :=
  mkRecording (rec_mediaRecorder r) (rec_chunks r) (rec_isActive r) x (rec_timer r).
Definition set_rec_timer (x : option nat) (r : recording_st) : recording_st :=
  mkRecording (rec_mediaRecorder r) (rec_chunks r) (rec_isActive r) (rec_startTime r) x.

(** [state.audio]: the queue of synthesized-speech chunks. *)
Record audio_st := mkAudio {
  queue : list queue_item;
  isPlaying : bool;
  currentIndex : Z }.

Definition set_queue (x : list queue_item) (r : audio_st) : audio_st :=
  mkAudio x (isPlaying r) (currentIndex r).
Definition set_isPlaying (x : bool) (r : audio_st) : audio_st :=
  mkAudio (queue r) x (currentIndex r).
Definition set_currentIndex (x : Z) (r : audio_st) : audio_st :=
  mkAudio (queue r) (isPlaying r) x.

(** [state.vad]: hands-free mode. [vad_stream] and [audioContext] name
    entries of the platform's [streams] and [contexts]. *)
Record vad_st := mkVad {
  isEnabled : bool;
  isProcessing : bool;
  isSpeaking : bool;
  silenceStart : option Z;
  speechStart : option Z;
  vad_stream : option nat;
  vad_mediaRecorder : option media_recorder;
  audioChunks : list blob;
  audioContext : option nat;
  analyser : option analyser_node;
  animationFrame : option nat }.

Definition set_isEnabled (x : bool) (r : vad_st) : vad_st :=
  mkVad x (isProcessing r) (isSpeaking r) (silenceStart r) (speechStart r) (vad_stream r) (vad_mediaRecorder r) (audioChunks r) (audioContext r) (analyser r) (animationFrame r).
Definition set_isProcessing (x : bool) (r : vad_st) : vad_st :=
  mkVad (isEnabled r) x (isSpeaking r) (silenceStart r) (speechStart r) (vad_stream r) (vad_mediaRecorder r) (audioChunks r) (audioContext r) (analyser r) (animationFrame r).
Definition set_isSpeaking (x : bool) (r : vad_st) : vad_st :=
  mkVad (isEnabled r) (isProcessing r) x (silenceStart r) (speechStart r) (vad_stream r) (vad_mediaRecorder r) (audioChunks r) (audioContext r) (analyser r) (animationFrame r).
Definition set_silenceStart (x : option Z) (r : vad_st) : vad_st :=
  mkVad (isEnabled r) (isProcessing r) (isSpeaking r) x (speechStart r) (vad_stream r) (vad_mediaRecorder r) (audioChunks r) (audioContext r) (analyser r) (animationFrame r).
Definition set_speechStart (x : option Z) (r : vad_st) : vad_st :=
  mkVad (isEnabled r) (isProcessing r) (isSpeaking r) (silenceStart r) x (vad_stream r) (vad_mediaRecorder r) (audioChunks r) (audioContext r) (analyser r) (animationFrame r).
Definition set_vad_stream (x : option nat) (r : vad_st) : vad_st :=
  mkVad (isEnabled r) (isProcessing r) (isSpeaking r) (silenceStart r) (speechStart r) x (vad_mediaRecorder r) (audioChunks r) (audioContext r) (analyser r) (animationFrame r).
Definition set_vad_mediaRecorder (x : option media_recorder) (r : vad_st) : vad_st :=
  mkVad (isEnabled r) (isProcessing r) (isSpeaking r) (silenceStart r) (speechStart r) (vad_stream r) x (audioChunks r) (audioContext r) (analyser r) (animationFrame r).
Definition set_audioChunks (x : list blob) (r : vad_st) : vad_st :=
  mkVad (isEnabled r) (isProcessing r) (isSpeaking r) (silenceStart r) (speechStart r) (vad_stream r) (vad_mediaRecorder r) x (audioContext r) (analyser r) (animationFrame r).
Definition set_audioContext (x : option nat) (r : vad_st) : vad_st :=
  mkVad (isEnabled r) (isProcessing r) (isSpeaking r) (silenceStart r) (speechStart r) (vad_stream r) (vad_mediaRecorder r) (audioChunks r) x (analyser r) (animationFrame r).
Definition set_analyser (x : option analyser_node) (r : vad_st) : vad_st :=
  mkVad (isEnabled r) (isProcessing r) (isSpeaking r) (silenceStart r) (speechStart r) (vad_stream r) (vad_mediaRecorder r) (audioChunks r) (audioContext r) x (animationFrame r).
Definition set_animationFrame (x : option nat) (r : vad_st) : vad_st :=
  mkVad (isEnabled r) (isProcessing r) (isSpeaking r) (silenceStart r) (speechStart r) (vad_stream r) (vad_mediaRecorder r) (audioChunks r) (audioContext r) (analyser r) x.

(** The transcript and response panels: text and the [streaming] class. *)
Record text_panel := mkPanel {
  textContent : string;
  streaming : bool }.

Definition set_textContent (x : string) (r : text_panel) : text_panel :=
  mkPanel x (streaming r).
Definition set_streaming (x : bool) (r : text_panel) : text_panel :=
  mkPanel (textContent r) x.

(** The record button. *)
Record button := mkButton {
  disabled : bool;
  btn_label : button_label;
  btn_recording : bool }.

Definition set_disabled (x : bool) (r : button) : button :=
  mkButton x (btn_label r) (btn_recording r).
Definition set_btn_label (x : button_label) (r : button) : button :=
  mkButton (disabled r) x (btn_recording r).
Definition set_btn_recording (x : bool) (r : button) : button :=
  mkButton (disabled r) (btn_label r) x.

(** The audio element. [ap_active]: a [play()] is under way, neither ended,
    rejected nor paused. Two traces are kept for the proofs:
    [ap_attempts], the object URLs [play()] was called on, in order, and
    [ap_cut], the URLs whose playback was cut off by a change of [src]. *)
Record audio_player := mkPlayer {
  ap_src : option nat;
  ap_hidden : bool;
  ap_active : bool;
  ap_attempts : list nat;
  ap_cut : list nat }.

Definition set_ap_src (x : option nat) (r : audio_player) : audio_player :=
  mkPlayer x (ap_hidden r) (ap_active r) (ap_attempts r) (ap_cut r).
Definition set_ap_hidden (x : bool) (r : audio_player) : audio_player :=
  mkPlayer (ap_src r) x (ap_active r) (ap_attempts r) (ap_cut r).
Definition set_ap_active (x : bool) (r : audio_player) : audio_player :=
  mkPlayer (ap_src r) (ap_hidden r) x (ap_attempts r) (ap_cut r).
Definition set_ap_attempts (x : list nat) (r : audio_player) : audio_player :=
  mkPlayer (ap_src r) (ap_hidden r) (ap_active r) x (ap_cut r).
Definition set_ap_cut (x : list nat) (r : audio_player) : audio_player :=
  mkPlayer (ap_src r) (ap_hidden r) (ap_active r) (ap_attempts r) x.

(** [elements]: the parts of the page the handlers read or write. *)
Record elements := mkElements {
  recordBtn : button;
  transcript : text_panel;
  response : text_panel;
  audioPlayer : audio_player;
  statusIndicator : STATUS;
  statusText : string;
  recordingDuration : display;
  processingTime : display;
  logsContainer : list log_entry;
  sttBadge_hidden : bool;
  llmBadge_hidden : bool;
  speakingBadge_hidden : bool;
  handsFreeToggle_checked : bool;
  volumeMeter_hidden : bool;
  volumeBar_width : Q;
  volumeStatus : volume_status;
  modelSelect_value : string }.

Definition set_recordBtn (x : button) (r : elements) : elements :=
  mkElements x (transcript r) (response r) (audioPlayer r) (statusIndicator r) (statusText r) (recordingDuration r) (processingTime r) (logsContainer r) (sttBadge_hidden r) (llmBadge_hidden r) (speakingBadge_hidden r) (handsFreeToggle_checked r) (volumeMeter_hidden r) (volumeBar_width r) (volumeStatus r) (modelSelect_value r).
Definition set_transcript (x : text_panel) (r : elements) : elements :=
  mkElements (recordBtn r) x (response r) (audioPlayer r) (statusIndicator r) (statusText r) (recordingDuration r) (processingTime r) (logsContainer r) (sttBadge_hidden r) (llmBadge_hidden r) (speakingBadge_hidden r) (handsFreeToggle_checked r) (volumeMeter_hidden r) (volumeBar_width r) (volumeStatus r) (modelSelect_value r).
Definition set_response (x : text_panel) (r : elements) : elements :=
  mkElements (recordBtn r) (transcript r) x (audioPlayer r) (statusIndicator r) (statusText r) (recordingDuration r) (processingTime r) (logsContainer r) (sttBadge_hidden r) (llmBadge_hidden r) (speakingBadge_hidden r) (handsFreeToggle_checked r) (volumeMeter_hidden r) (volumeBar_width r) (volumeStatus r) (modelSelect_value r).
Definition set_audioPlayer (x : audio_player) (r : elements) : elements :=
  mkElements (recordBtn r) (transcript r) (response r) x (statusIndicator r) (statusText r) (recordingDuration r) (processingTime r) (logsContainer r) (sttBadge_hidden r) (llmBadge_hidden r) (speakingBadge_hidden r) (handsFreeToggle_checked r) (volumeMeter_hidden r) (volumeBar_width r) (volumeStatus r) (modelSelect_value r).
Definition set_statusIndicator (x : STATUS) (r : elements) : elements :=
  mkElements (recordBtn r) (transcript r) (response r) (audioPlayer r) x (statusText r) (recordingDuration r) (processingTime r) (logsContainer r) (sttBadge_hidden r) (llmBadge_hidden r) (speakingBadge_hidden r) (handsFreeToggle_checked r) (volumeMeter_hidden r) (volumeBar_width r) (volumeStatus r) (modelSelect_value r).
Definition set_statusText (x : string) (r : elements) : elements :=
  mkElements (recordBtn r) (transcript r) (response r) (audioPlayer r) (statusIndicator r) x (recordingDuration r) (processingTime r) (logsContainer r) (sttBadge_hidden r) (llmBadge_hidden r) (speakingBadge_hidden r) (handsFreeToggle_checked r) (volumeMeter_hidden r) (volumeBar_width r) (volumeStatus r) (modelSelect_value r).
Definition set_recordingDuration (x : display) (r : elements) : elements :=
  mkElements (recordBtn r) (transcript r) (response r) (audioPlayer r) (statusIndicator r) (statusText r) x (processingTime r) (logsContainer r) (sttBadge_hidden r) (llmBadge_hidden r) (speakingBadge_hidden r) (handsFreeToggle_checked r) (volumeMeter_hidden r) (volumeBar_width r) (volumeStatus r) (modelSelect_value r).
Definition set_processingTime (x : display) (r : elements) : elements :=
  mkElements (recordBtn r) (transcript r) (response r) (audioPlayer r) (statusIndicator r) (statusText r) (recordingDuration r) x (logsContainer r) (sttBadge_hidden r) (llmBadge_hidden r) (speakingBadge_hidden r) (handsFreeToggle_checked r) (volumeMeter_hidden r) (volumeBar_width r) (volumeStatus r) (modelSelect_value r).
Definition set_logsContainer (x : list log_entry) (r : elements) : elements :=
  mkElements (recordBtn r) (transcript r) (response r) (audioPlayer r) (statusIndicator r) (statusText r) (recordingDuration r) (processingTime r) x (sttBadge_hidden r) (llmBadge_hidden r) (speakingBadge_hidden r) (handsFreeToggle_checked r) (volumeMeter_hidden r) (volumeBar_width r) (volumeStatus r) (modelSelect_value r).
Definition set_sttBadge_hidden (x : bool) (r : elements) : elements :=
  mkElements (recordBtn r) (transcript r) (response r) (audioPlayer r) (statusIndicator r) (statusText r) (recordingDuration r) (processingTime r) (logsContainer r) x (llmBadge_hidden r) (speakingBadge_hidden r) (handsFreeToggle_checked r) (volumeMeter_hidden r) (volumeBar_width r) (volumeStatus r) (modelSelect_value r).
Definition set_llmBadge_hidden (x : bool) (r : elements) : elements :=
  mkElements (recordBtn r) (transcript r) (response r) (audioPlayer r) (statusIndicator r) (statusText r) (recordingDuration r) (processingTime r) (logsContainer r) (sttBadge_hidden r) x (speakingBadge_hidden r) (handsFreeToggle_checked r) (volumeMeter_hidden r) (volumeBar_width r) (volumeStatus r) (modelSelect_value r).
Definition set_speakingBadge_hidden (x : bool) (r : elements) : elements :=
  mkElements (recordBtn r) (transcript r) (response r) (audioPlayer r) (statusIndicator r) (statusText r) (recordingDuration r) (processingTime r) (logsContainer r) (sttBadge_hidden r) (llmBadge_hidden r) x (handsFreeToggle_checked r) (volumeMeter_hidden r) (volumeBar_width r) (volumeStatus r) (modelSelect_value r).
Definition set_handsFreeToggle_checked (x : bool) (r : elements) : elements :=
  mkElements (recordBtn r) (transcript r) (response r) (audioPlayer r) (statusIndicator r) (statusText r) (recordingDuration r) (processingTime r) (logsContainer r) (sttBadge_hidden r) (llmBadge_hidden r) (speakingBadge_hidden r) x (volumeMeter_hidden r) (volumeBar_width r) (volumeStatus r) (modelSelect_value r).
Definition set_volumeMeter_hidden (x : bool) (r : elements) : elements :=
  mkElements (recordBtn r) (transcript r) (response r) (audioPlayer r) (statusIndicator r) (statusText r) (recordingDuration r) (processingTime r) (logsContainer r) (sttBadge_hidden r) (llmBadge_hidden r) (speakingBadge_hidden r) (handsFreeToggle_checked r) x (volumeBar_width r) (volumeStatus r) (modelSelect_value r).
Definition set_volumeBar_width (x : Q) (r : elements) : elements :=
  mkElements (recordBtn r) (transcript r) (response r) (audioPlayer r) (statusIndicator r) (statusText r) (recordingDuration r) (processingTime r) (logsContainer r) (sttBadge_hidden r) (llmBadge_hidden r) (speakingBadge_hidden r) (handsFreeToggle_checked r) (volumeMeter_hidden r) x (volumeStatus r) (modelSelect_value r).
Definition set_volumeStatus (x : volume_status) (r : elements) : elements :=
  mkElements (recordBtn r) (transcript r) (response r) (audioPlayer r) (statusIndicator r) (statusText r) (recordingDuration r) (processingTime r) (logsContainer r) (sttBadge_hidden r) (llmBadge_hidden r) (speakingBadge_hidden r) (handsFreeToggle_checked r) (volumeMeter_hidden r) (volumeBar_width r) x (modelSelect_value r).
Definition set_modelSelect_value (x : string) (r : elements) : elements :=
  mkElements (recordBtn r) (transcript r) (response r) (audioPlayer r) (statusIndicator r) (statusText r) (recordingDuration r) (processingTime r) (logsContainer r) (sttBadge_hidden r) (llmBadge_hidden r) (speakingBadge_hidden r) (handsFreeToggle_checked r) (volumeMeter_hidden r) (volumeBar_width r) (volumeStatus r) x.

(** The program's [state] (first six fields), its [elements], and the
    platform: the promise store ([resolver_calls] traces every call of a
    [resolve] or [reject]), the sockets created so far, microphone streams
    and audio contexts (true while live), animation-frame callbacks, and
    the object URLs created. *)
Record world := mkWorld {
  websocket : option nat;
  pipelineResolve : option nat;
  processingStartTime : option Z;
  recording : recording_st;
  audio : audio_st;
  vad : vad_st;
  el : elements;
  promises : list outcome;
  resolver_calls : list (nat * outcome);
  sockets : list web_socket;
  streams : list bool;
  contexts : list bool;
  raf_next : nat;
  raf_pending : list nat;
  object_urls : list blob }.

Definition set_websocket (x : option nat) (r : world) : world :=
  mkWorld x (pipelineResolve r) (processingStartTime r) (recording r) (audio r) (vad r) (el r) (promises r) (resolver_calls r) (sockets r) (streams r) (contexts r) (raf_next r) (raf_pending r) (object_urls r).
Definition set_pipelineResolve (x : option nat) (r : world) : world :=
  mkWorld (websocket r) x (processingStartTime r) (recording r) (audio r) (vad r) (el r) (promises r) (resolver_calls r) (sockets r) (streams r) (contexts r) (raf_next r) (raf_pending r) (object_urls r).
Definition set_processingStartTime (x : option Z) (r : world) : world :=
  mkWorld (websocket r) (pipelineResolve r) x (recording r) (audio r) (vad r) (el r) (promises r) (resolver_calls r) (sockets r) (streams r) (contexts r) (raf_next r) (raf_pending r) (object_urls r).
Definition set_recording (x : recording_st) (r : world) : world :=
  mkWorld (websocket r) (pipelineResolve r) (processingStartTime r) x (audio r) (vad r) (el r) (promises r) (resolver_calls r) (sockets r) (streams r) (contexts r) (raf_next r) (raf_pending r) (object_urls r).
Definition set_audio (x : audio_st) (r : world) : world :=
  mkWorld (websocket r) (pipelineResolve r) (processingStartTime r) (recording r) x (vad r) (el r) (promises r) (resolver_calls r) (sockets r) (streams r) (contexts r) (raf_next r) (raf_pending r) (object_urls r).
Definition set_vad (x : vad_st) (r : world) : world :=
  mkWorld (websocket r) (pipelineResolve r) (processingStartTime r) (recording r) (audio r) x (el r) (promises r) (resolver_calls r) (sockets r) (streams r) (contexts r) (raf_next r) (raf_pending r) (object_urls r).
Definition set_el (x : elements) (r : world) : world :=
  mkWorld (websocket r) (pipelineResolve r) (processingStartTime r) (recording r) (audio r) (vad r) x (promises r) (resolver_calls r) (sockets r) (streams r) (contexts r) (raf_next r) (raf_pending r) (object_urls r).
Definition set_promises (x : list outcome) (r : world) : world :=
  mkWorld (websocket r) (pipelineResolve r) (processingStartTime r) (recording r) (audio r) (vad r) (el r) x (resolver_calls r) (sockets r) (streams r) (contexts r) (raf_next r) (raf_pending r) (object_urls r).
Definition set_resolver_calls (x : list (nat * outcome)) (r : world) : world :=
  mkWorld (websocket r) (pipelineResolve r) (processingStartTime r) (recording r) (audio r) (vad r) (el r) (promises r) x (sockets r) (streams r) (contexts r) (raf_next r) (raf_pending r) (object_urls r).
Definition set_sockets (x : list web_socket) (r : world) : world :=
  mkWorld (websocket r) (pipelineResolve r) (processingStartTime r) (recording r) (audio r) (vad r) (el r) (promises r) (resolver_calls r) x (streams r) (contexts r) (raf_next r) (raf_pending r) (object_urls r).
Definition set_streams (x : list bool) (r : world) : world :=
  mkWorld (websocket r) (pipelineResolve r) (processingStartTime r) (recording r) (audio r) (vad r) (el r) (promises r) (resolver_calls r) (sockets r) x (contexts r) (raf_next r) (raf_pending r) (object_urls r).
Definition set_contexts (x : list bool) (r : world) : world :=
  mkWorld (websocket r) (pipelineResolve r) (processingStartTime r) (recording r) (audio r) (vad r) (el r) (promises r) (resolver_calls r) (sockets r) (streams r) x (raf_next r) (raf_pending r) (object_urls r).
Definition set_raf_next (x : nat) (r : world) : world :=
  mkWorld (websocket r) (pipelineResolve r) (processingStartTime r) (recording r) (audio r) (vad r) (el r) (promises r) (resolver_calls r) (sockets r) (streams r) (contexts r) x (raf_pending r) (object_urls r).
Definition set_raf_pending (x : list nat) (r : world) : world :=
  mkWorld (websocket r) (pipelineResolve r) (processingStartTime r) (recording r) (audio r) (vad r) (el r) (promises r) (resolver_calls r) (sockets r) (streams r) (contexts r) (raf_next r) x (object_urls r).
Definition set_object_urls (x : list blob) (r : world) : world :=
  mkWorld (websocket r) (pipelineResolve r) (processingStartTime r) (recording r) (audio r) (vad r) (el r) (promises r) (resolver_calls r) (sockets r) (streams r) (contexts r) (raf_next r) (raf_pending r) x.

Definition upd_recording (f : recording_st -> recording_st) (w : world) : world :=
  set_recording (f (recording w)) w.
Definition upd_audio (f : audio_st -> audio_st) (w : world) : world :=
  set_audio (f (audio w)) w.
Definition upd_vad (f : vad_st -> vad_st) (w : world) : world :=
  set_vad (f (vad w)) w.
Definition upd_el (f : elements -> elements) (w : world) : world :=
  set_el (f (el w)) w.
Definition upd_player (f : audio_player -> audio_player) (w : world) : world :=
  upd_el (fun e => set_audioPlayer (f (audioPlayer e)) e) w.
Definition upd_recordBtn (f : button -> button) (w : world) : world :=
  upd_el (fun e => set_recordBtn (f (recordBtn e)) e) w.

(** JavaScript truthiness of a nullable number: [null] and [0] are falsy. *)
Definition truthy (t : option Z) : bool :=
  match t with
  | Some n => negb (n =? 0)
  | None => false
  end.

(** A nullable number in arithmetic: [null] counts as [0]. *)
Definition ToNumber (t : option Z) : Z := default 0 t.

(** ** Promises *)

(** [new Promise(...)]: a fresh pending promise, named by its index. *)
Definition new_promise (w : world) : nat * world :=
  (length (promises w), set_promises (promises w ++ [Pending]) w).

(** Calling the [resolve] or [reject] of promise [p]: the first call
    settles it, later calls change nothing. *)
Definition settle (p : nat) (o : outcome) (w : world) : world :=
  let w := set_resolver_calls (resolver_calls w ++ [(p, o)]) w in
  match promises w !! p with
  | Some Pending => set_promises (<[p := o]> (promises w)) w
  | _ => w
  end.

Definition resolve (p : nat) (v : value) : world -> world := settle p (Fulfilled v).
Definition reject (p : nat) (e : string) : world -> world := settle p (Rejected e).

(** ** 4. Utilities *)

Definition log (m : log_message) (t : log_type) (w : world) : world :=
  upd_el (fun e => set_logsContainer (logsContainer e ++ [(m, t)]) e) w.

Definition setStatus (status : STATUS) (text : string) (w : world) : world :=
  upd_el (fun e => set_statusText text (set_statusIndicator status e)) w.

(** The two (element, badge) pairs the streaming effect is applied to. *)
Inductive panel := Transcript | Response.

Definition startStreamingEffect (p : panel) (w : world) : world :=
  match p with
  | Transcript =>
      upd_el (fun e => set_sttBadge_hidden false
                         (set_transcript (set_streaming true (transcript e)) e)) w
  | Response =>
      upd_el (fun e => set_llmBadge_hidden false
                         (set_response (set_streaming true (response e)) e)) w
  end.

Definition stopStreamingEffect (p : panel) (w : world) : world :=
  match p with
  | Transcript =>
      upd_el (fun e => set_sttBadge_hidden true
                         (set_transcript (set_streaming false (transcript e)) e)) w
  | Response =>
      upd_el (fun e => set_llmBadge_hidden true
                         (set_response (set_streaming false (response e)) e)) w
  end.

(** [base64ToBlob]: [atob] converts its argument to a string first and
    throws on text that is not base64. *)
Definition base64ToBlob (base64 : jsval) : option blob :=
  atob (ToString base64).

(** [URL.createObjectURL] *)
Definition createObjectURL (b : blob) (w : world) : nat * world :=
  (length (object_urls w), set_object_urls (object_urls w ++ [b]) w).

(** *** The audio element *)

(** Assigning [src] loads a new resource: what was playing is cut off. *)
Definition player_set_src (u : option nat) (a : audio_player) : audio_player :=
  let a' := if ap_active a
            then set_ap_cut (ap_cut a ++ option_list (ap_src a)) a
            else a in
  set_ap_src u (set_ap_active false a').

(** [play()]: an attempt on the current source. *)
Definition player_play (a : audio_player) : audio_player :=
  match ap_src a with
  | Some u => set_ap_attempts (ap_attempts a ++ [u]) (set_ap_active true a)
  | None => a
  end.

(** [pause()] *)
Definition player_pause (a : audio_player) : audio_player :=
  set_ap_active false a.

(** ** 5. Audio queue *)

Module AudioQueue.

Definition playNext (w : world) : world :=
  match queue (audio w) with
  | [] =>
      let w := upd_audio (set_isPlaying false) w in
      let w := upd_el (set_speakingBadge_hidden true) w in
      if isEnabled (vad w) && negb (isProcessing (vad w)) then
        let w := upd_el (set_volumeStatus (mkVolumeStatus Listening vc_plain)) w in
        setStatus READY "Ready - speak anytime" w
      else w
  | next :: rest =>
      let w := upd_audio (set_isPlaying true) w in
      let w := upd_el (set_speakingBadge_hidden false) w in
      let w := upd_audio (set_queue rest) w in
      let w := upd_player (player_set_src (Some (url next))) w in
      let w := upd_player (set_ap_hidden false) w in
      upd_player player_play w
  end.

Definition add (audioBase64 index sentence : jsval) (w : world)
  : completion world :=
  match base64ToBlob audioBase64 with
  | None => Throw "InvalidCharacterError" w
  | Some b =>
      let '(u, w) := createObjectURL b w in
      let w := upd_audio (fun a => set_queue (queue a ++ [mkItem u index sentence]) a) w in
      Normal (if isPlaying (audio w) then w else playNext w)
  end.

Definition reset (w : world) : world :=
  let w := upd_audio (set_queue []) w in
  let w := upd_audio (set_isPlaying false) w in
  let w := upd_audio (set_currentIndex 0) w in
  upd_el (set_speakingBadge_hidden true) w.

End AudioQueue.

(** The audio element's listeners. *)
Definition audioPlayer_onended (w : world) : world := AudioQueue.playNext w.

Definition audioPlayer_onpause (w : world) : world :=
  match queue (audio w) with
  | [] => upd_el (set_speakingBadge_hidden true) w
  | _ => w
  end.

(** The [catch] on the promise of [play()]. *)
Definition play_catch (err : string) (w : world) : world :=
  AudioQueue.playNext (log (LogAudioPlayError err) log_error w).

(** The platform, when the chunk being played reaches its end: it fires
    [pause], then [ended]. *)
Definition playback_finished (w : world) : world :=
  audioPlayer_onended (audioPlayer_onpause (upd_player player_pause w)).

(** The platform, when it rejects the promise of the [play()] under way. *)
Definition playback_failed (err : string) (w : world) : world :=
  play_catch err (upd_player (set_ap_active false) w).

(** ** 7. WebSocket *)

(** The [case] labels of [handleMessage]. *)
Inductive event_kind :=
| stt_start | stt_segment | stt_done
| llm_start | llm_token | llm_done
| tts_start | tts_chunk | tts_done
| pipeline_done
| error_event.

Definition kind_label (k : event_kind) : string :=
  match k with
  | stt_start => "stt_start"
  | stt_segment => "stt_segment"
  | stt_done => "stt_done"
  | llm_start => "llm_start"
  | llm_token => "llm_token"
  | llm_done => "llm_done"
  | tts_start => "tts_start"
  | tts_chunk => "tts_chunk"
  | tts_done => "tts_done"
  | pipeline_done => "pipeline_done"
  | error_event => "error"
  end.

Definition all_kinds : list event_kind :=
  [stt_start; stt_segment; stt_done; llm_start; llm_token; llm_done;
   tts_start; tts_chunk; tts_done; pipeline_done; error_event].

(** [switch (data.type)]: the first label strictly equal to the value, if
    any; only a string can equal a label. *)
Definition switch_case (type : jsval) : option event_kind :=
  match type with
  | JStr s => find (fun k => String.eqb s (kind_label k)) all_kinds
  | _ => None
  end.

Definition socket_is_open (w : world) : bool :=
  match websocket w with
  | Some i =>
      match sockets w !! i with
      | Some s => match readyState s with OPEN => true | _ => false end
      | None => false
      end
  | None => false
  end.

Definition upd_socket (i : nat) (f : web_socket -> web_socket) (w : world) : world :=
  set_sockets (alter f i (sockets w)) w.

Module WebSocketManager.

(** The executor of the promise runs at once; the result is the promise
    returned to the caller. *)
Definition connect (w : world) : nat * world :=
  let '(p, w) := new_promise w in
  if socket_is_open w then (p, resolve p (VSocket (websocket w)) w)
  else
    let i := length (sockets w) in
    let w := set_sockets (sockets w ++ [mkSocket CONNECTING p []]) w in
    (p, set_websocket (Some i) w).

(** The handlers installed on socket [i]. *)
Definition onopen (i : nat) (w : world) : world :=
  match sockets w !! i with
  | Some s => resolve (ws_owner s) (VSocket (websocket w)) w
  | None => w
  end.

Definition onerror (i : nat) (w : world) : world :=
  match sockets w !! i with
  | Some s =>
      reject (ws_owner s) "WebSocket connection failed"
             (log LogConnectionError log_error w)
  | None => w
  end.

Definition onclose (i : nat) (w : world) : world :=
  set_websocket None w.

Definition handleMessage (data : message) (now : Z) (w : world)
  : completion world :=
  match switch_case (msg_type data) with
  | Some stt_start =>
      let w := upd_el (fun e => set_transcript (set_textContent "" (transcript e)) e) w in
      let w := startStreamingEffect Transcript w in
      Normal (setStatus PROCESSING "Transcribing..." w)
  | Some stt_segment =>
      Normal (upd_el (fun e =>
        set_transcript
          (set_textContent
             (textContent (transcript e) ++ (ToString (msg_content data) ++ " "))%string
             (transcript e)) e) w)
  | Some stt_done =>
      let w := stopStreamingEffect Transcript w in
      let w := upd_el (fun e =>
                 set_transcript
                   (set_textContent (toTextContent (msg_full_transcript data))
                                    (transcript e)) e) w in
      match msg_full_transcript data with
      | JStr s => Normal (log (LogTranscribed (substring 0 40 s)) log_success w)
      | _ => Throw "TypeError" w
      end
  | Some llm_start =>
      let w := upd_el (fun e => set_response (set_textContent "" (response e)) e) w in
      let w := startStreamingEffect Response w in
      Normal (setStatus PROCESSING "Generating..." w)
  | Some llm_token =>
      Normal (upd_el (fun e =>
        set_response
          (set_textContent
             (textContent (response e) ++ ToString (msg_content data))%string
             (response e)) e) w)
  | Some llm_done =>
      Normal (stopStreamingEffect Response w)
  | Some tts_start =>
      let w := AudioQueue.reset w in
      Normal (setStatus PROCESSING "Speaking..." w)
  | Some tts_chunk =>
      AudioQueue.add (msg_audio data) (msg_index data) (msg_sentence data) w
  | Some tts_done =>
      Normal w
  | Some pipeline_done =>
      let w := stopStreamingEffect Transcript w in
      let w := stopStreamingEffect Response w in
      let elapsed := now - ToNumber (processingStartTime w) in
      let w := upd_el (set_processingTime (DSeconds elapsed)) w in
      let w := log (LogComplete elapsed) log_success w in
      let w := setStatus READY "Ready" w in
      let w := if isEnabled (vad w) then w
               else upd_recordBtn (set_disabled false) w in
      Normal match pipelineResolve w with
             | Some p => set_pipelineResolve None (resolve p (VBool true) w)
             | None => w
             end
  | Some error_event =>
      let w := stopStreamingEffect Transcript w in
      let w := stopStreamingEffect Response w in
      let w := log (LogServerError (ToString (msg_message data))) log_error w in
      let w := setStatus READY "Ready" w in
      let w := if isEnabled (vad w) then w
               else upd_recordBtn (set_disabled false) w in
      Normal match pipelineResolve w with
             | Some p => set_pipelineResolve None (resolve p (VBool false) w)
             | None => w
             end
  | None => Normal w
  end.

End WebSocketManager.

(** The platform's socket events: it updates [readyState], then runs the
    handler. *)
Definition socket_opened (i : nat) (w : world) : world :=
  WebSocketManager.onopen i (upd_socket i (fun s => mkSocket OPEN (ws_owner s) (ws_sent s)) w).

Definition socket_errored (i : nat) (w : world) : world :=
  WebSocketManager.onerror i w.

Definition socket_closed (i : nat) (w : world) : world :=
  WebSocketManager.onclose i (upd_socket i (fun s => mkSocket CLOSED (ws_owner s) (ws_sent s)) w).

(** [state.websocket.send(...)]: throws on a null reference and on a
    socket still connecting; a closing or closed socket drops the data. *)
Definition websocket_send (r : audio_request) (w : world) : completion world :=
  match websocket w with
  | None => Throw "TypeError" w
  | Some i =>
      match sockets w !! i with
      | None => Throw "TypeError" w
      | Some s =>
          match readyState s with
          | CONNECTING => Throw "InvalidStateError" w
          | OPEN => Normal (upd_socket i (fun s => mkSocket (readyState s) (ws_owner s) (ws_sent s ++ [r])) w)
          | CLOSING | CLOSED => Normal w
          end
      end
  end.

(** ** 8. Pipeline *)

(** What the FileReader of [blobToBase64] ends with: the base64 text of
    the data URL, or an error. *)
Inductive read_result :=
| ReadOk (base64 : string)
| ReadError.

(** A call of [Pipeline.run] suspended at an [await]: the promise it
    returned, the promise of its [connect()], and its argument. *)
Record run_task := mkTask {
  run_promise : nat;
  run_connect : nat;
  run_blob : blob }.

Module Pipeline.

(** Up to [await WebSocketManager.connect()]. The promise of the [async]
    wrapper follows the one built inside; they are kept as one. *)
Definition run (audioBlob : blob) (w : world) : run_task * world :=
  let '(p, w) := new_promise w in
  let '(c, w) := WebSocketManager.connect w in
  (mkTask p c audioBlob, w).

Definition catch (t : run_task) (err : string) (w : world) : world :=
  reject (run_promise t) err (log (LogPipelineError err) log_error w).

(** Resumed when the connect promise is settled, up to
    [await blobToBase64(audioBlob)]. *)
Definition run_connected (t : run_task) (now : Z) (w : world) : world :=
  match promises w !! run_connect t with
  | Some (Fulfilled _) =>
      let w := set_pipelineResolve (Some (run_promise t)) w in
      set_processingStartTime (Some now) w
  | Some (Rejected err) => catch t err w
  | _ => w
  end.

(** Resumed with the outcome of the encoding, to the end. *)
Definition run_encoded (t : run_task) (r : read_result) (w : world) : world :=
  match r with
  | ReadOk base64Audio =>
      let w := log (LogSending (blob_size (run_blob t))) log_info w in
      match websocket_send (mkRequest base64Audio (modelSelect_value (el w))) w with
      | Normal w => w
      | Throw err w => catch t err w
      end
  | ReadError => catch t "Failed to read blob" w
  end.

End Pipeline.

(** ** 6. Voice activity detection *)

(** [requestAnimationFrame(() => this.monitorVolume())]: the callback is
    queued and its id returned. *)
Definition requestAnimationFrame (w : world) : nat * world :=
  let id := raf_next w in
  (id, set_raf_next (S id) (set_raf_pending (raf_pending w ++ [id]) w)).

Definition cancelAnimationFrame (id : nat) (w : world) : world :=
  set_raf_pending (filter (fun j => negb (Nat.eqb j id)) (raf_pending w)) w.

(** Whether a platform call succeeds or throws. *)
Inductive attempt :=
| Succeeds
| Fails (error : string).

(** What the platform answers to the calls of [VAD.start]. *)
Record devices := mkDevices {
  getUserMedia : attempt;
  newAudioContext : attempt;
  createMediaStreamSource : attempt;
  newMediaRecorder : attempt }.

Definition recorder_is (s : recorder_state) (r : option media_recorder) : bool :=
  match r with
  | Some m =>
      match mr_state m, s with
      | inactive, inactive | recording_, recording_ | paused, paused => true
      | _, _ => false
      end
  | None => false
  end.

Definition recorder_set (s : recorder_state) (r : option media_recorder)
  : option media_recorder :=
  option_map (fun m => mkRecorder s (mr_stream m)) r.

Definition sum_bytes (l : list N) : N := fold_right N.add 0%N l.

Module VAD.

(** The recorder's [start()] and [stop()] are called only in the state
    they require, as tested just before, and are taken to succeed. *)
Definition onSpeechDetected (now : Z) (w : world) : world :=
  let w :=
    if isSpeaking (vad w) then w
    else
      let w := upd_vad (set_isSpeaking true) w in
      let w := upd_vad (set_speechStart (Some now)) w in
      let w := upd_vad (set_silenceStart None) w in
      let w := upd_vad (set_audioChunks []) w in
      if recorder_is inactive (vad_mediaRecorder (vad w)) then
        let w := upd_vad (fun v => set_vad_mediaRecorder
                                     (recorder_set recording_ (vad_mediaRecorder v)) v) w in
        let w := upd_recording (set_rec_startTime (Some now)) w in
        setStatus RECORDING "Listening..." w
      else w in
  let w := upd_el (set_volumeStatus (mkVolumeStatus Speaking vc_speaking)) w in
  upd_vad (set_silenceStart None) w.

Definition onSilenceDetected (now : Z) (w : world) : world :=
  if isSpeaking (vad w) then
    let w := if truthy (silenceStart (vad w)) then w
             else upd_vad (set_silenceStart (Some now)) w in
    let silenceDuration := now - ToNumber (silenceStart (vad w)) in
    let w := upd_el (fun e =>
               set_volumeStatus
                 (mkVolumeStatus
                    (Silence (CONFIG.VAD.silenceTimeout - silenceDuration))
                    (vs_class (volumeStatus e))) e) w in
    if CONFIG.VAD.silenceTimeout <=? silenceDuration then
      let w := upd_vad (set_isSpeaking false) w in
      let w :=
        if recorder_is recording_ (vad_mediaRecorder (vad w)) then
          let w := upd_el (set_recordingDuration
                             (DSeconds (now - ToNumber (rec_startTime (recording w))))) w in
          upd_vad (fun v => set_vad_mediaRecorder
                              (recorder_set inactive (vad_mediaRecorder v)) v) w
        else w in
      let w := upd_vad (set_silenceStart None) w in
      upd_vad (set_speechStart None) w
    else w
  else
    upd_el (set_volumeStatus (mkVolumeStatus Listening vc_plain)) w.

(** One run of the sampling loop. [sample] is what the analyser writes
    into the array of [frequencyBinCount] bytes; [reduce] without an
    initial value throws on an empty array. The arithmetic is exact: with
    the 128 bins [start] sets up, every intermediate value is a double
    without rounding. *)
Definition monitorVolume (sample : list N) (now : Z) (w : world)
  : completion world :=
  match analyser (vad w) with
  | None => Normal w
  | Some a =>
      if negb (isEnabled (vad w)) then Normal w
      else
        let n := frequencyBinCount a in
        let dataArray := take n (sample ++ repeat 0%N n) in
        match dataArray with
        | [] => Throw "TypeError" w
        | _ =>
            let average :=
              (inject_Z (Z.of_N (sum_bytes dataArray))
               / inject_Z (Z.of_nat (length dataArray)))%Q in
            let volumePercent := Qmin (100 # 1) (average / (128 # 1) * (100 # 1))%Q in
            let w := upd_el (set_volumeBar_width volumePercent) w in
            if isProcessing (vad w) || isPlaying (audio w) then
              let w := upd_el (set_volumeStatus
                         (mkVolumeStatus
                            (if isPlaying (audio w) then AISpeaking else Processing)
                            vc_processing)) w in
              let '(id, w) := requestAnimationFrame w in
              Normal (upd_vad (set_animationFrame (Some id)) w)
            else
              let w := if negb (Qle_bool volumePercent CONFIG.VAD.volumeThreshold)
                       then onSpeechDetected now w
                       else onSilenceDetected now w in
              let '(id, w) := requestAnimationFrame w in
              Normal (upd_vad (set_animationFrame (Some id)) w)
        end
  end.

Definition catch (err : string) (w : world) : world :=
  let w := log (LogMicrophoneError err) log_error w in
  let w := upd_el (set_handsFreeToggle_checked false) w in
  upd_vad (set_isEnabled false) w.

(** [start], resumed with the answer to [getUserMedia] (nothing is done
    before that [await]). [sample] and [now] feed the first
    [monitorVolume]. *)
Definition start (d : devices) (sample : list N) (now : Z) (w : world) : world :=
  match getUserMedia d with
  | Fails err => catch err w
  | Succeeds =>
      let stream := length (streams w) in
      let w := set_streams (streams w ++ [true]) w in
      let w := upd_vad (set_vad_stream (Some stream)) w in
      match newAudioContext d with
      | Fails err => catch err w
      | Succeeds =>
          let ctx := length (contexts w) in
          let w := set_contexts (contexts w ++ [true]) w in
          let w := upd_vad (set_audioContext (Some ctx)) w in
          let w := upd_vad (set_analyser (Some (mkAnalyser 256 (8 # 10)))) w in
          match createMediaStreamSource d with
          | Fails err => catch err w
          | Succeeds =>
              match newMediaRecorder d with
              | Fails err => catch err w
              | Succeeds =>
                  let w := upd_vad (set_vad_mediaRecorder
                                      (Some (mkRecorder inactive stream))) w in
                  match monitorVolume sample now w with
                  | Throw err w => catch err w
                  | Normal w =>
                      let w := upd_el (set_volumeMeter_hidden false) w in
                      let w := upd_recordBtn (set_disabled true) w in
                      let w := upd_recordBtn (set_btn_label HandsFreeActive) w in
                      log LogHandsFreeEnabled log_success w
                  end
              end
          end
      end
  end.

Definition stop (w : world) : world :=
  let w :=
    match animationFrame (vad w) with
    | Some (S id) =>
        upd_vad (set_animationFrame None) (cancelAnimationFrame (S id) w)
    | _ => w
    end in
  let w :=
    if recorder_is recording_ (vad_mediaRecorder (vad w)) then
      upd_vad (fun v => set_vad_mediaRecorder
                          (recorder_set inactive (vad_mediaRecorder v)) v) w
    else w in
  let w :=
    match audioContext (vad w) with
    | Some c => set_contexts (<[c := false]> (contexts w)) w
    | None => w
    end in
  let w :=
    match vad_stream (vad w) with
    | Some s => set_streams (<[s := false]> (streams w)) w
    | None => w
    end in
  let w := upd_vad (fun v =>
             set_vad_stream None
               (set_analyser None
                  (set_audioContext None
                     (set_audioChunks []
                        (set_speechStart None
                           (set_silenceStart None
                              (set_isSpeaking false v))))))) w in
  let w := upd_el (set_volumeMeter_hidden true) w in
  let w := upd_recordBtn (set_disabled false) w in
  upd_recordBtn (set_btn_label StartRecording) w.

(** The recorder's [ondataavailable]. *)
Definition ondataavailable (data : blob) (w : world) : world :=
  if 0 <? blob_size data
  then upd_vad (fun v => set_audioChunks (audioChunks v ++ [data]) v) w
  else w.

(** The recorder's [onstop], up to [await Pipeline.run(audioBlob)]: the
    result names the suspended call when [Pipeline.run] was called, and
    is [None] when the handler returned without calling it. *)
Definition onRecordingStop (w : world) : option run_task * world :=
  if (length (audioChunks (vad w)) =? 0)%nat || isProcessing (vad w) then
    (None, upd_vad (set_audioChunks []) w)
  else
    let audioBlob := Blob (audioChunks (vad w)) in
    let w := upd_vad (set_audioChunks []) w in
    let w := upd_vad (set_isProcessing true) w in
    let w := upd_el (set_volumeStatus (mkVolumeStatus Processing vc_processing)) w in
    if blob_size audioBlob <? CONFIG.VAD.minAudioSize then
      let w := log LogAudioTooShort log_info w in
      (None, upd_vad (set_isProcessing false) w)
    else
      let '(t, w) := Pipeline.run audioBlob w in
      (Some t, w).

(** Resumed when the promise of [Pipeline.run] is settled. *)
Definition onRecordingStop_resumed (t : run_task) (w : world) : world :=
  match promises w !! run_promise t with
  | Some (Fulfilled _) =>
      let w :=
        if isEnabled (vad w) then
          let w := upd_el (set_volumeStatus (mkVolumeStatus Listening vc_plain)) w in
          setStatus READY "Ready" w
        else w in
      upd_vad (set_isProcessing false) w
  | Some (Rejected err) =>
      let w := log (LogPipelineError err) log_error w in
      let w := upd_el (fun e => set_response
                                  (set_textContent ("Error: " ++ err)%string (response e)) e) w in
      let w := setStatus READY "Ready" w in
      let w :=
        if isEnabled (vad w)
        then upd_el (set_volumeStatus (mkVolumeStatus Listening vc_plain)) w
        else w in
      upd_vad (set_isProcessing false) w
  | _ => w
  end.

Definition reset (w : world) : world :=
  let w := upd_vad (set_isSpeaking false) w in
  let w := upd_vad (set_silenceStart None) w in
  let w := upd_vad (set_speechStart None) w in
  let w := upd_vad (set_audioChunks []) w in
  let w := upd_vad (set_isProcessing false) w in
  upd_el (set_volumeStatus (mkVolumeStatus Listening vc_plain)) w.

End VAD.

(** The platform running a queued animation-frame callback. *)
Definition animation_frame (id : nat) (sample : list N) (now : Z) (w : world)
  : completion world :=
  if existsb (Nat.eqb id) (raf_pending w)
  then VAD.monitorVolume sample now (cancelAnimationFrame id w)
  else Normal w.

(** ** 9. Manual recording *)

Module Recording.

(** Up to [await Pipeline.run(audioBlob)]. *)
Definition process (audioBlob : blob) (w : world) : run_task * world :=
  Pipeline.run audioBlob w.

(** Resumed when the promise of [Pipeline.run] is settled. *)
Definition process_resumed (t : run_task) (w : world) : world :=
  match promises w !! run_promise t with
  | Some (Rejected err) =>
      let w := log (LogError err) log_error w in
      let w := upd_el (fun e => set_response
                                  (set_textContent ("Error: " ++ err)%string (response e)) e) w in
      let w := setStatus READY "Ready" w in
      upd_recordBtn (set_disabled false) w
  | _ => w
  end.

(** The recorder's handlers installed by [init]. *)
Definition ondataavailable (data : blob) (w : world) : world :=
  if 0 <? blob_size data
  then upd_recording (fun r => set_rec_chunks (rec_chunks r ++ [data]) r) w
  else w.

Definition onstop (w : world) : run_task * world :=
  let audioBlob := Blob (rec_chunks (recording w)) in
  let w := upd_recording (set_rec_chunks []) w in
  process audioBlob w.

(** [clearInterval] stops the display timer, which is not modelled; the
    [timer] field keeps its value. *)
Definition stop (w : world) : world :=
  match rec_mediaRecorder (recording w) with
  | None => w
  | Some _ =>
      if negb (rec_isActive (recording w)) then w
      else
        let w := upd_recording (fun r => set_rec_mediaRecorder
                                           (recorder_set inactive (rec_mediaRecorder r)) r) w in
        let w := upd_recording (set_rec_isActive false) w in
        let w := upd_recordBtn (set_btn_label StartRecording) w in
        let w := upd_recordBtn (set_btn_recording false) w in
        let w := upd_recordBtn (set_disabled true) w in
        setStatus PROCESSING "Processing..." w
  end.

(** [init], resumed with the answer to [getUserMedia] (nothing is done
    before that [await]). The stream is a local of [init]: when the
    recorder cannot be constructed it stays live and nothing refers to
    it. *)
Definition init (d : devices) (w : world) : bool * world :=
  match getUserMedia d with
  | Fails err => (false, log (LogMicrophoneError err) log_error w)
  | Succeeds =>
      let stream := length (streams w) in
      let w := set_streams (streams w ++ [true]) w in
      match newMediaRecorder d with
      | Fails err => (false, log (LogMicrophoneError err) log_error w)
      | Succeeds =>
          (true, upd_recording (set_rec_mediaRecorder
                                  (Some (mkRecorder inactive stream))) w)
      end
  end.

(** [start] from [state.recording.chunks = []] on. The recorder's
    [start()] throws unless the recorder is inactive. [timer] is the id
    [setInterval] returns. *)
Definition start_recording (timer : nat) (now : Z) (w : world) : completion world :=
  let w := upd_recording (set_rec_chunks []) w in
  match rec_mediaRecorder (recording w) with
  | None => Throw "TypeError" w
  | Some m =>
      if recorder_is inactive (Some m) then
        let w := upd_recording (fun r => set_rec_mediaRecorder
                                           (recorder_set recording_ (rec_mediaRecorder r)) r) w in
        let w := upd_recording (set_rec_isActive true) w in
        let w := upd_recording (set_rec_startTime (Some now)) w in
        let w := upd_recordBtn (set_btn_label StopRecording) w in
        let w := upd_recordBtn (set_btn_recording true) w in
        let w := setStatus RECORDING "Recording..." w in
        Normal (upd_recording (set_rec_timer (Some timer)) w)
      else Throw "InvalidStateError" w
  end.

(** [start], with no other handler run while [init] is awaited. *)
Definition start (d : devices) (timer : nat) (now : Z) (w : world) : completion world :=
  match rec_mediaRecorder (recording w) with
  | None =>
      let '(ok, w) := init d w in
      if ok then start_recording timer now w else Normal w
  | Some _ => start_recording timer now w
  end.

(** The callback of the interval set by [start]. *)
Definition timer_tick (now : Z) (w : world) : world :=
  upd_el (set_recordingDuration
            (DSeconds (now - ToNumber (rec_startTime (recording w))))) w.

Definition toggle (d : devices) (timer : nat) (now : Z) (w : world) : completion world :=
  if rec_isActive (recording w) then Normal (stop w) else start d timer now w.

End Recording.

(** ** 10. Clear and reset *)

Definition clearAll (w : world) : world :=
  let w := stopStreamingEffect Transcript w in
  let w := stopStreamingEffect Response w in
  let w := AudioQueue.reset w in
  let w := upd_player player_pause w in
  let w := if isEnabled (vad w) then VAD.reset w else w in
  let w := upd_el (fun e => set_transcript
             (set_textContent "Your transcribed speech will appear here..." (transcript e)) e) w in
  let w := upd_el (fun e => set_response
             (set_textContent "The AI response will appear here..." (response e)) e) w in
  let w := upd_player (set_ap_hidden true) w in
  let w := upd_player (player_set_src None) w in
  let w := upd_el (set_recordingDuration (DText "0.00")) w in
  let w := upd_el (set_processingTime (DText "0.00")) w in
  upd_el (set_logsContainer [(LogReady, log_info)]) w.

(** ** 11. Event handlers *)

(** The [change] listener of the hands-free toggle, up to the [await] in
    [VAD.start] when switched on. *)
Definition handsFreeToggle_onchange (checked : bool) (w : world) : world :=
  let w := upd_el (set_handsFreeToggle_checked checked) w in
  let w := upd_vad (set_isEnabled checked) w in
  if isEnabled (vad w) then w else VAD.stop w.

(** ** 12. Initialization *)

(** [init]: the connection is opened ahead of the first request; the
    promise is returned though the program drops it. *)
Definition init (w : world) : nat * world :=
  WebSocketManager.connect (log LogChatReady log_success w).

(** ** The state at load *)

(** The literal [state] object; the page's markup is not part of the
    sources, so the elements start from plain defaults. *)
Definition elements0 : elements :=
  mkElements (mkButton false StartRecording false)
             (mkPanel "" false) (mkPanel "" false)
             (mkPlayer None true false [] [])
             READY "Ready" (DText "0.00") (DText "0.00") []
             true true true false true (0 # 1)
             (mkVolumeStatus Listening vc_plain) "llama3.2:1b".

Definition state0 : world :=
  mkWorld None None None
          (mkRecording None [] false None None)
          (mkAudio [] false 0)
          (mkVad false false false None None None None [] None None None)
          elements0
          [] [] [] [] [] 1%nat [] [].

(** ** Sessions, events and observations used in the statements *)

(** The two events that end a request. *)
Definition terminal (k : event_kind) : bool :=
  match k with
  | pipeline_done | error_event => true
  | _ => false
  end.

(** The value a terminal event resolves the pending promise with. *)
Definition terminal_value (k : event_kind) : value :=
  match k with
  | pipeline_done => VBool true
  | _ => VBool false
  end.

(** A session with an open connection and one request sent and pending. *)
Definition pending_session : world :=
  let '(_, w) := init state0 in
  let w := socket_opened 0 w in
  let '(t, w) := Pipeline.run [1%N; 2%N; 3%N] w in
  let w := Pipeline.run_connected t 10 w in
  Pipeline.run_encoded t (ReadOk "AQID") w.

(** A message with a [type] and no other field. *)
Definition bare_message (type : string) : message :=
  mkMessage (JStr type) JUndefined JUndefined JUndefined JUndefined
            JUndefined JUndefined.

(** A session in which the first chunk of a response is being played. *)
Definition playing_session : world :=
  final (AudioQueue.add (JStr "aGVsbG8=") (JOther "0") (JStr "Hello.") state0).

(** The request [run] puts on the wire. *)
Definition sending (r : audio_request) (s : web_socket) : web_socket :=
  mkSocket (readyState s) (ws_owner s) (ws_sent s ++ [r]).

(** A session with the connection open and nothing pending. *)
Definition open_session : world :=
  socket_opened 0 (snd (init state0)).

(** What a step of the speech/silence state machine leaves alone. *)
Definition same_loop (w w' : world) : Prop :=
  raf_pending w' = raf_pending w
  /\ raf_next w' = raf_next w
  /\ isEnabled (vad w') = isEnabled (vad w)
  /\ analyser (vad w') = analyser (vad w).

(** The loop over a series of animation frames: each frame runs the
    callback queued first. *)
Fixpoint run_frames (frames : list (list N * Z)) (w : world) : world :=
  match frames with
  | [] => w
  | (sample, now) :: rest =>
      match raf_pending w with
      | [] => w
      | id :: _ => run_frames rest (final (animation_frame id sample now w))
      end
  end.

(** Hands-free mode switched on and started with every device available. *)
Definition listening_session : world :=
  VAD.start (mkDevices Succeeds Succeeds Succeeds Succeeds) (repeat 0%N 128) 0
            (handsFreeToggle_onchange true state0).

(** The recorder cannot be constructed; everything before it succeeds. *)
Definition recorder_unavailable : devices :=
  mkDevices Succeeds Succeeds Succeeds (Fails "NotSupportedError").

(** What happens to the queue between two resets: a chunk is enqueued, or
    the platform reports the end or the failure of the playback under
    way. *)
Inductive queue_event :=
| Enqueue (audioBase64 index sentence : jsval)
| Finished
| Failed (err : string).

(** The handler each event runs; a throwing [add] leaves the state it
    reached and the event loop goes on. *)
Definition queue_step (w : world) (ev : queue_event) : world :=
  match ev with
  | Enqueue a i s => final (AudioQueue.add a i s w)
  | Finished => playback_finished w
  | Failed err => playback_failed err w
  end.

Definition run_queue (evs : list queue_event) (w : world) : world :=
  fold_left queue_step evs w.

(** The chunks a series of events puts in the queue, in order: one per
    [add] whose audio decodes ([add] throws before queueing otherwise). *)
Definition enqueued (evs : list queue_event) : list blob :=
  flat_map (fun ev => match ev with
                      | Enqueue a _ _ => option_list (base64ToBlob a)
                      | _ => []
                      end) evs.

(** Readings of the audio element and of the queue. *)
Definition attempts (w : world) : list nat := ap_attempts (audioPlayer (el w)).
Definition cut_off (w : world) : list nat := ap_cut (audioPlayer (el w)).
Definition active (w : world) : bool := ap_active (audioPlayer (el w)).
Definition waiting (w : world) : list nat := map url (queue (audio w)).

(** The playing flag tells whether the element is playing, and chunks wait
    only while it is. True at load and kept by every event of the queue. *)
Definition coherent (w : world) : Prop :=
  active w = isPlaying (audio w)
  /\ (isPlaying (audio w) = false -> queue (audio w) = []).

(** What the queue has played or still holds, and what it was given. *)
Definition step_ok (w w' : world) (new : list blob) : Prop :=
  coherent w'
  /\ object_urls w' = object_urls w ++ new
  /\ attempts w' ++ waiting w'
     = (attempts w ++ waiting w) ++ seq (length (object_urls w)) (length new)
  /\ cut_off w' = cut_off w.

(** An [stt_segment] and an [llm_token] message with their [content]. *)
Definition segment_message (content : jsval) : message :=
  mkMessage (JStr "stt_segment") content JUndefined JUndefined JUndefined
            JUndefined JUndefined.

Definition token_message (content : jsval) : message :=
  mkMessage (JStr "llm_token") content JUndefined JUndefined JUndefined
            JUndefined JUndefined.

(** Messages handled one after the other, in arrival order; a handler
    that throws leaves the state it reached. *)
Definition dispatch_all (ds : list message) (now : Z) (w : world) : world :=
  fold_left (fun w d => final (WebSocketManager.handleMessage d now w)) ds w.

(** Messages handled one after the other, each at its own reading of the
    clock. *)
Definition receive_all (evs : list (message * Z)) (w : world) : world :=
  fold_left (fun w e => final (WebSocketManager.handleMessage (fst e) (snd e) w)) evs w.

(** The text a series of contents adds to a panel, each followed by
    [sep]. *)
Definition joined (sep : string) (contents : list jsval) : string :=
  fold_right (fun c acc => (ToString c ++ sep ++ acc)%string) "" contents.

(** The sum of the 128 bytes [monitorVolume] reads from the analyser set
    up by [VAD.start]. *)
Definition frame_sum (sample : list N) : N :=
  sum_bytes (take 128 (sample ++ repeat 0%N 128)).

(** The step of the speech/silence state machine a frame leads to, once
    the threshold test is read on the bytes (see
    [frame_when_listening]). *)
Definition detect (sample : list N) (now : Z) (w : world) : world :=
  if (2458 <=? frame_sum sample)%N
  then VAD.onSpeechDetected now w
  else VAD.onSilenceDetected now w.

(** Hands-free mode is on with the analyser of [VAD.start], no pipeline is
    running and nothing is playing. *)
Definition listening (w : world) : Prop :=
  isEnabled (vad w) = true
  /\ (exists a, analyser (vad w) = Some a /\ fftSize a = 256%nat)
  /\ isProcessing (vad w) = false
  /\ isPlaying (audio w) = false.

(** The timestamps agree with [isSpeaking]: a speech start is recorded
    while speaking, and neither a speech nor a silence start otherwise. *)
Definition timestamps_ok (v : vad_st) : Prop :=
  if isSpeaking v
  then speechStart v <> None
  else speechStart v = None /\ silenceStart v = None.

(** Every platform call of [VAD.start] succeeds. *)
Definition all_available : devices :=
  mkDevices Succeeds Succeeds Succeeds Succeeds.

(** The microphone cannot be acquired. *)
Definition microphone_denied : devices :=
  mkDevices (Fails "NotAllowedError") Succeeds Succeeds Succeeds.

(** The data a manual recorder delivers, in order. *)
Definition feed (datas : list blob) (w : world) : world :=
  fold_left (fun w data => Recording.ondataavailable data w) datas w.

(** * Properties *)

(** ** Dispatch of inbound messages *)

Example recognized_kinds :
  map kind_label all_kinds =
  ["stt_start"; "stt_segment"; "stt_done"; "llm_start"; "llm_token";
   "llm_done"; "tts_start"; "tts_chunk"; "tts_done"; "pipeline_done"; "error"].
Proof. reflexivity. Qed.

Lemma switch_case_label (k : event_kind) : switch_case (JStr (kind_label k)) = Some k.
Proof. destruct k; reflexivity. Qed.

Lemma switch_case_Some (type : jsval) (k : event_kind) :
  switch_case type = Some k -> type = JStr (kind_label k).
Proof.
  destruct type as [| |s|r]; try discriminate.
  unfold switch_case. intros H. apply find_some in H as [_ H].
  apply String.eqb_eq in H. now subst.
Qed.

Lemma switch_case_None (type : jsval) :
  (forall s, type = JStr s -> ~ In s (map kind_label all_kinds)) ->
  switch_case type = None.
Proof.
  intros H. destruct (switch_case type) as [k|] eqn:E; [|reflexivity].
  apply switch_case_Some in E. exfalso. apply (H _ E).
  apply in_map. destruct k; simpl; tauto.
Qed.

(** C5. A message whose [type] is none of the eleven recognized kinds
    (a string outside the list, or no string at all) is ignored: the
    handler completes normally and the whole state, that of the session,
    the VAD and the playback queue included, is unchanged. *)
Theorem handleMessage_unknown_type_ignored (data : message) (now : Z) (w : world) :
  (forall s, msg_type data = JStr s -> ~ In s (map kind_label all_kinds)) ->
  WebSocketManager.handleMessage data now w = Normal w.
Proof.
  intros H. unfold WebSocketManager.handleMessage.
  now rewrite (switch_case_None _ H).
Qed.

Lemma handleMessage_unknown_type_ignored_witness :
  WebSocketManager.handleMessage
    (mkMessage (JStr "audio") JUndefined JUndefined JUndefined JUndefined
               JUndefined JUndefined) 0 state0
  = Normal state0.
Proof.
  apply handleMessage_unknown_type_ignored.
  intros s [= <-]. vm_compute. intuition discriminate.
Defined.

(** C10. After an [stt_done] event that carries the string
    [full_transcript], the transcript panel shows exactly that string,
    whatever text earlier [stt_segment] events had accumulated there, and
    the handler completes normally. *)
Theorem stt_done_replaces_transcript (data : message) (now : Z) (w : world) (s : string) :
  msg_type data = JStr "stt_done" ->
  msg_full_transcript data = JStr s ->
  exists w', WebSocketManager.handleMessage data now w = Normal w'
             /\ textContent (transcript (el w')) = s.
Proof.
  intros Ht Hf. unfold WebSocketManager.handleMessage.
  rewrite Ht. change (switch_case (JStr "stt_done")) with (Some stt_done).
  cbv beta iota. rewrite Hf. eexists. split; [reflexivity|reflexivity].
Qed.

Lemma stt_done_replaces_transcript_witness :
  let segment := mkMessage (JStr "stt_segment") (JStr "hello") JUndefined
                           JUndefined JUndefined JUndefined JUndefined in
  let done := mkMessage (JStr "stt_done") JUndefined (JStr "hello world")
                        JUndefined JUndefined JUndefined JUndefined in
  let w := final (WebSocketManager.handleMessage segment 0 state0) in
  textContent (transcript (el w)) = "hello "
  /\ exists w', WebSocketManager.handleMessage done 1 w = Normal w'
                /\ textContent (transcript (el w')) = "hello world".
Proof.
  split; [reflexivity|].
  apply stt_done_replaces_transcript; reflexivity.
Defined.

(** ** Promises and terminal events *)

Lemma settle_calls (p : nat) (o : outcome) (w : world) :
  resolver_calls (settle p o w) = resolver_calls w ++ [(p, o)].
Proof. unfold settle; simpl. destruct (promises w !! p) as [[]|]; reflexivity. Qed.

Lemma settle_promises (p : nat) (o : outcome) (w : world) :
  promises (settle p o w) =
  match promises w !! p with
  | Some Pending => <[p := o]> (promises w)
  | _ => promises w
  end.
Proof. unfold settle; simpl. destruct (promises w !! p) as [[]|]; reflexivity. Qed.

Lemma settle_pending (p : nat) (o : outcome) (w : world) :
  promises w !! p = Some Pending ->
  promises (settle p o w) !! p = Some o.
Proof.
  intros H. rewrite settle_promises, H.
  apply list_lookup_insert_eq. now apply lookup_lt_Some in H.
Qed.

Lemma settle_other (p q : nat) (o : outcome) (w : world) :
  p <> q -> promises (settle p o w) !! q = promises w !! q.
Proof.
  intros H. rewrite settle_promises.
  destruct (promises w !! p) as [[]|]; try reflexivity.
  now apply list_lookup_insert_ne.
Qed.

Lemma settle_rest (p : nat) (o : outcome) (w : world) :
  websocket (settle p o w) = websocket w
  /\ pipelineResolve (settle p o w) = pipelineResolve w
  /\ sockets (settle p o w) = sockets w
  /\ audio (settle p o w) = audio w
  /\ vad (settle p o w) = vad w
  /\ el (settle p o w) = el w.
Proof. unfold settle; simpl. destruct (promises w !! p) as [[]|]; repeat split. Qed.

(** What a terminal event does to the pending request, whatever the rest
    of the state. *)
Lemma handleMessage_terminal (data : message) (now : Z) (w : world) (k : event_kind) :
  switch_case (msg_type data) = Some k ->
  terminal k = true ->
  exists w',
    WebSocketManager.handleMessage data now w = Normal w'
    /\ pipelineResolve w' = None
    /\ match pipelineResolve w with
       | Some p =>
           promises w' = promises (settle p (Fulfilled (terminal_value k)) w)
           /\ resolver_calls w' = resolver_calls w ++ [(p, Fulfilled (terminal_value k))]
       | None =>
           promises w' = promises w /\ resolver_calls w' = resolver_calls w
       end.
Proof.
  intros Hk Ht. unfold WebSocketManager.handleMessage. rewrite Hk.
  destruct k; try discriminate Ht; cbn;
    destruct (isEnabled (vad w)); cbn;
    (destruct (pipelineResolve w) as [p|] eqn:Hp; cbn;
     [unfold resolve, settle; cbn; destruct (promises w !! p) as [[]|]; cbn|]);
    eexists; (split; [reflexivity|]); cbn; rewrite ?Hp; repeat split; reflexivity.
Qed.

(** C4. While a request is pending, two terminal events in a row
    ([pipeline_done] or [error], in any mix) settle it exactly once: the
    first settles the pending promise by the single call of its resolver
    and clears [pipelineResolve]; the second completes normally, calls no
    resolver and leaves every promise as it was. *)
Theorem duplicate_terminal_event_settles_once
  (d1 d2 : message) (now1 now2 : Z) (k1 k2 : event_kind) (w : world) (p : nat) :
  switch_case (msg_type d1) = Some k1 -> terminal k1 = true ->
  switch_case (msg_type d2) = Some k2 -> terminal k2 = true ->
  pipelineResolve w = Some p ->
  promises w !! p = Some Pending ->
  exists w1 w2,
    WebSocketManager.handleMessage d1 now1 w = Normal w1
    /\ WebSocketManager.handleMessage d2 now2 w1 = Normal w2
    /\ promises w1 !! p = Some (Fulfilled (terminal_value k1))
    /\ resolver_calls w1 = resolver_calls w ++ [(p, Fulfilled (terminal_value k1))]
    /\ pipelineResolve w1 = None
    /\ promises w2 = promises w1
    /\ resolver_calls w2 = resolver_calls w1
    /\ pipelineResolve w2 = None.
Proof.
  intros Hk1 Ht1 Hk2 Ht2 Hp Hpend.
  destruct (handleMessage_terminal d1 now1 w k1 Hk1 Ht1) as (w1 & E1 & R1 & S1).
  destruct (handleMessage_terminal d2 now2 w1 k2 Hk2 Ht2) as (w2 & E2 & R2 & S2).
  rewrite Hp in S1. rewrite R1 in S2. destruct S1 as [P1 C1], S2 as [P2 C2].
  exists w1, w2. repeat split; try assumption.
  rewrite P1. now apply settle_pending.
Qed.

Lemma duplicate_terminal_event_settles_once_witness :
  pipelineResolve pending_session = Some 1%nat
  /\ promises pending_session !! 1%nat = Some Pending
  /\ exists w1 w2,
      WebSocketManager.handleMessage (bare_message "pipeline_done") 20 pending_session
        = Normal w1
      /\ WebSocketManager.handleMessage (bare_message "error") 21 w1 = Normal w2
      /\ promises w1 !! 1%nat = Some (Fulfilled (VBool true))
      /\ resolver_calls w1 = resolver_calls pending_session ++ [(1%nat, Fulfilled (VBool true))]
      /\ pipelineResolve w1 = None
      /\ promises w2 = promises w1
      /\ resolver_calls w2 = resolver_calls w1
      /\ pipelineResolve w2 = None.
Proof.
  split; [reflexivity|]. split; [reflexivity|].
  apply (duplicate_terminal_event_settles_once
           (bare_message "pipeline_done") (bare_message "error") 20 21
           pipeline_done error_event pending_session 1%nat);
    reflexivity.
Defined.

(** ** The playback queue: reset *)

(** C7, as stated, fails: [reset] does not halt playback. On a session
    whose audio element is playing a chunk, the element is still playing
    it after [reset]. *)
Lemma reset_does_not_halt_playback :
  ap_active (audioPlayer (el playing_session)) = true
  /\ isPlaying (audio playing_session) = true
  /\ ap_active (audioPlayer (el (AudioQueue.reset playing_session))) = true
  /\ ap_src (audioPlayer (el (AudioQueue.reset playing_session))) = Some 0%nat.
Proof. repeat split. Qed.

(** C7, amended. In every state, active playback included, [reset]
    (a function without a failing path) empties the queue, sets the
    playing flag to false and the current index to 0, and hides the
    speaking badge; it leaves the audio element as it is, so a chunk being
    played goes on to its end, after which no further chunk is played. *)
Theorem reset_clears_queue_and_flag (w : world) :
  let w' := AudioQueue.reset w in
  queue (audio w') = []
  /\ isPlaying (audio w') = false
  /\ currentIndex (audio w') = 0
  /\ speakingBadge_hidden (el w') = true
  /\ audioPlayer (el w') = audioPlayer (el w)
  /\ ap_attempts (audioPlayer (el (playback_finished w')))
     = ap_attempts (audioPlayer (el w)).
Proof.
  repeat (split; [reflexivity|]).
  unfold playback_finished, audioPlayer_onended, audioPlayer_onpause,
    AudioQueue.playNext.
  cbn [AudioQueue.reset upd_audio upd_el upd_player audio set_audio set_el
       set_queue queue el].
  now destruct (isEnabled _ && negb _).
Qed.

(** [clearAll] does halt playback: it pauses the element itself. *)
Lemma clearAll_halts_playback (w : world) :
  ap_active (audioPlayer (el (clearAll w))) = false
  /\ queue (audio (clearAll w)) = []
  /\ isPlaying (audio (clearAll w)) = false.
Proof.
  unfold clearAll. cbn. destruct (isEnabled (vad w)); cbn; repeat split.
Qed.

(** ** Connecting *)

(** C3, as stated, fails: two [connect()] calls made before the first
    connection opens create two sockets, and the callers can see
    different outcomes (the first socket fails, the second opens). *)
Lemma concurrent_connect_opens_two_sockets :
  let '(p1, w1) := WebSocketManager.connect state0 in
  let '(p2, w2) := WebSocketManager.connect w1 in
  let w3 := socket_opened 1 (socket_errored 0 w2) in
  socket_is_open w1 = false
  /\ length (sockets w2) = 2%nat
  /\ promises w3 !! p1 = Some (Rejected "WebSocket connection failed")
  /\ promises w3 !! p2 = Some (Fulfilled (VSocket (Some 1%nat))).
Proof. repeat split. Qed.

Lemma lookup_snoc {A} (l : list A) (x : A) : (l ++ [x]) !! length l = Some x.
Proof. rewrite lookup_app_r by lia. now rewrite Nat.sub_diag. Qed.

Lemma insert_snoc {A} (l : list A) (x y : A) : <[length l := y]> (l ++ [x]) = l ++ [y].
Proof.
  replace (length l) with (length l + 0)%nat at 1 by lia.
  now rewrite insert_app_r.
Qed.

Lemma alter_snoc {A} (f : A -> A) (l : list A) (x : A) :
  alter f (length l) (l ++ [x]) = l ++ [f x].
Proof.
  replace (length l) with (length l + 0)%nat at 1 by lia.
  now rewrite alter_app_r.
Qed.

Lemma socket_is_open_snoc (w : world) (s : web_socket) :
  readyState s = CONNECTING ->
  socket_is_open
    (set_websocket (Some (length (sockets w))) (set_sockets (sockets w ++ [s]) w))
  = false.
Proof.
  intros H. unfold socket_is_open. cbn. now rewrite lookup_snoc, H.
Qed.

Lemma connect_open (w : world) :
  socket_is_open w = true ->
  WebSocketManager.connect w =
  (length (promises w),
   resolve (length (promises w)) (VSocket (websocket w))
           (set_promises (promises w ++ [Pending]) w)).
Proof.
  intros H. unfold WebSocketManager.connect, new_promise.
  change (socket_is_open (set_promises (promises w ++ [Pending]) w))
    with (socket_is_open w).
  now rewrite H.
Qed.

Lemma connect_new (w : world) :
  socket_is_open w = false ->
  WebSocketManager.connect w =
  (length (promises w),
   set_websocket (Some (length (sockets w)))
     (set_sockets (sockets w ++ [mkSocket CONNECTING (length (promises w)) []])
        (set_promises (promises w ++ [Pending]) w))).
Proof.
  intros H. unfold WebSocketManager.connect, new_promise.
  change (socket_is_open (set_promises (promises w ++ [Pending]) w))
    with (socket_is_open w).
  now rewrite H.
Qed.

(** C3, amended. [connect()] shares a connection only when the held one
    is already open: it then creates nothing and its promise is fulfilled
    at once with the held socket. In every other state each call creates
    exactly one new socket, which replaces the held reference and whose
    opening fulfils the promise of that call; so two calls made before the
    first connection opens create two sockets, one per caller. *)
Theorem connect_shares_only_open_socket (w : world) :
  let '(p, w') := WebSocketManager.connect w in
  p = length (promises w)
  /\ (if socket_is_open w then
        sockets w' = sockets w
        /\ websocket w' = websocket w
        /\ promises w' = promises w ++ [Fulfilled (VSocket (websocket w))]
      else
        let i := length (sockets w) in
        sockets w' = sockets w ++ [mkSocket CONNECTING p []]
        /\ websocket w' = Some i
        /\ promises w' = promises w ++ [Pending]
        /\ promises (socket_opened i w') !! p = Some (Fulfilled (VSocket (Some i)))
        /\ let '(p2, w2) := WebSocketManager.connect w' in
           p2 <> p
           /\ sockets w2 = sockets w ++ [mkSocket CONNECTING p []; mkSocket CONNECTING p2 []]).
Proof.
  destruct (socket_is_open w) eqn:Hopen.
  - rewrite (connect_open w Hopen). split; [reflexivity|]. unfold resolve.
    destruct (settle_rest (length (promises w)) (Fulfilled (VSocket (websocket w)))
                (set_promises (promises w ++ [Pending]) w)) as (Hw & _ & Hs & _).
    split; [exact Hs|]. split; [exact Hw|].
    rewrite settle_promises. cbn. rewrite lookup_snoc. apply insert_snoc.
  - rewrite (connect_new w Hopen). split; [reflexivity|]. cbn zeta.
    split; [reflexivity|]. split; [reflexivity|]. split; [reflexivity|]. split.
    + unfold socket_opened, WebSocketManager.onopen, upd_socket. cbn.
      rewrite alter_snoc, lookup_snoc. cbn.
      unfold resolve. apply settle_pending. cbn. apply lookup_snoc.
    + rewrite connect_new
        by (now apply (socket_is_open_snoc (set_promises (promises w ++ [Pending]) w))).
      cbn. rewrite length_app. cbn. split; [lia|].
      now rewrite <- app_assoc.
Qed.

(** ** Sending a request *)

Lemma settle_eq (p : nat) (o : outcome) (w : world) :
  promises w !! p = Some Pending ->
  settle p o w
  = set_promises (<[p := o]> (promises w))
      (set_resolver_calls (resolver_calls w ++ [(p, o)]) w).
Proof. intros H. unfold settle. cbn. now rewrite H. Qed.

Lemma socket_is_open_true (w : world) :
  socket_is_open w = true ->
  exists i s, websocket w = Some i /\ sockets w !! i = Some s /\ readyState s = OPEN.
Proof.
  unfold socket_is_open. intros H.
  destruct (websocket w) as [i|]; [|discriminate].
  destruct (sockets w !! i) as [s|] eqn:Hs; [|discriminate].
  destruct (readyState s) eqn:Hr; try discriminate.
  now exists i, s.
Qed.

(** What the playback queue leaves alone. *)
Lemma playNext_keeps (w : world) :
  vad (AudioQueue.playNext w) = vad w
  /\ recording (AudioQueue.playNext w) = recording w
  /\ websocket (AudioQueue.playNext w) = websocket w
  /\ sockets (AudioQueue.playNext w) = sockets w
  /\ processingStartTime (AudioQueue.playNext w) = processingStartTime w
  /\ promises (AudioQueue.playNext w) = promises w
  /\ resolver_calls (AudioQueue.playNext w) = resolver_calls w
  /\ pipelineResolve (AudioQueue.playNext w) = pipelineResolve w.
Proof.
  unfold AudioQueue.playNext. destruct (queue (audio w)); cbn.
  - destruct (isEnabled (vad w) && negb (isProcessing (vad w))); cbn; repeat split.
  - repeat split.
Qed.

Lemma add_keeps (a i s : jsval) (w : world) :
  let w' := final (AudioQueue.add a i s w) in
  vad w' = vad w
  /\ recording w' = recording w
  /\ websocket w' = websocket w
  /\ sockets w' = sockets w
  /\ processingStartTime w' = processingStartTime w
  /\ promises w' = promises w
  /\ resolver_calls w' = resolver_calls w
  /\ pipelineResolve w' = pipelineResolve w.
Proof.
  unfold AudioQueue.add. destruct (base64ToBlob a) as [b|]; [|cbn; repeat split].
  unfold createObjectURL. cbv zeta beta iota. cbn [final].
  set (w1 := upd_audio _ _).
  destruct (isPlaying (audio w1)); [repeat split|].
  destruct (playNext_keeps w1) as (A & B & C & D & E & F & G & H).
  rewrite A, B, C, D, E, F, G, H. repeat split.
Qed.

(** With the connection open, a call of [run] whose encoding succeeds goes
    through whatever the state: its promise stays pending, it becomes the
    pending request, one request is sent, and no earlier promise is
    touched. *)
Lemma run_sends_when_open (audioBlob : blob) (now : Z) (base64 : string) (w : world) :
  socket_is_open w = true ->
  let '(t, w1) := Pipeline.run audioBlob w in
  let w3 := Pipeline.run_encoded t (ReadOk base64) (Pipeline.run_connected t now w1) in
  run_promise t = length (promises w)
  /\ promises w3 = promises w ++ [Pending; Fulfilled (VSocket (websocket w))]
  /\ resolver_calls w3
     = resolver_calls w ++ [(S (length (promises w)), Fulfilled (VSocket (websocket w)))]
  /\ pipelineResolve w3 = Some (length (promises w))
  /\ websocket w3 = websocket w
  /\ sockets w3
     = match websocket w with
       | Some i => alter (sending (mkRequest base64 (modelSelect_value (el w)))) i (sockets w)
       | None => sockets w
       end.
Proof.
  intros Hopen. unfold Pipeline.run, new_promise.
  rewrite connect_open by exact Hopen.
  destruct (socket_is_open_true w Hopen) as (i & s & Hi & Hs & Hr).
  unfold resolve. rewrite settle_eq by (cbn; apply lookup_snoc).
  cbn [promises set_promises]. rewrite insert_snoc.
  unfold Pipeline.run_connected. cbn [run_connect run_promise promises set_promises set_resolver_calls].
  rewrite lookup_snoc.
  unfold Pipeline.run_encoded, websocket_send. cbn. rewrite Hi, Hs, Hr. cbn.
  rewrite <- app_assoc. repeat split; [|exact Hi].
  rewrite length_app. cbn. now rewrite Nat.add_1_r.
Qed.

(** C1, as stated, fails: [run] has no Busy condition. Called while the
    first request is pending, the second call is not refused (its promise
    stays pending), a second request goes out on the socket, and the first
    request's outcome is affected: the terminal event that follows settles
    the second call and the first promise is never settled. *)
Lemma second_run_is_not_refused :
  let '(t, w1) := Pipeline.run [4%N; 5%N; 6%N] pending_session in
  let w2 := Pipeline.run_encoded t (ReadOk "BAUG") (Pipeline.run_connected t 11 w1) in
  let w3 := final (WebSocketManager.handleMessage (bare_message "pipeline_done") 20 w2) in
  let w4 := final (WebSocketManager.handleMessage (bare_message "pipeline_done") 30 w3) in
  pipelineResolve pending_session = Some 1%nat
  /\ promises pending_session !! 1%nat = Some Pending
  /\ promises w2 !! run_promise t = Some Pending
  /\ ws_sent <$> sockets w2 !! 0%nat
     = Some [mkRequest "AQID" "llama3.2:1b"; mkRequest "BAUG" "llama3.2:1b"]
  /\ promises w3 !! run_promise t = Some (Fulfilled (VBool true))
  /\ promises w3 !! 1%nat = Some Pending
  /\ promises w4 !! 1%nat = Some Pending.
Proof. vm_compute. repeat split. Qed.

(** A message settles at most the promise held in [pipelineResolve]: any
    other promise is as it was, and is not the held one afterwards. *)
Lemma handleMessage_settles_held_only (data : message) (now : Z) (w : world) (q : nat) :
  pipelineResolve w <> Some q ->
  let w' := final (WebSocketManager.handleMessage data now w) in
  promises w' !! q = promises w !! q /\ pipelineResolve w' <> Some q.
Proof.
  intros Hq. cbv zeta.
  destruct (switch_case (msg_type data)) as [k|] eqn:Hk.
  - destruct (terminal k) eqn:Ht.
    + destruct (handleMessage_terminal data now w k Hk Ht) as (w' & E & R & S).
      rewrite E. cbn [final]. rewrite R. split; [|discriminate].
      destruct (pipelineResolve w) as [p|].
      * destruct S as [S _]. rewrite S. apply settle_other. congruence.
      * destruct S as [S _]. now rewrite S.
    + unfold WebSocketManager.handleMessage. rewrite Hk.
      destruct k; try discriminate Ht; cbv zeta;
        try (cbn; split; [reflexivity|exact Hq]).
      * destruct (msg_full_transcript data); cbn; (split; [reflexivity|exact Hq]).
      * destruct (add_keeps (msg_audio data) (msg_index data) (msg_sentence data) w)
          as (_ & _ & _ & _ & _ & F & _ & H).
        cbv zeta in F, H. rewrite F, H. split; [reflexivity|exact Hq].
  - unfold WebSocketManager.handleMessage. rewrite Hk. cbn. split; [reflexivity|exact Hq].
Qed.

Lemma receive_all_settles_held_only (evs : list (message * Z)) (w : world) (q : nat) :
  pipelineResolve w <> Some q ->
  promises (receive_all evs w) !! q = promises w !! q.
Proof.
  revert w. induction evs as [|[d now] evs IH]; intros w Hq; [reflexivity|].
  destruct (handleMessage_settles_held_only d now w q Hq) as [Hp Hr].
  cbn [receive_all fold_left fst snd]. cbn [receive_all fold_left] in IH.
  unfold receive_all in IH |- *. cbn [fold_left fst snd].
  rewrite (IH _ Hr). exact Hp.
Qed.

(** C1, amended. [Pipeline.run] has no Busy condition. With the connection
    open (and the encoding succeeding) a call is never refused: its
    promise stays pending, it sends one request and it installs its own
    resolver as the pending one, settling no earlier promise. When a
    request was pending at the call, that request is therefore no longer
    the pending one: its promise is a different one, it is still pending
    after the call, and no series of server messages received afterwards
    settles it, since the next terminal event settles the new call. *)
Theorem run_sends_without_busy_check
  (audioBlob : blob) (now : Z) (base64 : string) (w : world) :
  socket_is_open w = true ->
  let '(t, w1) := Pipeline.run audioBlob w in
  let w3 := Pipeline.run_encoded t (ReadOk base64) (Pipeline.run_connected t now w1) in
  promises w3 !! run_promise t = Some Pending
  /\ pipelineResolve w3 = Some (run_promise t)
  /\ (forall q, (q < length (promises w))%nat -> promises w3 !! q = promises w !! q)
  /\ sockets w3
     = match websocket w with
       | Some i => alter (sending (mkRequest base64 (modelSelect_value (el w)))) i (sockets w)
       | None => sockets w
       end
  /\ (forall (d : message) (now' : Z) (k : event_kind),
        switch_case (msg_type d) = Some k -> terminal k = true ->
        promises (final (WebSocketManager.handleMessage d now' w3)) !! run_promise t
        = Some (Fulfilled (terminal_value k)))
  /\ (forall (p0 : nat) (evs : list (message * Z)),
        pipelineResolve w = Some p0 ->
        promises w !! p0 = Some Pending ->
        run_promise t <> p0
        /\ promises w3 !! p0 = Some Pending
        /\ promises (receive_all evs w3) !! p0 = Some Pending).
Proof.
  intros Hopen.
  pose proof (run_sends_when_open audioBlob now base64 w Hopen) as H.
  destruct (Pipeline.run audioBlob w) as [t w1]. cbv beta iota zeta in H |- *.
  destruct H as (Hp & Hps & _ & Hr & _ & Hs).
  set (w3 := Pipeline.run_encoded t (ReadOk base64) (Pipeline.run_connected t now w1)) in *.
  assert (Hnew : promises w3 !! run_promise t = Some Pending).
  { rewrite Hp, Hps. now rewrite (lookup_app_r (promises w)), Nat.sub_diag by lia. }
  assert (Hold : forall q, (q < length (promises w))%nat ->
                           promises w3 !! q = promises w !! q).
  { intros q Hq. rewrite Hps. now apply lookup_app_l. }
  split; [exact Hnew|]. split; [now rewrite Hr, Hp|]. split; [exact Hold|].
  split; [exact Hs|]. split.
  - intros d now' k Hk Ht.
    destruct (handleMessage_terminal d now' w3 k Hk Ht) as (w4 & E & _ & S).
    rewrite E. cbn [final]. rewrite Hr in S. destruct S as [S _].
    rewrite S, Hp. apply settle_pending. now rewrite <- Hp.
  - intros p0 evs Hres Hpend.
    assert (Hlt : (p0 < length (promises w))%nat) by now apply lookup_lt_Some in Hpend.
    assert (Hne : run_promise t <> p0) by (rewrite Hp; lia).
    split; [exact Hne|]. split; [now rewrite Hold|].
    rewrite receive_all_settles_held_only by (rewrite Hr; intros [= <-]; lia).
    now rewrite Hold.
Qed.

Lemma run_sends_without_busy_check_witness :
  socket_is_open pending_session = true
  /\ pipelineResolve pending_session = Some 1%nat
  /\ promises pending_session !! 1%nat = Some Pending
  /\ (let '(t, w1) := Pipeline.run [4%N; 5%N; 6%N] pending_session in
      let w3 := Pipeline.run_encoded t (ReadOk "BAUG") (Pipeline.run_connected t 11 w1) in
      promises w3 !! run_promise t = Some Pending
      /\ pipelineResolve w3 = Some (run_promise t)
      /\ (forall q, (q < length (promises pending_session))%nat ->
                    promises w3 !! q = promises pending_session !! q)
      /\ sockets w3
         = match websocket pending_session with
           | Some i =>
               alter (sending (mkRequest "BAUG" (modelSelect_value (el pending_session))))
                     i (sockets pending_session)
           | None => sockets pending_session
           end
      /\ (forall (d : message) (now' : Z) (k : event_kind),
            switch_case (msg_type d) = Some k -> terminal k = true ->
            promises (final (WebSocketManager.handleMessage d now' w3)) !! run_promise t
            = Some (Fulfilled (terminal_value k)))
      /\ (forall (p0 : nat) (evs : list (message * Z)),
            pipelineResolve pending_session = Some p0 ->
            promises pending_session !! p0 = Some Pending ->
            run_promise t <> p0
            /\ promises w3 !! p0 = Some Pending
            /\ promises (receive_all evs w3) !! p0 = Some Pending)).
Proof.
  split; [reflexivity|]. split; [reflexivity|]. split; [reflexivity|].
  apply (run_sends_without_busy_check [4%N; 5%N; 6%N] 11 "BAUG" pending_session).
  reflexivity.
Defined.

(** ** Thresholds on a captured utterance *)

(** C2, as stated, fails: in manual mode no threshold is applied. A
    three-byte utterance (the minimum buffer size is 1000) recorded in
    manual mode is handed to [Pipeline.run] and goes out on the socket. *)
Lemma small_manual_utterance_is_sent :
  let w := Recording.ondataavailable [1%N; 2%N; 3%N] open_session in
  let '(t, w1) := Recording.onstop w in
  let w2 := Pipeline.run_encoded t (ReadOk "AQID") (Pipeline.run_connected t 10 w1) in
  blob_size (run_blob t) = 3
  /\ blob_size (run_blob t) < CONFIG.VAD.minAudioSize
  /\ sockets open_session = [mkSocket OPEN 0%nat []]
  /\ sockets w2 = [mkSocket OPEN 0%nat [mkRequest "AQID" "llama3.2:1b"]].
Proof. vm_compute. repeat split. Qed.

(** C2, amended. In hands-free mode an utterance whose encoded size is
    below the minimum buffer size is discarded: [onRecordingStop] returns
    without calling [Pipeline.run], creates no promise or socket and sends
    nothing. In manual mode every captured utterance is passed to
    [Pipeline.run] whatever its size, and is sent when the connection is
    open. *)
Theorem small_utterance_dropped_in_hands_free
  (w m : world) (now : Z) (base64 : string) :
  blob_size (Blob (audioChunks (vad w))) < CONFIG.VAD.minAudioSize ->
  socket_is_open m = true ->
  (exists w', VAD.onRecordingStop w = (None, w')
              /\ sockets w' = sockets w
              /\ websocket w' = websocket w
              /\ promises w' = promises w
              /\ pipelineResolve w' = pipelineResolve w
              /\ audioChunks (vad w') = []
              /\ isProcessing (vad w') = isProcessing (vad w))
  /\ (let '(t, m1) := Recording.onstop m in
      let m3 := Pipeline.run_encoded t (ReadOk base64) (Pipeline.run_connected t now m1) in
      run_blob t = Blob (rec_chunks (recording m))
      /\ promises m3 !! run_promise t = Some Pending
      /\ sockets m3
         = match websocket m with
           | Some i => alter (sending (mkRequest base64 (modelSelect_value (el m)))) i (sockets m)
           | None => sockets m
           end).
Proof.
  intros Hsmall Hopen. split.
  - unfold VAD.onRecordingStop.
    destruct ((length (audioChunks (vad w)) =? 0)%nat || isProcessing (vad w)) eqn:Hskip.
    + eexists. split; [reflexivity|]. cbn. repeat split.
    + apply Z.ltb_lt in Hsmall. rewrite Hsmall.
      apply orb_false_iff in Hskip as [_ Hp].
      eexists. split; [reflexivity|]. cbn. repeat split. now rewrite Hp.
  - unfold Recording.onstop, Recording.process.
    pose proof (run_sends_when_open (Blob (rec_chunks (recording m))) now base64
                  (upd_recording (set_rec_chunks []) m) Hopen) as H.
    destruct (Pipeline.run _ _) as [t m1] eqn:Hrun.
    assert (Hb : run_blob t = Blob (rec_chunks (recording m)))
      by (unfold Pipeline.run, new_promise in Hrun;
          destruct (WebSocketManager.connect _); now inversion Hrun).
    cbv beta iota zeta in H |- *.
    destruct H as (Hp & Hps & _ & _ & _ & Hs).
    split; [exact Hb|]. split; [|exact Hs].
    rewrite Hp, Hps. cbn.
    now rewrite (lookup_app_r (promises m)), Nat.sub_diag by lia.
Qed.

Lemma small_utterance_dropped_in_hands_free_witness :
  let w := VAD.ondataavailable [1%N; 2%N; 3%N] open_session in
  audioChunks (vad w) = [[1%N; 2%N; 3%N]]
  /\ (exists w', VAD.onRecordingStop w = (None, w')
                 /\ sockets w' = sockets w
                 /\ websocket w' = websocket w
                 /\ promises w' = promises w
                 /\ pipelineResolve w' = pipelineResolve w
                 /\ audioChunks (vad w') = []
                 /\ isProcessing (vad w') = isProcessing (vad w)).
Proof.
  split; [reflexivity|].
  apply (small_utterance_dropped_in_hands_free
           (VAD.ondataavailable [1%N; 2%N; 3%N] open_session) open_session 0 "");
    reflexivity.
Defined.

(** ** The sampling loop *)

Lemma onSpeechDetected_same_loop (now : Z) (w : world) :
  same_loop w (VAD.onSpeechDetected now w).
Proof.
  unfold VAD.onSpeechDetected, same_loop.
  destruct (isSpeaking (vad w)); cbn; [tauto|].
  destruct (recorder_is inactive (vad_mediaRecorder (vad w))); cbn; tauto.
Qed.

Lemma onSilenceDetected_same_loop (now : Z) (w : world) :
  same_loop w (VAD.onSilenceDetected now w).
Proof.
  unfold VAD.onSilenceDetected, same_loop.
  destruct (isSpeaking (vad w)); cbn; [|tauto].
  destruct (truthy (silenceStart (vad w))); cbn;
    destruct (_ <=? _); cbn; try tauto;
    destruct (recorder_is recording_ (vad_mediaRecorder (vad w))); cbn; tauto.
Qed.

Lemma dataArray_nonempty (n : nat) (sample : list N) :
  n <> 0%nat -> take n (sample ++ repeat 0%N n) <> [].
Proof. destruct n, sample; cbn; congruence. Qed.

(** One run of [monitorVolume] while enabled, with the analyser set up. *)
Lemma monitorVolume_enabled (sample : list N) (now : Z) (w : world) (a : analyser_node) :
  isEnabled (vad w) = true ->
  analyser (vad w) = Some a ->
  frequencyBinCount a <> 0%nat ->
  exists w',
    VAD.monitorVolume sample now w = Normal w'
    /\ raf_pending w' = raf_pending w ++ [raf_next w]
    /\ raf_next w' = S (raf_next w)
    /\ animationFrame (vad w') = Some (raf_next w)
    /\ isEnabled (vad w') = true
    /\ analyser (vad w') = Some a.
Proof.
  intros Hen Han Hbins. unfold VAD.monitorVolume. rewrite Han, Hen. cbn [negb].
  pose proof (dataArray_nonempty _ sample Hbins) as Hne.
  destruct (take _ _) as [|x l]; [congruence|]. cbv zeta.
  set (vp := Qmin _ _). clearbody vp.
  cbn [vad audio upd_el set_el].
  destruct (isProcessing (vad w) || isPlaying (audio w)).
  - eexists. split; [reflexivity|]. cbn. now rewrite Hen, Han.
  - set (w1 := upd_el (set_volumeBar_width vp) w).
    assert (Hsame : same_loop w
              (if negb (Qle_bool vp CONFIG.VAD.volumeThreshold)
               then VAD.onSpeechDetected now w1 else VAD.onSilenceDetected now w1)).
    { destruct (negb _);
        [destruct (onSpeechDetected_same_loop now w1) as (A & B & C & D)
        |destruct (onSilenceDetected_same_loop now w1) as (A & B & C & D)];
        repeat split; assumption. }
    destruct Hsame as (A & B & C & D).
    eexists. split; [reflexivity|]. cbn.
    rewrite A, B, C, D, Hen, Han. repeat split.
Qed.

Lemma animation_frame_enabled (id : nat) (sample : list N) (now : Z) (w : world)
      (a : analyser_node) :
  isEnabled (vad w) = true ->
  analyser (vad w) = Some a ->
  frequencyBinCount a <> 0%nat ->
  raf_pending w = [id] ->
  exists w',
    animation_frame id sample now w = Normal w'
    /\ raf_pending w' = [raf_next w]
    /\ isEnabled (vad w') = true
    /\ analyser (vad w') = Some a.
Proof.
  intros Hen Han Hbins Hp. unfold animation_frame. rewrite Hp.
  cbn [existsb]. rewrite Nat.eqb_refl. cbn [orb].
  destruct (monitorVolume_enabled sample now (cancelAnimationFrame id w) a)
    as (w' & E & P & _ & _ & En & An); try assumption.
  exists w'. split; [exact E|]. split; [|now split].
  rewrite P. unfold cancelAnimationFrame. cbn. rewrite Hp. cbn.
  now rewrite Nat.eqb_refl.
Qed.

Lemma run_frames_enabled (frames : list (list N * Z)) :
  forall (w : world) (a : analyser_node) (id : nat),
    isEnabled (vad w) = true ->
    analyser (vad w) = Some a ->
    frequencyBinCount a <> 0%nat ->
    raf_pending w = [id] ->
    exists id', raf_pending (run_frames frames w) = [id']
                /\ isEnabled (vad (run_frames frames w)) = true.
Proof.
  induction frames as [|[sample now] rest IH]; intros w a id Hen Han Hbins Hp.
  - now exists id.
  - cbn [run_frames]. rewrite Hp.
    destruct (animation_frame_enabled id sample now w a Hen Han Hbins Hp)
      as (w' & E & P & En & An).
    rewrite E. cbn [final]. eapply IH; eassumption.
Qed.

(** C8. While hands-free mode is enabled and the analyser is set up (its
    array of bins is not empty), every run of [monitorVolume] completes
    normally and queues exactly one next run, on the early-return branch
    (a pipeline is processing or audio is playing) as on the others, and
    leaves the mode enabled and the analyser in place. So, started with
    one run queued, the loop still has exactly one run queued after any
    number of frames: monitoring does not stop. *)
Theorem monitorVolume_reschedules_once
  (sample : list N) (now : Z) (frames : list (list N * Z))
  (w : world) (a : analyser_node) :
  isEnabled (vad w) = true ->
  analyser (vad w) = Some a ->
  frequencyBinCount a <> 0%nat ->
  (exists w',
      VAD.monitorVolume sample now w = Normal w'
      /\ raf_pending w' = raf_pending w ++ [raf_next w]
      /\ (isProcessing (vad w) || isPlaying (audio w) = true ->
          vad w' = set_animationFrame (Some (raf_next w)) (vad w))
      /\ isEnabled (vad w') = true
      /\ analyser (vad w') = Some a)
  /\ (forall id, raf_pending w = [id] ->
      exists id', raf_pending (run_frames frames w) = [id']
                  /\ isEnabled (vad (run_frames frames w)) = true).
Proof.
  intros Hen Han Hbins. split.
  - destruct (monitorVolume_enabled sample now w a Hen Han Hbins)
      as (w' & E & P & _ & _ & En & An).
    exists w'. repeat split; try assumption.
    intros Hskip. revert E. unfold VAD.monitorVolume. rewrite Han, Hen. cbn [negb].
    pose proof (dataArray_nonempty _ sample Hbins) as Hne.
    destruct (take _ _) as [|x l]; [congruence|]. cbv zeta.
    cbn [vad audio upd_el set_el]. rewrite Hskip.
    intros [= <-]. reflexivity.
  - intros id Hp. now apply (run_frames_enabled frames w a id).
Qed.

Lemma monitorVolume_reschedules_once_witness :
  isEnabled (vad listening_session) = true
  /\ raf_pending listening_session = [1%nat]
  /\ (exists w',
         VAD.monitorVolume (repeat 40%N 128) 16 listening_session = Normal w'
         /\ raf_pending w' = raf_pending listening_session ++ [raf_next listening_session]
         /\ (isProcessing (vad listening_session) || isPlaying (audio listening_session) = true ->
             vad w' = set_animationFrame (Some (raf_next listening_session))
                                         (vad listening_session))
         /\ isEnabled (vad w') = true
         /\ analyser (vad w') = Some (mkAnalyser 256 (8 # 10)))
  /\ (forall id, raf_pending listening_session = [id] ->
      exists id',
        raf_pending (run_frames [(repeat 40%N 128, 16); (repeat 0%N 128, 32)]
                                listening_session) = [id']
        /\ isEnabled (vad (run_frames [(repeat 40%N 128, 16); (repeat 0%N 128, 32)]
                                      listening_session)) = true).
Proof.
  split; [reflexivity|]. split; [reflexivity|].
  apply (monitorVolume_reschedules_once (repeat 40%N 128) 16
           [(repeat 40%N 128, 16); (repeat 0%N 128, 32)]
           listening_session (mkAnalyser 256 (8 # 10)));
    [reflexivity | reflexivity | vm_compute; lia].
Defined.

(** The minimum speech duration of the configuration is not consulted:
    50 ms of speech followed by the silence timeout is captured and, being
    large enough in bytes, handed to [Pipeline.run] and sent. *)
Lemma brief_hands_free_utterance_is_sent :
  let w0 := VAD.start (mkDevices Succeeds Succeeds Succeeds Succeeds) (repeat 0%N 128) 0
                      (handsFreeToggle_onchange true open_session) in
  let w1 := final (VAD.monitorVolume (repeat 40%N 128) 100 w0) in
  let w2 := final (VAD.monitorVolume (repeat 0%N 128) 150 w1) in
  let w3 := final (VAD.monitorVolume (repeat 0%N 128) 1150 w2) in
  let w4 := VAD.ondataavailable (repeat 7%N 2000) w3 in
  speechStart (vad w1) = Some 100
  /\ silenceStart (vad w2) = Some 150
  /\ 150 - 100 < CONFIG.VAD.minSpeechDuration
  /\ recorder_is recording_ (vad_mediaRecorder (vad w2)) = true
  /\ recorder_is inactive (vad_mediaRecorder (vad w3)) = true
  /\ match VAD.onRecordingStop w4 with
     | (Some t, w5) =>
         let w6 := Pipeline.run_encoded t (ReadOk "Bwc=") (Pipeline.run_connected t 1200 w5) in
         ws_sent <$> sockets w6 !! 0%nat = Some [mkRequest "Bwc=" "llama3.2:1b"]
     | (None, _) => False
     end.
Proof. vm_compute. repeat split; congruence. Qed.

(** ** Starting hands-free mode *)

(** C9 fails on the code. When the microphone is acquired and a later
    step of the setup throws (here the MediaRecorder constructor), [start]
    disables hands-free mode and reports the error, but keeps what it had
    allocated: the live microphone stream, the open audio context and the
    analyser stay in [state.vad], with no recorder. *)
Theorem start_failure_keeps_partial_resources :
  let w := VAD.start recorder_unavailable (repeat 0%N 128) 0
                     (handsFreeToggle_onchange true state0) in
  isEnabled (vad w) = false
  /\ handsFreeToggle_checked (el w) = false
  /\ logsContainer (el w) = [(LogMicrophoneError "NotSupportedError", log_error)]
  /\ vad_stream (vad w) = Some 0%nat
  /\ streams w = [true]
  /\ audioContext (vad w) = Some 0%nat
  /\ contexts w = [true]
  /\ analyser (vad w) = Some (mkAnalyser 256 (8 # 10))
  /\ vad_mediaRecorder (vad w) = None.
Proof. vm_compute. repeat split. Qed.

(** X29. Whichever step of [start] fails (microphone, audio context,
    source node or recorder), the mode is disabled, the toggle is
    unchecked and the error is the last line logged. *)
Lemma start_failure_disables_and_reports
  (d : devices) (sample : list N) (now : Z) (w : world) (err : string) :
  getUserMedia d = Fails err
  \/ newAudioContext d = Fails err
  \/ createMediaStreamSource d = Fails err
  \/ newMediaRecorder d = Fails err ->
  let w' := VAD.start d sample now w in
  isEnabled (vad w') = false
  /\ handsFreeToggle_checked (el w') = false
  /\ exists e, last (logsContainer (el w')) = Some (LogMicrophoneError e, log_error).
Proof.
  intros H. unfold VAD.start.
  assert (Hc : forall e v, isEnabled (vad (VAD.catch e v)) = false
                           /\ handsFreeToggle_checked (el (VAD.catch e v)) = false
                           /\ exists e', last (logsContainer (el (VAD.catch e v)))
                                         = Some (LogMicrophoneError e', log_error)).
  { intros e v. repeat split. exists e. cbn. apply last_snoc. }
  destruct (getUserMedia d); [|apply Hc].
  destruct (newAudioContext d); [|apply Hc].
  destruct (createMediaStreamSource d); [|apply Hc].
  destruct (newMediaRecorder d); [|apply Hc].
  destruct H as [H|[H|[H|H]]]; discriminate H.
Qed.

(** X30. A failure to acquire the microphone itself allocates nothing:
    [start] only runs its [catch], and the streams, the contexts and the
    four resource fields of [state.vad] are as before. *)
Lemma start_microphone_failure_allocates_nothing
  (d : devices) (sample : list N) (now : Z) (w : world) (err : string) :
  getUserMedia d = Fails err ->
  let w' := VAD.start d sample now w in
  w' = VAD.catch err w
  /\ streams w' = streams w
  /\ contexts w' = contexts w
  /\ vad_stream (vad w') = vad_stream (vad w)
  /\ audioContext (vad w') = audioContext (vad w)
  /\ analyser (vad w') = analyser (vad w)
  /\ vad_mediaRecorder (vad w') = vad_mediaRecorder (vad w).
Proof. intros H. unfold VAD.start. rewrite H. repeat split. Qed.

(** X28. [stop] releases what [start] acquired: afterwards no stream,
    audio context or analyser is held, and the stream and the context
    that were held are no longer live. *)
Lemma stop_releases_resources (w : world) :
  let w' := VAD.stop w in
  vad_stream (vad w') = None
  /\ audioContext (vad w') = None
  /\ analyser (vad w') = None
  /\ (forall s, vad_stream (vad w) = Some s -> (s < length (streams w))%nat ->
                streams w' !! s = Some false)
  /\ (forall c, audioContext (vad w) = Some c -> (c < length (contexts w))%nat ->
                contexts w' !! c = Some false).
Proof.
  unfold VAD.stop.
  destruct (animationFrame (vad w)) as [[|id]|]; cbn;
    destruct (recorder_is recording_ (vad_mediaRecorder (vad w))); cbn;
    destruct (audioContext (vad w)) as [c|]; cbn;
    destruct (vad_stream (vad w)) as [s|]; cbn;
    repeat split; try discriminate;
    intros ? [= <-] Hlt; now apply list_lookup_insert_eq.
Qed.

(** ** The playback queue: order of playback *)

Lemma playNext_empty (w : world) :
  queue (audio w) = [] ->
  isPlaying (audio (AudioQueue.playNext w)) = false
  /\ queue (audio (AudioQueue.playNext w)) = []
  /\ audioPlayer (el (AudioQueue.playNext w)) = audioPlayer (el w)
  /\ object_urls (AudioQueue.playNext w) = object_urls w.
Proof.
  intros H. unfold AudioQueue.playNext. rewrite H. cbn.
  destruct (isEnabled (vad w) && negb (isProcessing (vad w))); cbn;
    repeat split; exact H.
Qed.

Lemma playNext_cons (w : world) (next : queue_item) (rest : list queue_item) :
  queue (audio w) = next :: rest ->
  active w = false ->
  isPlaying (audio (AudioQueue.playNext w)) = true
  /\ queue (audio (AudioQueue.playNext w)) = rest
  /\ active (AudioQueue.playNext w) = true
  /\ attempts (AudioQueue.playNext w) = attempts w ++ [url next]
  /\ cut_off (AudioQueue.playNext w) = cut_off w
  /\ ap_src (audioPlayer (el (AudioQueue.playNext w))) = Some (url next)
  /\ object_urls (AudioQueue.playNext w) = object_urls w.
Proof.
  unfold active, attempts, cut_off. intros H Ha.
  unfold AudioQueue.playNext. rewrite H. cbn. unfold player_set_src.
  rewrite Ha. cbn. repeat split.
Qed.

Lemma playNext_idle_ok (w : world) :
  active w = false ->
  coherent (AudioQueue.playNext w)
  /\ object_urls (AudioQueue.playNext w) = object_urls w
  /\ attempts (AudioQueue.playNext w) ++ waiting (AudioQueue.playNext w)
     = attempts w ++ waiting w
  /\ cut_off (AudioQueue.playNext w) = cut_off w.
Proof.
  intros Ha. unfold coherent, waiting.
  destruct (queue (audio w)) as [|next rest] eqn:Hq.
  - destruct (playNext_empty w Hq) as (P & Q & A & U).
    unfold active, attempts, cut_off in *. rewrite P, Q, A, U. repeat split. exact Ha.
  - destruct (playNext_cons w next rest Hq Ha) as (P & Q & A & T & C & _ & U).
    rewrite P, Q, A, T, C, U. repeat split; [discriminate|].
    cbn. now rewrite <- app_assoc.
Qed.

Lemma queue_step_ok (w : world) (ev : queue_event) :
  coherent w -> step_ok w (queue_step w ev) (enqueued [ev]).
Proof.
  intros [Hact Hidle]. unfold step_ok, enqueued. cbn [flat_map]. rewrite app_nil_r.
  destruct ev as [a i s| |err]; cbn [queue_step].
  - unfold AudioQueue.add. destruct (base64ToBlob a) as [b|]; cbn [option_list final].
    2:{ rewrite !app_nil_r. repeat split; assumption. }
    unfold createObjectURL. cbv zeta beta iota. cbn [final].
    set (w1 := upd_audio _ _).
    assert (H1 : active w1 = active w /\ isPlaying (audio w1) = isPlaying (audio w)
                 /\ queue (audio w1)
                    = queue (audio w) ++ [mkItem (length (object_urls w)) i s]
                 /\ attempts w1 = attempts w /\ cut_off w1 = cut_off w
                 /\ object_urls w1 = object_urls w ++ [b]) by (repeat split).
    destruct H1 as (A1 & P1 & Q1 & T1 & C1 & U1).
    destruct (isPlaying (audio w1)) eqn:Hp.
    + unfold coherent, waiting. rewrite Hp, A1, Q1, T1, C1, U1.
      repeat split; [congruence|discriminate|].
      rewrite map_app, !app_assoc. reflexivity.
    + assert (Ha1 : active w1 = false) by congruence.
      destruct (playNext_idle_ok w1 Ha1) as (Co & U & T & C).
      rewrite U, T, C. unfold waiting. rewrite T1, Q1, C1, U1.
      repeat split; [apply Co|apply Co|].
      rewrite map_app, !app_assoc. reflexivity.
  - unfold playback_finished, audioPlayer_onended.
    set (w1 := audioPlayer_onpause _).
    assert (H1 : active w1 = false /\ queue (audio w1) = queue (audio w)
                 /\ attempts w1 = attempts w /\ cut_off w1 = cut_off w
                 /\ object_urls w1 = object_urls w).
    { subst w1. unfold audioPlayer_onpause. cbn.
      destruct (queue (audio w)) eqn:Hq; repeat split; exact Hq. }
    destruct H1 as (A1 & Q1 & T1 & C1 & U1).
    destruct (playNext_idle_ok w1 A1) as (Co & U & T & C).
    rewrite U, T, C. unfold waiting. rewrite T1, Q1, C1, U1, !app_nil_r.
    repeat split; apply Co.
  - unfold playback_failed, play_catch.
    set (w1 := log _ _ _).
    assert (H1 : active w1 = false /\ queue (audio w1) = queue (audio w)
                 /\ attempts w1 = attempts w /\ cut_off w1 = cut_off w
                 /\ object_urls w1 = object_urls w) by (repeat split).
    destruct H1 as (A1 & Q1 & T1 & C1 & U1).
    destruct (playNext_idle_ok w1 A1) as (Co & U & T & C).
    rewrite U, T, C. unfold waiting. rewrite T1, Q1, C1, U1, !app_nil_r.
    repeat split; apply Co.
Qed.

Lemma enqueued_cons (ev : queue_event) (evs : list queue_event) :
  enqueued (ev :: evs) = enqueued [ev] ++ enqueued evs.
Proof. unfold enqueued. cbn [flat_map]. now rewrite app_nil_r. Qed.

Lemma run_queue_ok (evs : list queue_event) :
  forall w, coherent w -> step_ok w (run_queue evs w) (enqueued evs).
Proof.
  induction evs as [|ev evs IH]; intros w Hco.
  - unfold step_ok. cbn. rewrite !app_nil_r. repeat split; apply Hco.
  - destruct (queue_step_ok w ev Hco) as (Co1 & U1 & T1 & C1).
    destruct (IH _ Co1) as (Co & U & T & C).
    change (run_queue (ev :: evs) w) with (run_queue evs (queue_step w ev)).
    rewrite enqueued_cons.
    unfold step_ok. rewrite U, T, C, U1, T1, C1.
    repeat split; [apply Co|apply Co|now rewrite app_assoc|].
    rewrite !length_app, seq_app, !app_assoc. reflexivity.
Qed.

(** C6. Take any series of enqueues, ends of playback and playback
    failures with no reset in it, from a state in which nothing waits and
    the playing flag agrees with the audio element (as at load). The N
    chunks enqueued get the object URLs [first], [first + 1], ... in
    order; what has been attempted followed by what still waits is always
    exactly that list, so chunks are attempted in enqueue order, each at
    most once; no playback is ever cut off by the next, so no two overlap;
    once the element is no longer playing, the playing flag is false and
    exactly the N attempts have been made. An enqueue while nothing is
    playing starts the playback of that chunk at once. *)
Theorem playback_queue_plays_chunks_in_order (evs : list queue_event) (w : world) :
  coherent w ->
  queue (audio w) = [] ->
  let w' := run_queue evs w in
  let first := length (object_urls w) in
  let chunks := enqueued evs in
  object_urls w' = object_urls w ++ chunks
  /\ attempts w' ++ waiting w' = attempts w ++ seq first (length chunks)
  /\ cut_off w' = cut_off w
  /\ (active w' = false ->
      isPlaying (audio w') = false
      /\ attempts w' = attempts w ++ seq first (length chunks))
  /\ (forall a i s b,
         base64ToBlob a = Some b ->
         isPlaying (audio w) = false ->
         exists w1,
           AudioQueue.add a i s w = Normal w1
           /\ active w1 = true
           /\ isPlaying (audio w1) = true
           /\ attempts w1 = attempts w ++ [first]
           /\ object_urls w1 !! first = Some b).
Proof.
  intros Hco Hq. cbv zeta.
  destruct (run_queue_ok evs w Hco) as (Co & U & T & C).
  unfold waiting in T at 2. rewrite Hq, app_nil_r in T.
  split; [exact U|]. split; [exact T|]. split; [exact C|]. split.
  - intros Ha. destruct Co as [Hact Hidle].
    assert (Hp : isPlaying (audio (run_queue evs w)) = false) by congruence.
    split; [exact Hp|].
    rewrite <- T. unfold waiting. rewrite (Hidle Hp). cbn. now rewrite app_nil_r.
  - intros a i s b Hb Hp. destruct Hco as [Hact _].
    unfold AudioQueue.add. rewrite Hb. unfold createObjectURL. cbv zeta beta iota.
    set (w1 := upd_audio _ _).
    change (isPlaying (audio w1)) with (isPlaying (audio w)). rewrite Hp.
    eexists. split; [reflexivity|].
    assert (Hq1 : queue (audio w1) = mkItem (length (object_urls w)) i s :: [])
      by (subst w1; cbn; now rewrite Hq).
    assert (Ha1 : active w1 = false)
      by (change (active w1) with (active w); congruence).
    destruct (playNext_cons w1 _ _ Hq1 Ha1) as (P & _ & A & At & _ & _ & Us).
    split; [exact A|]. split; [exact P|]. split; [exact At|].
    rewrite Us. subst w1. cbn. apply lookup_snoc.
Qed.

Lemma playback_queue_plays_chunks_in_order_witness :
  let evs := [Enqueue (JStr "aGVsbG8=") (JOther "0") (JStr "Hello.");
              Enqueue (JStr "d29ybGQ=") (JOther "1") (JStr "World.");
              Finished;
              Enqueue (JStr "not base64!") (JOther "2") (JStr "?");
              Failed "NotSupportedError"] in
  let w' := run_queue evs state0 in
  length (enqueued evs) = 2%nat
  /\ active w' = false
  /\ attempts w' = [0%nat; 1%nat]
  /\ object_urls w' = object_urls state0 ++ enqueued evs
  /\ attempts w' ++ waiting w' = attempts state0 ++ seq 0 (length (enqueued evs))
  /\ cut_off w' = cut_off state0
  /\ (active w' = false ->
      isPlaying (audio w') = false
      /\ attempts w' = attempts state0 ++ seq 0 (length (enqueued evs)))
  /\ (forall a i s b,
         base64ToBlob a = Some b ->
         isPlaying (audio state0) = false ->
         exists w1,
           AudioQueue.add a i s state0 = Normal w1
           /\ active w1 = true
           /\ isPlaying (audio w1) = true
           /\ attempts w1 = attempts state0 ++ [0%nat]
           /\ object_urls w1 !! 0%nat = Some b).
Proof.
  intros evs w'.
  split; [reflexivity|]. split; [reflexivity|]. split; [reflexivity|].
  apply (playback_queue_plays_chunks_in_order evs state0).
  - split; [reflexivity|]. intros _. reflexivity.
  - reflexivity.
Defined.

(** * Further properties of the handlers *)

(** ** Dispatch: text panels *)

Lemma string_app_assoc (a b c : string) : ((a ++ b) ++ c = a ++ (b ++ c))%string.
Proof. induction a as [|x a IH]; cbn; [reflexivity|now rewrite IH]. Qed.

Lemma string_app_nil_r (a : string) : (a ++ "" = a)%string.
Proof. induction a as [|x a IH]; cbn; [reflexivity|now rewrite IH]. Qed.

Lemma segments_append (contents : list jsval) (now : Z) :
  forall w,
    textContent (transcript (el (dispatch_all (map segment_message contents) now w)))
    = (textContent (transcript (el w)) ++ joined " " contents)%string.
Proof.
  induction contents as [|c cs IH]; intros w.
  - cbn. now rewrite string_app_nil_r.
  - cbn [map dispatch_all fold_left joined fold_right].
    change (fold_left _ (map segment_message cs) ?x)
      with (dispatch_all (map segment_message cs) now x).
    rewrite IH. cbn. now rewrite !string_app_assoc.
Qed.

Lemma tokens_append (contents : list jsval) (now : Z) :
  forall w,
    textContent (response (el (dispatch_all (map token_message contents) now w)))
    = (textContent (response (el w)) ++ joined "" contents)%string.
Proof.
  induction contents as [|c cs IH]; intros w.
  - cbn. now rewrite string_app_nil_r.
  - cbn [map dispatch_all fold_left joined fold_right].
    change (fold_left _ (map token_message cs) ?x)
      with (dispatch_all (map token_message cs) now x).
    rewrite IH. cbn. now rewrite !string_app_assoc.
Qed.

(** ** Dispatch: malformed events *)

(** X2. A [tts_chunk] event whose [audio] does not decode as base64 (a
    missing [audio] field included) makes the handler throw
    InvalidCharacterError before anything is queued: the whole state is
    as before. *)
Theorem tts_chunk_undecodable_audio_throws (data : message) (now : Z) (w : world) :
  msg_type data = JStr "tts_chunk" ->
  base64ToBlob (msg_audio data) = None ->
  WebSocketManager.handleMessage data now w = Throw "InvalidCharacterError" w.
Proof.
  intros Ht Ha. unfold WebSocketManager.handleMessage. rewrite Ht.
  change (switch_case (JStr "tts_chunk")) with (Some tts_chunk). cbv beta iota.
  unfold AudioQueue.add. now rewrite Ha.
Qed.

Lemma tts_chunk_undecodable_audio_throws_witness :
  base64ToBlob JUndefined = None
  /\ WebSocketManager.handleMessage (bare_message "tts_chunk") 0 playing_session
     = Throw "InvalidCharacterError" playing_session.
Proof.
  split; [reflexivity|].
  apply tts_chunk_undecodable_audio_throws; reflexivity.
Defined.

(** X3. An [stt_done] event whose [full_transcript] is no string (missing,
    null, a number) makes the handler throw a TypeError, after it has
    stopped the streaming effect and set the transcript panel: to the
    empty text for a missing or null value, to the value's string
    conversion otherwise. Nothing is logged and no promise is touched. *)
Theorem stt_done_without_string_throws (data : message) (now : Z) (w : world) :
  msg_type data = JStr "stt_done" ->
  (forall s, msg_full_transcript data <> JStr s) ->
  exists w',
    WebSocketManager.handleMessage data now w = Throw "TypeError" w'
    /\ textContent (transcript (el w')) = toTextContent (msg_full_transcript data)
    /\ streaming (transcript (el w')) = false
    /\ sttBadge_hidden (el w') = true
    /\ logsContainer (el w') = logsContainer (el w)
    /\ promises w' = promises w
    /\ pipelineResolve w' = pipelineResolve w.
Proof.
  intros Ht Hf. unfold WebSocketManager.handleMessage. rewrite Ht.
  change (switch_case (JStr "stt_done")) with (Some stt_done). cbv beta iota zeta.
  destruct (msg_full_transcript data) as [| |s|r] eqn:E;
    try (eexists; split; [reflexivity|]; cbn; repeat split).
  now destruct (Hf s).
Qed.

Lemma stt_done_without_string_throws_witness :
  let w := final (WebSocketManager.handleMessage (segment_message (JStr "partial")) 0 state0) in
  textContent (transcript (el w)) = "partial "
  /\ exists w',
      WebSocketManager.handleMessage (bare_message "stt_done") 1 w = Throw "TypeError" w'
      /\ textContent (transcript (el w')) = toTextContent JUndefined
      /\ streaming (transcript (el w')) = false
      /\ sttBadge_hidden (el w') = true
      /\ logsContainer (el w') = logsContainer (el w)
      /\ promises w' = promises w
      /\ pipelineResolve w' = pipelineResolve w.
Proof.
  split; [reflexivity|].
  apply (stt_done_without_string_throws (bare_message "stt_done") 1); [reflexivity|].
  intros s. discriminate.
Defined.

(** ** Dispatch: what an event touches *)

Lemma settle_shape (p : nat) (o : outcome) (w : world) :
  exists ps,
    settle p o w
    = set_promises ps (set_resolver_calls (resolver_calls w ++ [(p, o)]) w).
Proof.
  unfold settle. cbn. destruct (promises w !! p) as [[]|]; eexists; try reflexivity.
  all: now destruct w.
Qed.

Ltac settle_as_update :=
  unfold resolve, reject;
  match goal with
  | |- context [settle ?p ?o ?W] =>
      let ps := fresh "ps" in
      let E := fresh "E" in
      destruct (settle_shape p o W) as [ps E]; rewrite E; clear E
  end.

Lemma handleMessage_frame (data : message) (now : Z) (w : world) :
  let w' := final (WebSocketManager.handleMessage data now w) in
  vad w' = vad w
  /\ recording w' = recording w
  /\ websocket w' = websocket w
  /\ sockets w' = sockets w
  /\ processingStartTime w' = processingStartTime w.
Proof.
  unfold WebSocketManager.handleMessage.
  destruct (switch_case (msg_type data)) as [[]|]; cbv zeta;
    try (cbn; repeat (split; [reflexivity|]); reflexivity).
  - destruct (msg_full_transcript data); cbn; repeat (split; [reflexivity|]); reflexivity.
  - destruct (add_keeps (msg_audio data) (msg_index data) (msg_sentence data) w)
      as (A & B & C & D & E & _). now repeat split.
  - destruct (pipelineResolve _) as [p|]; [settle_as_update|];
      destruct (isEnabled _); cbn; repeat (split; [reflexivity|]); reflexivity.
  - destruct (pipelineResolve _) as [p|]; [settle_as_update|];
      destruct (isEnabled _); cbn; repeat (split; [reflexivity|]); reflexivity.
Qed.

(** X4. No inbound event, of any kind and whether its handler completes
    or throws, changes the hands-free state ([state.vad], [isProcessing]
    included), the manual recording state, the held connection, the
    sockets or the recorded start time of the request. *)
Theorem handleMessage_leaves_capture_and_connection (data : message) (now : Z) (w : world) :
  let w' := final (WebSocketManager.handleMessage data now w) in
  vad w' = vad w
  /\ recording w' = recording w
  /\ websocket w' = websocket w
  /\ sockets w' = sockets w
  /\ processingStartTime w' = processingStartTime w.
Proof. apply handleMessage_frame. Qed.

(** X5. Only the two terminal events settle anything: after any other
    message, recognized or not, completing or throwing, every promise is
    as it was, no resolver has been called and the pending request is
    still the pending request. *)
Theorem only_terminal_events_settle (data : message) (now : Z) (w : world) :
  msg_type data <> JStr "pipeline_done" ->
  msg_type data <> JStr "error" ->
  let w' := final (WebSocketManager.handleMessage data now w) in
  promises w' = promises w
  /\ resolver_calls w' = resolver_calls w
  /\ pipelineResolve w' = pipelineResolve w.
Proof.
  intros Hd He. unfold WebSocketManager.handleMessage.
  destruct (switch_case (msg_type data)) as [k|] eqn:Hk; [|now repeat split].
  apply switch_case_Some in Hk.
  destruct k; cbv zeta;
    try (cbn; repeat (split; [reflexivity|]); reflexivity).
  - destruct (msg_full_transcript data); cbn; repeat (split; [reflexivity|]); reflexivity.
  - destruct (add_keeps (msg_audio data) (msg_index data) (msg_sentence data) w)
      as (_ & _ & _ & _ & _ & F & G & H). now repeat split.
  - now destruct Hd.
  - now destruct He.
Qed.

Lemma only_terminal_events_settle_witness :
  let data := mkMessage (JStr "tts_chunk") JUndefined JUndefined (JStr "aGVsbG8=")
                        (JOther "0") (JStr "Hello.") JUndefined in
  let w' := final (WebSocketManager.handleMessage data 15 pending_session) in
  pipelineResolve pending_session = Some 1%nat
  /\ promises w' = promises pending_session
  /\ resolver_calls w' = resolver_calls pending_session
  /\ pipelineResolve w' = pipelineResolve pending_session.
Proof.
  split; [reflexivity|].
  apply only_terminal_events_settle; discriminate.
Defined.

(** X6. After either terminal event the status is READY ("Ready"), both
    panels have left the streaming state with their badges hidden, and the
    record button is enabled unless hands-free mode is on, in which case
    it is left as it was. The panels keep their text: a server error is
    logged, not shown in the response panel. *)
Theorem terminal_event_restores_controls
  (data : message) (now : Z) (k : event_kind) (w : world) :
  switch_case (msg_type data) = Some k ->
  terminal k = true ->
  let w' := final (WebSocketManager.handleMessage data now w) in
  statusIndicator (el w') = READY
  /\ statusText (el w') = "Ready"
  /\ streaming (transcript (el w')) = false
  /\ streaming (response (el w')) = false
  /\ sttBadge_hidden (el w') = true
  /\ llmBadge_hidden (el w') = true
  /\ disabled (recordBtn (el w')) = isEnabled (vad w) && disabled (recordBtn (el w))
  /\ textContent (transcript (el w')) = textContent (transcript (el w))
  /\ textContent (response (el w')) = textContent (response (el w)).
Proof.
  intros Hk Ht. unfold WebSocketManager.handleMessage. rewrite Hk.
  destruct k; try discriminate Ht; cbv zeta;
    (destruct (pipelineResolve _) as [p|]; [settle_as_update|]);
    cbn; destruct (isEnabled (vad w)); cbn;
    repeat (split; [reflexivity|]); reflexivity.
Qed.

Lemma terminal_event_restores_controls_witness :
  let w := Recording.stop
             (final (Recording.start (mkDevices Succeeds Succeeds Succeeds Succeeds)
                                     1 0 pending_session)) in
  let w' := final (WebSocketManager.handleMessage (bare_message "error") 30 w) in
  disabled (recordBtn (el w)) = true
  /\ statusIndicator (el w') = READY
  /\ statusText (el w') = "Ready"
  /\ streaming (transcript (el w')) = false
  /\ streaming (response (el w')) = false
  /\ sttBadge_hidden (el w') = true
  /\ llmBadge_hidden (el w') = true
  /\ disabled (recordBtn (el w')) = isEnabled (vad w) && disabled (recordBtn (el w))
  /\ textContent (transcript (el w')) = textContent (transcript (el w))
  /\ textContent (response (el w')) = textContent (response (el w)).
Proof.
  split; [reflexivity|].
  apply (terminal_event_restores_controls (bare_message "error") 30 error_event);
    reflexivity.
Defined.

(** X7. A server-reported [error] does not reject the pending request: its
    promise is fulfilled with [false]. So neither caller takes its
    [catch] branch when resumed: manual [process] does nothing more, and
    the hands-free handler takes its success path, showing no error text
    and logging nothing, and clears [isProcessing]. *)
Theorem server_error_reaches_no_catch
  (data : message) (now : Z) (t : run_task) (w : world) :
  switch_case (msg_type data) = Some error_event ->
  pipelineResolve w = Some (run_promise t) ->
  promises w !! run_promise t = Some Pending ->
  exists w',
    WebSocketManager.handleMessage data now w = Normal w'
    /\ promises w' !! run_promise t = Some (Fulfilled (VBool false))
    /\ Recording.process_resumed t w' = w'
    /\ response (el (VAD.onRecordingStop_resumed t w')) = response (el w')
    /\ logsContainer (el (VAD.onRecordingStop_resumed t w')) = logsContainer (el w')
    /\ isProcessing (vad (VAD.onRecordingStop_resumed t w')) = false.
Proof.
  intros Hk Hp Hpend.
  destruct (handleMessage_terminal data now w error_event Hk eq_refl)
    as (w' & E & _ & S).
  rewrite Hp in S. destruct S as [P _].
  assert (L : promises w' !! run_promise t = Some (Fulfilled (VBool false)))
    by (rewrite P; now apply settle_pending).
  exists w'. split; [exact E|]. split; [exact L|].
  unfold Recording.process_resumed, VAD.onRecordingStop_resumed. rewrite L.
  split; [reflexivity|].
  destruct (isEnabled (vad w')); cbn; repeat (split; [reflexivity|]); reflexivity.
Qed.

Lemma server_error_reaches_no_catch_witness :
  pipelineResolve pending_session = Some 1%nat
  /\ exists w',
      WebSocketManager.handleMessage (bare_message "error") 20 pending_session = Normal w'
      /\ promises w' !! 1%nat = Some (Fulfilled (VBool false))
      /\ Recording.process_resumed (mkTask 1 2 []) w' = w'
      /\ response (el (VAD.onRecordingStop_resumed (mkTask 1 2 []) w')) = response (el w')
      /\ logsContainer (el (VAD.onRecordingStop_resumed (mkTask 1 2 []) w'))
         = logsContainer (el w')
      /\ isProcessing (vad (VAD.onRecordingStop_resumed (mkTask 1 2 []) w')) = false.
Proof.
  split; [reflexivity|].
  apply (server_error_reaches_no_catch (bare_message "error") 20 (mkTask 1 2 [])
           pending_session); reflexivity.
Defined.

(** ** Dispatch and the playback queue *)

Lemma coherent_ext (w w' : world) :
  audio w' = audio w ->
  audioPlayer (el w') = audioPlayer (el w) ->
  coherent w -> coherent w'.
Proof.
  unfold coherent, active. intros A P H. now rewrite A, P.
Qed.

(** X8. Starting from a state where the playing flag agrees with the
    audio element, every inbound event other than [tts_start] keeps it
    so. [tts_start] keeps it exactly when the element is idle: arriving
    while a chunk is being played, it leaves the flag false with the
    element still playing. *)
Theorem messages_keep_queue_coherent (data : message) (now : Z) (w : world) :
  coherent w ->
  let w' := final (WebSocketManager.handleMessage data now w) in
  (msg_type data <> JStr "tts_start" -> coherent w')
  /\ (msg_type data = JStr "tts_start" -> (coherent w' <-> active w = false)).
Proof.
  intros Hco. cbv zeta. split.
  - intros Hne. unfold WebSocketManager.handleMessage.
    destruct (switch_case (msg_type data)) as [k|] eqn:Hk; [|exact Hco].
    apply switch_case_Some in Hk.
    destruct k; cbv zeta;
      try (apply (coherent_ext w); [reflexivity|reflexivity|exact Hco]).
    + destruct (msg_full_transcript data);
        (apply (coherent_ext w); [reflexivity|reflexivity|exact Hco]).
    + now destruct Hne.
    + apply (queue_step_ok w (Enqueue (msg_audio data) (msg_index data)
                                      (msg_sentence data)) Hco).
    + destruct (pipelineResolve _) as [p|]; [settle_as_update|];
        destruct (isEnabled _);
        (apply (coherent_ext w); [reflexivity|reflexivity|exact Hco]).
    + destruct (pipelineResolve _) as [p|]; [settle_as_update|];
        destruct (isEnabled _);
        (apply (coherent_ext w); [reflexivity|reflexivity|exact Hco]).
  - intros Ht. unfold WebSocketManager.handleMessage. rewrite Ht.
    change (switch_case (JStr "tts_start")) with (Some tts_start).
    unfold coherent, active. cbn. split.
    + now intros [H _].
    + intros H. split; [exact H|reflexivity].
Qed.

Lemma messages_keep_queue_coherent_witness :
  let w' := final (WebSocketManager.handleMessage (bare_message "tts_start") 0
                                                  playing_session) in
  coherent playing_session
  /\ active playing_session = true
  /\ ~ coherent w'.
Proof.
  assert (Hco : coherent playing_session)
    by (split; [reflexivity|intros H; discriminate H]).
  split; [exact Hco|]. split; [reflexivity|].
  intros H.
  apply (proj2 (messages_keep_queue_coherent (bare_message "tts_start") 0
                  playing_session Hco) eq_refl) in H.
  discriminate H.
Defined.

(** ** Failures of a pipeline run *)

Lemma lookup_two_l {A} (l : list A) (x y : A) : (l ++ [x; y]) !! length l = Some x.
Proof. rewrite lookup_app_r by lia. now rewrite Nat.sub_diag. Qed.

Lemma lookup_two_r {A} (l : list A) (x y : A) : (l ++ [x; y]) !! S (length l) = Some y.
Proof.
  rewrite lookup_app_r by lia.
  now replace (S (length l) - length l)%nat with 1%nat by lia.
Qed.

Lemma insert_two_l {A} (l : list A) (x y z : A) :
  <[length l := z]> (l ++ [x; y]) = l ++ [z; y].
Proof.
  replace (length l) with (length l + 0)%nat at 1 by lia.
  now rewrite insert_app_r.
Qed.

Lemma insert_two_r {A} (l : list A) (x y z : A) :
  <[S (length l) := z]> (l ++ [x; y]) = l ++ [x; z].
Proof.
  replace (S (length l)) with (length l + 1)%nat at 1 by lia.
  now rewrite insert_app_r.
Qed.

(** [run] up to its first [await], in closed form. *)
Lemma run_with_open_socket (audioBlob : blob) (w : world) :
  socket_is_open w = true ->
  Pipeline.run audioBlob w
  = (mkTask (length (promises w)) (S (length (promises w))) audioBlob,
     set_promises (promises w ++ [Pending; Fulfilled (VSocket (websocket w))])
       (set_resolver_calls
          (resolver_calls w
           ++ [(S (length (promises w)), Fulfilled (VSocket (websocket w)))]) w)).
Proof.
  intros Hopen. unfold Pipeline.run, new_promise.
  rewrite connect_open by exact Hopen.
  unfold resolve. rewrite settle_eq by (cbn; apply lookup_snoc).
  cbn [promises set_promises]. rewrite insert_snoc, length_app, <- app_assoc.
  cbn [length app]. rewrite Nat.add_1_r. reflexivity.
Qed.

Lemma run_without_open_socket (audioBlob : blob) (w : world) :
  socket_is_open w = false ->
  Pipeline.run audioBlob w
  = (mkTask (length (promises w)) (S (length (promises w))) audioBlob,
     set_websocket (Some (length (sockets w)))
       (set_sockets (sockets w ++ [mkSocket CONNECTING (S (length (promises w))) []])
          (set_promises (promises w ++ [Pending; Pending]) w))).
Proof.
  intros Hopen. unfold Pipeline.run, new_promise.
  rewrite connect_new by exact Hopen.
  cbn [promises set_promises sockets]. rewrite length_app, <- app_assoc.
  cbn [length app]. rewrite Nat.add_1_r. reflexivity.
Qed.

(** X9. When no connection is open and the one [run] starts fails, the
    call is rejected with "WebSocket connection failed": nothing is sent,
    the call never becomes the pending request and no start time is
    recorded. Resumed on that rejection, manual [process] shows the error
    in the response panel, returns to READY and re-enables the record
    button; the hands-free handler clears [isProcessing]. *)
Theorem run_rejected_when_connection_fails (audioBlob : blob) (now : Z) (w : world) :
  socket_is_open w = false ->
  let '(t, w1) := Pipeline.run audioBlob w in
  let w3 := Pipeline.run_connected t now (socket_errored (length (sockets w)) w1) in
  promises w3 !! run_promise t = Some (Rejected "WebSocket connection failed")
  /\ pipelineResolve w3 = pipelineResolve w
  /\ processingStartTime w3 = processingStartTime w
  /\ sockets w3 = sockets w ++ [mkSocket CONNECTING (run_connect t) []]
  /\ textContent (response (el (Recording.process_resumed t w3)))
     = "Error: WebSocket connection failed"
  /\ disabled (recordBtn (el (Recording.process_resumed t w3))) = false
  /\ statusIndicator (el (Recording.process_resumed t w3)) = READY
  /\ isProcessing (vad (VAD.onRecordingStop_resumed t w3)) = false.
Proof.
  intros Hopen. rewrite run_without_open_socket by exact Hopen.
  cbv beta iota zeta.
  unfold socket_errored, WebSocketManager.onerror.
  cbn [sockets set_websocket set_sockets]. rewrite lookup_snoc. cbn [ws_owner].
  unfold reject.
  rewrite (settle_eq (S (length (promises w)))) by (cbn; apply lookup_two_r).
  cbn [promises set_promises set_websocket set_sockets log upd_el set_el].
  rewrite insert_two_r.
  unfold Pipeline.run_connected.
  cbn [run_connect run_promise promises set_promises set_resolver_calls].
  rewrite lookup_two_r. unfold Pipeline.catch, reject. cbn [run_promise].
  rewrite settle_eq by (cbn; apply lookup_two_l).
  cbn [promises set_promises set_resolver_calls log upd_el set_el].
  rewrite insert_two_l.
  unfold Recording.process_resumed, VAD.onRecordingStop_resumed.
  cbn [run_promise promises set_promises]. rewrite lookup_two_l.
  split; [reflexivity|]. split; [reflexivity|]. split; [reflexivity|].
  split; [reflexivity|]. split; [reflexivity|]. split; [reflexivity|].
  split; [reflexivity|].
  cbn. now destruct (isEnabled (vad w)).
Qed.

Lemma run_rejected_when_connection_fails_witness :
  socket_is_open state0 = false
  /\ (let '(t, w1) := Pipeline.run [1%N] state0 in
      let w3 := Pipeline.run_connected t 5 (socket_errored (length (sockets state0)) w1) in
      promises w3 !! run_promise t = Some (Rejected "WebSocket connection failed")
      /\ pipelineResolve w3 = pipelineResolve state0
      /\ processingStartTime w3 = processingStartTime state0
      /\ sockets w3 = sockets state0 ++ [mkSocket CONNECTING (run_connect t) []]
      /\ textContent (response (el (Recording.process_resumed t w3)))
         = "Error: WebSocket connection failed"
      /\ disabled (recordBtn (el (Recording.process_resumed t w3))) = false
      /\ statusIndicator (el (Recording.process_resumed t w3)) = READY
      /\ isProcessing (vad (VAD.onRecordingStop_resumed t w3)) = false).
Proof.
  split; [reflexivity|].
  apply (run_rejected_when_connection_fails [1%N] 5 state0). reflexivity.
Defined.

(** X10. When the encoding of the captured audio fails, the call is
    rejected with "Failed to read blob" and nothing is sent, but
    [pipelineResolve] still names the rejected call. A terminal event
    that arrives later clears [pipelineResolve] and leaves the promise
    rejected. *)
Theorem run_rejected_when_encoding_fails
  (audioBlob : blob) (now now' : Z) (data : message) (k : event_kind) (w : world) :
  socket_is_open w = true ->
  switch_case (msg_type data) = Some k ->
  terminal k = true ->
  let '(t, w1) := Pipeline.run audioBlob w in
  let w3 := Pipeline.run_encoded t ReadError (Pipeline.run_connected t now w1) in
  let w4 := final (WebSocketManager.handleMessage data now' w3) in
  promises w3 !! run_promise t = Some (Rejected "Failed to read blob")
  /\ sockets w3 = sockets w
  /\ pipelineResolve w3 = Some (run_promise t)
  /\ promises w4 !! run_promise t = Some (Rejected "Failed to read blob")
  /\ pipelineResolve w4 = None.
Proof.
  intros Hopen Hk Ht. rewrite run_with_open_socket by exact Hopen.
  cbv beta iota zeta.
  unfold Pipeline.run_connected.
  cbn [run_connect run_promise promises set_promises set_resolver_calls].
  rewrite lookup_two_r.
  unfold Pipeline.run_encoded, Pipeline.catch, reject. cbn [run_promise].
  rewrite settle_eq by (cbn; apply lookup_two_l).
  cbn [promises set_promises set_resolver_calls log upd_el set_el
       set_pipelineResolve set_processingStartTime].
  rewrite insert_two_l.
  match goal with
  | |- context [WebSocketManager.handleMessage data now' ?W] => set (w3 := W)
  end.
  assert (L3 : promises w3 !! length (promises w) = Some (Rejected "Failed to read blob"))
    by (subst w3; cbn; apply lookup_two_l).
  split; [exact L3|]. split; [reflexivity|]. split; [reflexivity|].
  destruct (handleMessage_terminal data now' w3 k Hk Ht) as (w4 & E & R & S).
  rewrite E. cbn [final].
  change (pipelineResolve w3) with (Some (length (promises w))) in S.
  destruct S as [P _]. split; [|exact R].
  rewrite P, settle_promises, L3. exact L3.
Qed.

Lemma run_rejected_when_encoding_fails_witness :
  socket_is_open open_session = true
  /\ (let '(t, w1) := Pipeline.run [1%N] open_session in
      let w3 := Pipeline.run_encoded t ReadError (Pipeline.run_connected t 5 w1) in
      let w4 := final (WebSocketManager.handleMessage (bare_message "pipeline_done") 9 w3) in
      promises w3 !! run_promise t = Some (Rejected "Failed to read blob")
      /\ sockets w3 = sockets open_session
      /\ pipelineResolve w3 = Some (run_promise t)
      /\ promises w4 !! run_promise t = Some (Rejected "Failed to read blob")
      /\ pipelineResolve w4 = None).
Proof.
  split; [reflexivity|].
  apply (run_rejected_when_encoding_fails [1%N] 5 9 (bare_message "pipeline_done")
           pipeline_done open_session); reflexivity.
Defined.

Lemma sent_after_alter (f : web_socket -> web_socket) (i : nat) (l : list web_socket) :
  (forall s, ws_sent (f s) = ws_sent s) ->
  map ws_sent (alter f i l) = map ws_sent l.
Proof.
  intros Hf. revert i. induction l as [|s l IH]; intros [|i]; cbn; try reflexivity.
  - now rewrite Hf.
  - f_equal. apply IH.
Qed.

(** X11. When a socket closes (any socket, the held one or not) after
    [connect] resolved and before the encoded audio is sent, the held
    reference is null at the time of the send: the call is rejected with
    a TypeError and nothing goes out on any socket. *)
Theorem run_rejected_when_socket_closes_before_send
  (audioBlob : blob) (now : Z) (base64 : string) (i : nat) (w : world) :
  socket_is_open w = true ->
  let '(t, w1) := Pipeline.run audioBlob w in
  let w2 := socket_closed i (Pipeline.run_connected t now w1) in
  let w3 := Pipeline.run_encoded t (ReadOk base64) w2 in
  websocket w2 = None
  /\ promises w3 !! run_promise t = Some (Rejected "TypeError")
  /\ map ws_sent (sockets w3) = map ws_sent (sockets w).
Proof.
  intros Hopen. rewrite run_with_open_socket by exact Hopen.
  cbv beta iota zeta.
  unfold Pipeline.run_connected.
  cbn [run_connect run_promise promises set_promises set_resolver_calls].
  rewrite lookup_two_r.
  unfold socket_closed, WebSocketManager.onclose, upd_socket.
  split; [reflexivity|].
  unfold Pipeline.run_encoded, websocket_send.
  cbn [websocket set_websocket log upd_el set_el].
  unfold Pipeline.catch, reject. cbn [run_promise].
  rewrite settle_eq by (cbn; apply lookup_two_l).
  cbn [promises set_promises set_resolver_calls log upd_el set_el
       set_pipelineResolve set_processingStartTime set_websocket set_sockets sockets].
  rewrite insert_two_l. split; [apply lookup_two_l|].
  now apply sent_after_alter.
Qed.

Lemma run_rejected_when_socket_closes_before_send_witness :
  socket_is_open open_session = true
  /\ (let '(t, w1) := Pipeline.run [1%N] open_session in
      let w2 := socket_closed 0 (Pipeline.run_connected t 5 w1) in
      let w3 := Pipeline.run_encoded t (ReadOk "AQ==") w2 in
      websocket w2 = None
      /\ promises w3 !! run_promise t = Some (Rejected "TypeError")
      /\ map ws_sent (sockets w3) = map ws_sent (sockets open_session)).
Proof.
  split; [reflexivity|].
  apply (run_rejected_when_socket_closes_before_send [1%N] 5 "AQ==" 0%nat open_session).
  reflexivity.
Defined.

(** X12. The close of any socket, the held one or an older one, clears
    the held reference; the next [connect()] therefore never reuses a
    connection: it creates one new socket, holds it, and returns a
    pending promise. *)
Theorem connect_after_close_opens_new_socket (i : nat) (w : world) :
  let w1 := socket_closed i w in
  let '(p, w2) := WebSocketManager.connect w1 in
  websocket w1 = None
  /\ length (sockets w1) = length (sockets w)
  /\ sockets w2 = sockets w1 ++ [mkSocket CONNECTING p []]
  /\ websocket w2 = Some (length (sockets w))
  /\ promises w2 !! p = Some Pending.
Proof.
  cbv zeta.
  assert (Hclosed : socket_is_open (socket_closed i w) = false) by reflexivity.
  rewrite (connect_new _ Hclosed).
  split; [reflexivity|].
  assert (Hlen : length (sockets (socket_closed i w)) = length (sockets w))
    by (unfold socket_closed, WebSocketManager.onclose, upd_socket; cbn;
        apply length_alter).
  split; [exact Hlen|]. split; [reflexivity|].
  split; [cbn [websocket set_websocket]; now rewrite Hlen|].
  cbn [promises set_promises set_websocket set_sockets]. apply lookup_snoc.
Qed.

Lemma pipeline_done_elapsed (data : message) (now : Z) (w : world) :
  switch_case (msg_type data) = Some pipeline_done ->
  processingTime (el (final (WebSocketManager.handleMessage data now w)))
  = DSeconds (now - ToNumber (processingStartTime w)).
Proof.
  intros Hk. unfold WebSocketManager.handleMessage. rewrite Hk. cbv zeta.
  destruct (pipelineResolve _) as [p|]; [settle_as_update|];
    destruct (isEnabled _); reflexivity.
Qed.

(** X13. The processing time shown at [pipeline_done] is the time elapsed
    since the call's [connect()] resolved (the moment [run] records),
    not since the call or the send. With no request ever made (the start
    time still null) a [pipeline_done] shows the clock value itself. *)
Theorem elapsed_time_runs_from_connect
  (audioBlob : blob) (start finish : Z) (base64 : string) (data : message) (w v : world) :
  socket_is_open w = true ->
  switch_case (msg_type data) = Some pipeline_done ->
  processingStartTime v = None ->
  (let '(t, w1) := Pipeline.run audioBlob w in
   let w3 := Pipeline.run_encoded t (ReadOk base64) (Pipeline.run_connected t start w1) in
   processingTime (el (final (WebSocketManager.handleMessage data finish w3)))
   = DSeconds (finish - start))
  /\ processingTime (el (final (WebSocketManager.handleMessage data finish v)))
     = DSeconds finish.
Proof.
  intros Hopen Hk Hv. split.
  - rewrite run_with_open_socket by exact Hopen. cbv beta iota zeta.
    rewrite pipeline_done_elapsed by exact Hk. f_equal. f_equal.
    unfold Pipeline.run_connected.
    cbn [run_connect run_promise promises set_promises set_resolver_calls].
    rewrite lookup_two_r.
    destruct (socket_is_open_true w Hopen) as (i & s & Hi & Hs & Hr).
    unfold Pipeline.run_encoded, websocket_send. cbn. rewrite Hi, Hs, Hr. reflexivity.
  - rewrite pipeline_done_elapsed by exact Hk. rewrite Hv. cbn. f_equal. lia.
Qed.

Lemma elapsed_time_runs_from_connect_witness :
  socket_is_open open_session = true
  /\ processingStartTime state0 = None
  /\ (let '(t, w1) := Pipeline.run [1%N] open_session in
      let w3 := Pipeline.run_encoded t (ReadOk "AQ==") (Pipeline.run_connected t 1000 w1) in
      processingTime
        (el (final (WebSocketManager.handleMessage (bare_message "pipeline_done") 3500 w3)))
      = DSeconds (3500 - 1000))
  /\ processingTime
       (el (final (WebSocketManager.handleMessage (bare_message "pipeline_done") 3500 state0)))
     = DSeconds 3500.
Proof.
  split; [reflexivity|]. split; [reflexivity|].
  apply (elapsed_time_runs_from_connect [1%N] 1000 3500 "AQ=="
           (bare_message "pipeline_done") open_session state0); reflexivity.
Defined.

(** ** The speech/silence state machine *)

Lemma loud_iff (s : N) :
  negb (Qle_bool (Qmin (100 # 1)
                       (inject_Z (Z.of_N s) / inject_Z (Z.of_nat 128) / (128 # 1)
                        * (100 # 1))%Q)
                 CONFIG.VAD.volumeThreshold)
  = (2458 <=? s)%N.
Proof.
  unfold Qdiv. change (/ inject_Z (Z.of_nat 128))%Q with (1 # 128)%Q.
  destruct (2458 <=? s)%N eqn:E.
  - apply N.leb_le in E. apply negb_true_iff.
    destruct (Qle_bool _ _) eqn:Q; [|reflexivity].
    apply Qle_bool_iff in Q. apply Q.min_le_iff in Q. exfalso.
    destruct Q as [Q|Q]; unfold Qle in Q; cbn in Q; lia.
  - apply N.leb_gt in E. apply negb_false_iff.
    apply Qle_bool_iff. apply Q.min_le_iff. right.
    unfold Qle. cbn. lia.
Qed.

Lemma onSpeechDetected_upd_el (f : elements -> elements) (now : Z) (w : world) :
  vad (VAD.onSpeechDetected now (upd_el f w)) = vad (VAD.onSpeechDetected now w)
  /\ recording (VAD.onSpeechDetected now (upd_el f w))
     = recording (VAD.onSpeechDetected now w)
  /\ audio (VAD.onSpeechDetected now (upd_el f w)) = audio w.
Proof.
  unfold VAD.onSpeechDetected. cbn.
  destruct (isSpeaking (vad w)); cbn; [repeat split|].
  destruct (recorder_is inactive (vad_mediaRecorder (vad w))); cbn; repeat split.
Qed.

Lemma onSilenceDetected_upd_el (f : elements -> elements) (now : Z) (w : world) :
  vad (VAD.onSilenceDetected now (upd_el f w)) = vad (VAD.onSilenceDetected now w)
  /\ recording (VAD.onSilenceDetected now (upd_el f w))
     = recording (VAD.onSilenceDetected now w)
  /\ audio (VAD.onSilenceDetected now (upd_el f w)) = audio w.
Proof.
  unfold VAD.onSilenceDetected. cbn.
  destruct (isSpeaking (vad w)); cbn; [|repeat split].
  destruct (truthy (silenceStart (vad w))); cbn;
    destruct (_ <=? _); cbn; try (repeat split; fail);
    destruct (recorder_is recording_ (vad_mediaRecorder (vad w))); cbn; repeat split.
Qed.

Lemma frame_length (sample : list N) :
  length (take 128 (sample ++ repeat 0%N 128)) = 128%nat.
Proof.
  rewrite length_take, length_app, repeat_length. lia.
Qed.

(** A frame while listening: the volume test of [monitorVolume], made on
    rationals, is the test [2458 <= sum] on the bytes, and the state
    machine takes the step it selects. *)
Lemma frame_when_listening (sample : list N) (now : Z) (w : world) :
  listening w ->
  exists w',
    VAD.monitorVolume sample now w = Normal w'
    /\ vad w' = set_animationFrame (Some (raf_next w)) (vad (detect sample now w))
    /\ recording w' = recording (detect sample now w)
    /\ audio w' = audio w.
Proof.
  intros (Hen & (a & Han & Hfft) & Hproc & Hplay).
  unfold VAD.monitorVolume. rewrite Han, Hen. cbn [negb].
  unfold frequencyBinCount. rewrite Hfft.
  change (256 / 2)%nat with 128%nat.
  pose proof (frame_length sample) as Hlen.
  unfold detect, frame_sum.
  destruct (take 128 (sample ++ repeat 0%N 128)) as [|x l]; [discriminate Hlen|].
  cbv zeta. cbn [vad audio upd_el set_el]. rewrite Hproc, Hplay. cbn [orb].
  rewrite Hlen, loud_iff.
  eexists. split; [reflexivity|].
  destruct (2458 <=? sum_bytes (x :: l))%N.
  - destruct (onSpeechDetected_upd_el
                (set_volumeBar_width
                   (Qmin (100 # 1)
                      (inject_Z (Z.of_N (sum_bytes (x :: l))) / inject_Z (Z.of_nat 128)
                       / (128 # 1) * (100 # 1))%Q)) now w) as (V & R & A).
    destruct (onSpeechDetected_same_loop now w) as (_ & Hn & _).
    destruct (onSpeechDetected_same_loop now
                (upd_el (set_volumeBar_width
                   (Qmin (100 # 1)
                      (inject_Z (Z.of_N (sum_bytes (x :: l))) / inject_Z (Z.of_nat 128)
                       / (128 # 1) * (100 # 1))%Q)) w)) as (_ & Hn' & _).
    cbn [vad upd_vad set_vad requestAnimationFrame recording audio set_raf_next
         set_raf_pending].
    rewrite V, R, A, Hn'. repeat split.
  - destruct (onSilenceDetected_upd_el
                (set_volumeBar_width
                   (Qmin (100 # 1)
                      (inject_Z (Z.of_N (sum_bytes (x :: l))) / inject_Z (Z.of_nat 128)
                       / (128 # 1) * (100 # 1))%Q)) now w) as (V & R & A).
    destruct (onSilenceDetected_same_loop now
                (upd_el (set_volumeBar_width
                   (Qmin (100 # 1)
                      (inject_Z (Z.of_N (sum_bytes (x :: l))) / inject_Z (Z.of_nat 128)
                       / (128 # 1) * (100 # 1))%Q)) w)) as (_ & Hn' & _).
    cbn [vad upd_vad set_vad requestAnimationFrame recording audio set_raf_next
         set_raf_pending].
    rewrite V, R, A, Hn'. repeat split.
Qed.

Lemma recorder_set_is (s : recorder_state) (r : option media_recorder) :
  r <> None -> recorder_is s (recorder_set s r) = true.
Proof. destruct r as [m|]; [|congruence]. now destruct s. Qed.

Lemma recorder_is_Some (s : recorder_state) (r : option media_recorder) :
  recorder_is s r = true -> r <> None.
Proof. now destruct r. Qed.

(** X14. While listening and not yet speaking, with the recorder
    inactive, a frame counts as speech exactly when its 128 bytes sum to
    2458 or more (an average above 19.2 out of 255, the 15 % threshold).
    Such a frame starts the capture: the recorder is recording, the speech
    and recording start times are the frame's time, and the chunk list
    is empty. A quieter frame leaves the recorder inactive. *)
Theorem speech_onset_starts_capture (sample : list N) (now : Z) (w : world) :
  listening w ->
  isSpeaking (vad w) = false ->
  recorder_is inactive (vad_mediaRecorder (vad w)) = true ->
  exists w',
    VAD.monitorVolume sample now w = Normal w'
    /\ isSpeaking (vad w') = (2458 <=? frame_sum sample)%N
    /\ if (2458 <=? frame_sum sample)%N
       then speechStart (vad w') = Some now
            /\ recorder_is recording_ (vad_mediaRecorder (vad w')) = true
            /\ audioChunks (vad w') = []
            /\ rec_startTime (recording w') = Some now
       else recorder_is inactive (vad_mediaRecorder (vad w')) = true
            /\ speechStart (vad w') = speechStart (vad w)
            /\ audioChunks (vad w') = audioChunks (vad w).
Proof.
  intros Hl Hsp Hrec.
  destruct (frame_when_listening sample now w Hl) as (w' & E & V & R & _).
  exists w'. split; [exact E|]. rewrite V, R. unfold detect.
  destruct (2458 <=? frame_sum sample)%N.
  - unfold VAD.onSpeechDetected. rewrite Hsp. cbn. rewrite Hrec. cbn.
    repeat split. apply recorder_set_is. now apply recorder_is_Some in Hrec.
  - unfold VAD.onSilenceDetected. rewrite Hsp. cbn. now repeat split.
Qed.

Lemma listening_session_listening : listening listening_session.
Proof.
  split; [reflexivity|]. split; [|split; reflexivity].
  eexists. split; reflexivity.
Qed.

Lemma speech_onset_starts_capture_witness :
  exists w',
    VAD.monitorVolume (repeat 20%N 128) 100 listening_session = Normal w'
    /\ isSpeaking (vad w') = (2458 <=? frame_sum (repeat 20%N 128))%N
    /\ if (2458 <=? frame_sum (repeat 20%N 128))%N
       then speechStart (vad w') = Some 100
            /\ recorder_is recording_ (vad_mediaRecorder (vad w')) = true
            /\ audioChunks (vad w') = []
            /\ rec_startTime (recording w') = Some 100
       else recorder_is inactive (vad_mediaRecorder (vad w')) = true
            /\ speechStart (vad w') = speechStart (vad listening_session)
            /\ audioChunks (vad w') = audioChunks (vad listening_session).
Proof.
  apply (speech_onset_starts_capture (repeat 20%N 128) 100 listening_session);
    [exact listening_session_listening | reflexivity | reflexivity].
Defined.

(** X15. While speaking with the silence timer started at [t], a quiet
    frame at time [now] stops the capture exactly when [now - t] has
    reached the silence timeout (1000 ms, inclusive): speaking ends, the
    recorder is stopped and both timestamps are cleared. Before that the
    recorder keeps recording and the timer keeps its start. *)
Theorem silence_stops_capture_at_timeout (sample : list N) (now t : Z) (w : world) :
  listening w ->
  isSpeaking (vad w) = true ->
  silenceStart (vad w) = Some t ->
  t <> 0 ->
  recorder_is recording_ (vad_mediaRecorder (vad w)) = true ->
  (frame_sum sample < 2458)%N ->
  exists w',
    VAD.monitorVolume sample now w = Normal w'
    /\ if CONFIG.VAD.silenceTimeout <=? now - t
       then isSpeaking (vad w') = false
            /\ recorder_is inactive (vad_mediaRecorder (vad w')) = true
            /\ silenceStart (vad w') = None
            /\ speechStart (vad w') = None
       else isSpeaking (vad w') = true
            /\ recorder_is recording_ (vad_mediaRecorder (vad w')) = true
            /\ silenceStart (vad w') = Some t
            /\ speechStart (vad w') = speechStart (vad w).
Proof.
  intros Hl Hsp Hsil Ht Hrec Hquiet.
  destruct (frame_when_listening sample now w Hl) as (w' & E & V & _ & _).
  exists w'. split; [exact E|]. rewrite V. unfold detect.
  apply N.leb_gt in Hquiet. rewrite Hquiet.
  unfold VAD.onSilenceDetected. rewrite Hsp, Hsil.
  assert (Htr : truthy (Some t) = true)
    by (cbn; apply negb_true_iff; now apply Z.eqb_neq).
  rewrite Htr. cbn [vad upd_el set_el]. rewrite Hsil.
  change (ToNumber (Some t)) with t.
  destruct (CONFIG.VAD.silenceTimeout <=? now - t).
  - cbn. rewrite Hrec. cbn. repeat split.
    apply recorder_set_is. now apply recorder_is_Some in Hrec.
  - cbn. rewrite Hsp, Hsil, Hrec. repeat split.
Qed.

(** Speech has begun at 100 and the first quiet frame came at 150. *)
Lemma silence_stops_capture_at_timeout_witness :
  let w1 := final (VAD.monitorVolume (repeat 20%N 128) 100 listening_session) in
  let w2 := final (VAD.monitorVolume (repeat 0%N 128) 150 w1) in
  (exists w',
      VAD.monitorVolume (repeat 0%N 128) 1149 w2 = Normal w'
      /\ isSpeaking (vad w') = true
      /\ recorder_is recording_ (vad_mediaRecorder (vad w')) = true
      /\ silenceStart (vad w') = Some 150
      /\ speechStart (vad w') = speechStart (vad w2))
  /\ (exists w',
      VAD.monitorVolume (repeat 0%N 128) 1150 w2 = Normal w'
      /\ isSpeaking (vad w') = false
      /\ recorder_is inactive (vad_mediaRecorder (vad w')) = true
      /\ silenceStart (vad w') = None
      /\ speechStart (vad w') = None).
Proof.
  intros w1 w2.
  assert (Hl : listening w2).
  { split; [reflexivity|]. split; [|split; reflexivity].
    eexists. split; reflexivity. }
  split.
  - apply (silence_stops_capture_at_timeout (repeat 0%N 128) 1149 150 w2 Hl);
      reflexivity || discriminate.
  - apply (silence_stops_capture_at_timeout (repeat 0%N 128) 1150 150 w2 Hl);
      reflexivity || discriminate.
Defined.

(** X16. A speech frame during the trailing silence cancels the silence
    timer without touching the capture: still speaking, same recorder,
    same chunks, same speech start. The next quiet frame starts the timer
    afresh from its own time, so the silence before the interruption
    does not count towards the timeout. *)
Theorem speech_restarts_silence_timer
  (loud quiet : list N) (now1 now2 : Z) (w : world) :
  listening w ->
  isSpeaking (vad w) = true ->
  (2458 <= frame_sum loud)%N ->
  (frame_sum quiet < 2458)%N ->
  exists w1 w2,
    VAD.monitorVolume loud now1 w = Normal w1
    /\ isSpeaking (vad w1) = true
    /\ silenceStart (vad w1) = None
    /\ speechStart (vad w1) = speechStart (vad w)
    /\ vad_mediaRecorder (vad w1) = vad_mediaRecorder (vad w)
    /\ audioChunks (vad w1) = audioChunks (vad w)
    /\ VAD.monitorVolume quiet now2 w1 = Normal w2
    /\ isSpeaking (vad w2) = true
    /\ silenceStart (vad w2) = Some now2
    /\ vad_mediaRecorder (vad w2) = vad_mediaRecorder (vad w).
Proof.
  intros Hl Hsp Hloud Hquiet.
  destruct (frame_when_listening loud now1 w Hl) as (w1 & E1 & V1 & _ & A1).
  apply N.leb_le in Hloud. apply N.leb_gt in Hquiet.
  assert (V1' : vad w1 = set_animationFrame (Some (raf_next w))
                           (set_silenceStart None (vad w))).
  { rewrite V1. unfold detect. rewrite Hloud.
    unfold VAD.onSpeechDetected. rewrite Hsp. reflexivity. }
  destruct Hl as (Hen & (a & Han & Hfft) & Hproc & Hplay).
  assert (Hl1 : listening w1).
  { unfold listening. rewrite V1', A1. cbn.
    split; [exact Hen|]. split; [exists a; now split|]. now split. }
  destruct (frame_when_listening quiet now2 w1 Hl1) as (w2 & E2 & V2 & _ & _).
  exists w1, w2. split; [exact E1|].
  rewrite V1'. cbn [isSpeaking silenceStart speechStart vad_mediaRecorder audioChunks
                    set_animationFrame set_silenceStart].
  repeat (split; [reflexivity || assumption|]).
  rewrite V2. unfold detect. rewrite Hquiet.
  unfold VAD.onSilenceDetected. rewrite V1'.
  cbn [isSpeaking silenceStart set_animationFrame set_silenceStart truthy].
  rewrite Hsp. cbn [vad upd_vad set_vad upd_el set_el silenceStart set_silenceStart].
  rewrite V1'. cbn [silenceStart set_animationFrame set_silenceStart ToNumber].
  change (default 0 (Some now2)) with now2. rewrite Z.sub_diag.
  change (CONFIG.VAD.silenceTimeout <=? 0) with false.
  cbn. rewrite ?Hsp. repeat split; rewrite V1'; cbn; assumption || reflexivity.
Qed.

Lemma speech_restarts_silence_timer_witness :
  let w1 := final (VAD.monitorVolume (repeat 20%N 128) 100 listening_session) in
  let w2 := final (VAD.monitorVolume (repeat 0%N 128) 150 w1) in
  silenceStart (vad w2) = Some 150
  /\ exists w3 w4,
      VAD.monitorVolume (repeat 20%N 128) 900 w2 = Normal w3
      /\ isSpeaking (vad w3) = true
      /\ silenceStart (vad w3) = None
      /\ speechStart (vad w3) = speechStart (vad w2)
      /\ vad_mediaRecorder (vad w3) = vad_mediaRecorder (vad w2)
      /\ audioChunks (vad w3) = audioChunks (vad w2)
      /\ VAD.monitorVolume (repeat 0%N 128) 1200 w3 = Normal w4
      /\ isSpeaking (vad w4) = true
      /\ silenceStart (vad w4) = Some 1200
      /\ vad_mediaRecorder (vad w4) = vad_mediaRecorder (vad w2).
Proof.
  intros w1 w2. split; [reflexivity|].
  apply (speech_restarts_silence_timer (repeat 20%N 128) (repeat 0%N 128) 900 1200 w2).
  - split; [reflexivity|]. split; [|split; reflexivity].
    eexists. split; reflexivity.
  - reflexivity.
  - vm_compute. discriminate.
  - reflexivity.
Defined.

Lemma onSpeechDetected_timestamps (now : Z) (w : world) :
  timestamps_ok (vad w) -> timestamps_ok (vad (VAD.onSpeechDetected now w)).
Proof.
  unfold timestamps_ok, VAD.onSpeechDetected.
  destruct (isSpeaking (vad w)) eqn:Hsp; cbn.
  - now rewrite Hsp.
  - intros _. destruct (recorder_is inactive (vad_mediaRecorder (vad w))); cbn; discriminate.
Qed.

Lemma onSilenceDetected_timestamps (now : Z) (w : world) :
  timestamps_ok (vad w) -> timestamps_ok (vad (VAD.onSilenceDetected now w)).
Proof.
  unfold timestamps_ok, VAD.onSilenceDetected.
  destruct (isSpeaking (vad w)) eqn:Hsp; cbn; [|now rewrite Hsp].
  intros H.
  destruct (truthy (silenceStart (vad w))); cbn;
    destruct (_ <=? _); cbn; rewrite ?Hsp; try exact H;
    destruct (recorder_is recording_ (vad_mediaRecorder (vad w))); cbn; now split.
Qed.

Lemma monitorVolume_timestamps (sample : list N) (now : Z) (w : world) :
  timestamps_ok (vad w) ->
  timestamps_ok (vad (final (VAD.monitorVolume sample now w))).
Proof.
  intros H. unfold VAD.monitorVolume.
  destruct (analyser (vad w)) as [a|]; [|exact H].
  destruct (isEnabled (vad w)); [|exact H]. cbn [negb].
  destruct (take _ _) as [|x l]; [exact H|]. cbv zeta.
  set (vp := Qmin _ _). clearbody vp.
  cbn [vad audio upd_el set_el].
  destruct (isProcessing (vad w) || isPlaying (audio w)); [exact H|].
  destruct (negb _).
  - apply (onSpeechDetected_timestamps now (upd_el (set_volumeBar_width vp) w)) in H.
    exact H.
  - apply (onSilenceDetected_timestamps now (upd_el (set_volumeBar_width vp) w)) in H.
    exact H.
Qed.

Lemma run_keeps_vad (audioBlob : blob) (w : world) :
  vad (snd (Pipeline.run audioBlob w)) = vad w.
Proof.
  destruct (socket_is_open w) eqn:H;
    [rewrite run_with_open_socket by exact H
    |rewrite run_without_open_socket by exact H]; reflexivity.
Qed.

(** X17. The timestamps always agree with [isSpeaking]: if a speech start
    is recorded exactly while speaking and no silence start is recorded
    while not speaking, this still holds after any frame of the sampling
    loop, after [VAD.start] whatever the devices answer, after the
    recorder's stop handler, after any inbound event and after
    [clearAll]; [VAD.stop] and [VAD.reset] establish it from any state. *)
Theorem vad_timestamps_stay_consistent (w : world) :
  timestamps_ok (vad w) ->
  (forall sample now, timestamps_ok (vad (final (VAD.monitorVolume sample now w))))
  /\ (forall d sample now, timestamps_ok (vad (VAD.start d sample now w)))
  /\ timestamps_ok (vad (snd (VAD.onRecordingStop w)))
  /\ (forall data now,
         timestamps_ok (vad (final (WebSocketManager.handleMessage data now w))))
  /\ timestamps_ok (vad (clearAll w))
  /\ (forall v, timestamps_ok (vad (VAD.stop v)))
  /\ (forall v, timestamps_ok (vad (VAD.reset v))).
Proof.
  intros H. split; [intros; now apply monitorVolume_timestamps|]. split.
  { intros d sample now. unfold VAD.start.
    destruct (getUserMedia d); [|exact H].
    destruct (newAudioContext d); [|exact H].
    destruct (createMediaStreamSource d); [|exact H].
    destruct (newMediaRecorder d); [|exact H].
    match goal with
    | |- context [VAD.monitorVolume sample now ?W] =>
        pose proof (monitorVolume_timestamps sample now W H) as Hm;
        destruct (VAD.monitorVolume sample now W) as [w1|e w1]
    end; exact Hm. }
  split.
  { unfold VAD.onRecordingStop.
    destruct (_ || _); [exact H|]. cbv zeta.
    destruct (_ <? _); [exact H|].
    match goal with
    | |- context [Pipeline.run ?b ?W] =>
        pose proof (run_keeps_vad b W) as Hr; destruct (Pipeline.run b W) as [t w1]
    end.
    cbn [snd] in *. rewrite Hr. exact H. }
  split.
  { intros data now.
    destruct (handleMessage_frame data now w) as (V & _). now rewrite V. }
  split.
  { unfold clearAll. cbn. destruct (isEnabled (vad w)); cbn; [now split|exact H]. }
  split.
  { intros v. unfold VAD.stop, timestamps_ok. cbn. now split. }
  intros v. unfold VAD.reset, timestamps_ok. cbn. now split.
Qed.

Lemma vad_timestamps_stay_consistent_witness :
  let w := final (VAD.monitorVolume (repeat 20%N 128) 100 listening_session) in
  isSpeaking (vad w) = true
  /\ timestamps_ok (vad (final (VAD.monitorVolume (repeat 0%N 128) 1500 w)))
  /\ timestamps_ok (vad (clearAll w)).
Proof.
  intros w. split; [reflexivity|].
  assert (H : timestamps_ok (vad w)) by (unfold timestamps_ok; cbn; discriminate).
  destruct (vad_timestamps_stay_consistent w H) as (A & _ & _ & _ & B & _).
  split; [apply A | exact B].
Defined.

(** ** Switching hands-free mode on and off *)

Lemma onSpeechDetected_keeps_devices (now : Z) (w : world) :
  let w' := VAD.onSpeechDetected now w in
  streams w' = streams w /\ contexts w' = contexts w
  /\ vad_stream (vad w') = vad_stream (vad w)
  /\ audioContext (vad w') = audioContext (vad w)
  /\ option_map mr_stream (vad_mediaRecorder (vad w'))
     = option_map mr_stream (vad_mediaRecorder (vad w))
  /\ recordBtn (el w') = recordBtn (el w)
  /\ logsContainer (el w') = logsContainer (el w)
  /\ volumeMeter_hidden (el w') = volumeMeter_hidden (el w).
Proof.
  unfold VAD.onSpeechDetected.
  destruct (isSpeaking (vad w)); cbn; [repeat split|].
  destruct (recorder_is inactive (vad_mediaRecorder (vad w))); cbn; repeat split.
  now destruct (vad_mediaRecorder (vad w)).
Qed.

Lemma onSilenceDetected_keeps_devices (now : Z) (w : world) :
  let w' := VAD.onSilenceDetected now w in
  streams w' = streams w /\ contexts w' = contexts w
  /\ vad_stream (vad w') = vad_stream (vad w)
  /\ audioContext (vad w') = audioContext (vad w)
  /\ option_map mr_stream (vad_mediaRecorder (vad w'))
     = option_map mr_stream (vad_mediaRecorder (vad w))
  /\ recordBtn (el w') = recordBtn (el w)
  /\ logsContainer (el w') = logsContainer (el w)
  /\ volumeMeter_hidden (el w') = volumeMeter_hidden (el w).
Proof.
  unfold VAD.onSilenceDetected.
  destruct (isSpeaking (vad w)); cbn; [|repeat split].
  destruct (truthy (silenceStart (vad w))); cbn;
    destruct (_ <=? _); cbn; try (repeat split; fail);
    destruct (recorder_is recording_ (vad_mediaRecorder (vad w))); cbn;
    repeat split; now destruct (vad_mediaRecorder (vad w)).
Qed.

Lemma monitorVolume_keeps_devices (sample : list N) (now : Z) (w : world) :
  let w' := final (VAD.monitorVolume sample now w) in
  streams w' = streams w /\ contexts w' = contexts w
  /\ vad_stream (vad w') = vad_stream (vad w)
  /\ audioContext (vad w') = audioContext (vad w)
  /\ option_map mr_stream (vad_mediaRecorder (vad w'))
     = option_map mr_stream (vad_mediaRecorder (vad w))
  /\ recordBtn (el w') = recordBtn (el w)
  /\ logsContainer (el w') = logsContainer (el w)
  /\ volumeMeter_hidden (el w') = volumeMeter_hidden (el w).
Proof.
  unfold VAD.monitorVolume.
  destruct (analyser (vad w)) as [a|]; [|now repeat split].
  destruct (isEnabled (vad w)); [|now repeat split]. cbn [negb].
  destruct (take _ _) as [|x l]; [now repeat split|]. cbv zeta.
  set (vp := Qmin _ _). clearbody vp.
  cbn [vad audio upd_el set_el].
  destruct (isProcessing (vad w) || isPlaying (audio w)); [cbn; now repeat split|].
  destruct (negb _).
  - destruct (onSpeechDetected_keeps_devices now (upd_el (set_volumeBar_width vp) w))
      as (A & B & C & D & E & F & G & H).
    cbn [final requestAnimationFrame upd_vad]. cbn in *.
    rewrite A, B, C, D, E, F, G, H. repeat split.
  - destruct (onSilenceDetected_keeps_devices now (upd_el (set_volumeBar_width vp) w))
      as (A & B & C & D & E & F & G & H).
    cbn [final requestAnimationFrame upd_vad]. cbn in *.
    rewrite A, B, C, D, E, F, G, H. repeat split.
Qed.

(** X18. When every platform call succeeds and the mode is still enabled
    when the microphone is granted, [start] acquires everything: one new
    live stream, one new open audio context, the analyser with 256-point
    FFT and a recorder on that stream are held in [state.vad], exactly
    one run of the sampling loop is queued, the volume meter is shown and
    the record button is disabled and relabelled. *)
Theorem start_success_sets_up_everything
  (d : devices) (sample : list N) (now : Z) (w : world) :
  getUserMedia d = Succeeds ->
  newAudioContext d = Succeeds ->
  createMediaStreamSource d = Succeeds ->
  newMediaRecorder d = Succeeds ->
  isEnabled (vad w) = true ->
  let w' := VAD.start d sample now w in
  streams w' = streams w ++ [true]
  /\ vad_stream (vad w') = Some (length (streams w))
  /\ contexts w' = contexts w ++ [true]
  /\ audioContext (vad w') = Some (length (contexts w))
  /\ analyser (vad w') = Some (mkAnalyser 256 (8 # 10))
  /\ option_map mr_stream (vad_mediaRecorder (vad w')) = Some (length (streams w))
  /\ raf_pending w' = raf_pending w ++ [raf_next w]
  /\ isEnabled (vad w') = true
  /\ volumeMeter_hidden (el w') = false
  /\ recordBtn (el w') = mkButton true HandsFreeActive (btn_recording (recordBtn (el w)))
  /\ logsContainer (el w') = logsContainer (el w) ++ [(LogHandsFreeEnabled, log_success)].
Proof.
  intros H1 H2 H3 H4 Hen. unfold VAD.start. rewrite H1, H2, H3, H4.
  match goal with
  | |- context [VAD.monitorVolume sample now ?W] => set (W0 := W)
  end.
  destruct (monitorVolume_enabled sample now W0 (mkAnalyser 256 (8 # 10)))
    as (w1 & E & P & _ & _ & En & An);
    [exact Hen | reflexivity | discriminate |].
  pose proof (monitorVolume_keeps_devices sample now W0) as K.
  rewrite E in *. cbn [final] in K. destruct K as (A & B & C & D & F & G & L & _).
  cbn. rewrite A, B, C, D, F, G, L, P, En, An. repeat split.
Qed.

Lemma start_success_sets_up_everything_witness :
  let w := handsFreeToggle_onchange true state0 in
  let w' := VAD.start all_available (repeat 0%N 128) 0 w in
  streams w' = streams w ++ [true]
  /\ vad_stream (vad w') = Some (length (streams w))
  /\ contexts w' = contexts w ++ [true]
  /\ audioContext (vad w') = Some (length (contexts w))
  /\ analyser (vad w') = Some (mkAnalyser 256 (8 # 10))
  /\ option_map mr_stream (vad_mediaRecorder (vad w')) = Some (length (streams w))
  /\ raf_pending w' = raf_pending w ++ [raf_next w]
  /\ isEnabled (vad w') = true
  /\ volumeMeter_hidden (el w') = false
  /\ recordBtn (el w') = mkButton true HandsFreeActive (btn_recording (recordBtn (el w)))
  /\ logsContainer (el w') = logsContainer (el w) ++ [(LogHandsFreeEnabled, log_success)].
Proof.
  apply (start_success_sets_up_everything all_available (repeat 0%N 128) 0
           (handsFreeToggle_onchange true state0)); reflexivity.
Defined.

(** X19. If hands-free mode has been switched off again by the time the
    microphone is granted, [start] still acquires the stream, the audio
    context, the analyser and the recorder and still shows the hands-free
    controls (meter shown, record button disabled), but queues no run of
    the sampling loop: the mode stays off with the microphone live. *)
Theorem start_after_switch_off_keeps_microphone
  (d : devices) (sample : list N) (now : Z) (w : world) :
  getUserMedia d = Succeeds ->
  newAudioContext d = Succeeds ->
  createMediaStreamSource d = Succeeds ->
  newMediaRecorder d = Succeeds ->
  isEnabled (vad w) = false ->
  let w' := VAD.start d sample now w in
  isEnabled (vad w') = false
  /\ raf_pending w' = raf_pending w
  /\ streams w' = streams w ++ [true]
  /\ vad_stream (vad w') = Some (length (streams w))
  /\ audioContext (vad w') = Some (length (contexts w))
  /\ analyser (vad w') = Some (mkAnalyser 256 (8 # 10))
  /\ vad_mediaRecorder (vad w') = Some (mkRecorder inactive (length (streams w)))
  /\ volumeMeter_hidden (el w') = false
  /\ disabled (recordBtn (el w')) = true
  /\ btn_label (recordBtn (el w')) = HandsFreeActive.
Proof.
  intros H1 H2 H3 H4 Hen. unfold VAD.start. rewrite H1, H2, H3, H4.
  unfold VAD.monitorVolume. cbn. rewrite Hen. cbn. rewrite Hen. repeat split.
Qed.

Lemma start_after_switch_off_keeps_microphone_witness :
  let w := handsFreeToggle_onchange false (handsFreeToggle_onchange true state0) in
  let w' := VAD.start all_available (repeat 0%N 128) 0 w in
  isEnabled (vad w') = false
  /\ raf_pending w' = raf_pending w
  /\ streams w' = streams w ++ [true]
  /\ vad_stream (vad w') = Some (length (streams w))
  /\ audioContext (vad w') = Some (length (contexts w))
  /\ analyser (vad w') = Some (mkAnalyser 256 (8 # 10))
  /\ vad_mediaRecorder (vad w') = Some (mkRecorder inactive (length (streams w)))
  /\ volumeMeter_hidden (el w') = false
  /\ disabled (recordBtn (el w')) = true
  /\ btn_label (recordBtn (el w')) = HandsFreeActive.
Proof.
  apply (start_after_switch_off_keeps_microphone all_available (repeat 0%N 128) 0
           (handsFreeToggle_onchange false (handsFreeToggle_onchange true state0)));
    reflexivity.
Defined.

Lemma start_failure_disables_and_reports_witness :
  let w' := VAD.start recorder_unavailable (repeat 0%N 128) 0
                      (handsFreeToggle_onchange true state0) in
  isEnabled (vad (handsFreeToggle_onchange true state0)) = true
  /\ isEnabled (vad w') = false
  /\ handsFreeToggle_checked (el w') = false
  /\ exists e, last (logsContainer (el w')) = Some (LogMicrophoneError e, log_error).
Proof.
  split; [reflexivity|].
  apply (start_failure_disables_and_reports recorder_unavailable (repeat 0%N 128) 0
           (handsFreeToggle_onchange true state0) "NotSupportedError").
  right. right. right. reflexivity.
Defined.

Lemma start_microphone_failure_allocates_nothing_witness :
  let w := handsFreeToggle_onchange true state0 in
  let w' := VAD.start microphone_denied (repeat 0%N 128) 0 w in
  w' = VAD.catch "NotAllowedError" w
  /\ streams w' = streams w
  /\ contexts w' = contexts w
  /\ vad_stream (vad w') = vad_stream (vad w)
  /\ audioContext (vad w') = audioContext (vad w)
  /\ analyser (vad w') = analyser (vad w)
  /\ vad_mediaRecorder (vad w') = vad_mediaRecorder (vad w).
Proof.
  apply (start_microphone_failure_allocates_nothing microphone_denied (repeat 0%N 128) 0
           (handsFreeToggle_onchange true state0) "NotAllowedError").
  reflexivity.
Defined.

Lemma not_in_cancelled (id : nat) (w : world) :
  ~ In id (raf_pending (cancelAnimationFrame id w)).
Proof.
  unfold cancelAnimationFrame. cbn [raf_pending set_raf_pending]. intros H.
  apply list_elem_of_In, list_elem_of_filter in H as [H _].
  rewrite Nat.eqb_refl in H. exact H.
Qed.

(** X20. [stop] ends the sampling loop: the queued run it knows of is
    cancelled, and since the analyser is gone a run of [monitorVolume]
    does nothing; whatever frame callback the platform still runs, no new
    one is queued. (Frame ids are positive; [stop] treats an id of 0 as
    no id.) *)
Theorem stop_ends_sampling (sample : list N) (now : Z) (w : world) :
  VAD.monitorVolume sample now (VAD.stop w) = Normal (VAD.stop w)
  /\ (forall id, animationFrame (vad (VAD.stop w)) <> Some (S id))
  /\ (forall id, animationFrame (vad w) = Some (S id) ->
                 ~ In (S id) (raf_pending (VAD.stop w)))
  /\ (forall id,
         (length (raf_pending (final (animation_frame id sample now (VAD.stop w))))
          <= length (raf_pending (VAD.stop w)))%nat).
Proof.
  assert (Han : analyser (vad (VAD.stop w)) = None) by (unfold VAD.stop; reflexivity).
  assert (Hm : forall v, analyser (vad v) = None ->
                         VAD.monitorVolume sample now v = Normal v)
    by (intros v Hv; unfold VAD.monitorVolume; now rewrite Hv).
  split; [now apply Hm|]. split.
  { intros id. unfold VAD.stop.
    destruct (animationFrame (vad w)) as [[|j]|] eqn:Ha; cbn;
      destruct (recorder_is recording_ (vad_mediaRecorder (vad w))); cbn;
      destruct (audioContext (vad w)); cbn;
      destruct (vad_stream (vad w)); cbn; rewrite ?Ha; discriminate. }
  split.
  { intros id Hid. unfold VAD.stop. rewrite Hid. cbn.
    destruct (recorder_is recording_ (vad_mediaRecorder (vad w))); cbn;
      destruct (audioContext (vad w)); cbn;
      destruct (vad_stream (vad w)); cbn;
      apply (not_in_cancelled (S id) w). }
  intros id. unfold animation_frame.
  destruct (existsb _ _); [|cbn; lia].
  rewrite Hm by exact Han. cbn [final]. unfold cancelAnimationFrame.
  cbn [raf_pending set_raf_pending]. apply length_filter.
Qed.

Lemma stop_keeps_flags (w : world) :
  isProcessing (vad (VAD.stop w)) = isProcessing (vad w)
  /\ isEnabled (vad (VAD.stop w)) = isEnabled (vad w)
  /\ audioChunks (vad (VAD.stop w)) = [].
Proof.
  unfold VAD.stop.
  destruct (animationFrame (vad w)) as [[|j]|]; cbn;
    destruct (recorder_is recording_ (vad_mediaRecorder (vad w))); cbn;
    destruct (audioContext (vad w)); cbn;
    destruct (vad_stream (vad w)); cbn; repeat split.
Qed.

Lemma run_task_blob (audioBlob : blob) (w : world) :
  run_blob (fst (Pipeline.run audioBlob w)) = audioBlob.
Proof.
  destruct (socket_is_open w) eqn:Ho;
    [rewrite run_with_open_socket by exact Ho
    |rewrite run_without_open_socket by exact Ho]; reflexivity.
Qed.

Lemma onRecordingStop_forwards (w : world) :
  audioChunks (vad w) <> [] ->
  isProcessing (vad w) = false ->
  CONFIG.VAD.minAudioSize <= blob_size (Blob (audioChunks (vad w))) ->
  exists t w',
    VAD.onRecordingStop w = (Some t, w')
    /\ run_blob t = Blob (audioChunks (vad w))
    /\ vad w' = set_isProcessing true (set_audioChunks [] (vad w)).
Proof.
  intros Hne Hp Hsize. unfold VAD.onRecordingStop.
  destruct (audioChunks (vad w)) as [|c cs] eqn:Hch; [congruence|].
  cbn [length Nat.eqb orb]. rewrite Hp. cbv zeta.
  apply Z.ltb_ge in Hsize. rewrite Hsize.
  match goal with
  | |- context [Pipeline.run ?b ?W] =>
      pose proof (run_keeps_vad b W) as Hv;
      pose proof (run_task_blob b W) as Hb;
      destruct (Pipeline.run b W) as [t w']
  end.
  exists t, w'. split; [reflexivity|]. split; [exact Hb|]. exact Hv.
Qed.

Lemma toggle_off (w : world) :
  handsFreeToggle_onchange false w
  = VAD.stop (upd_vad (set_isEnabled false)
                (upd_el (set_handsFreeToggle_checked false) w)).
Proof. reflexivity. Qed.

Lemma late_data_is_forwarded (data : blob) (w : world) :
  CONFIG.VAD.minAudioSize <= blob_size data ->
  isProcessing (vad w) = false ->
  audioChunks (vad w) = [] ->
  exists t w',
    VAD.onRecordingStop (VAD.ondataavailable data w) = (Some t, w')
    /\ run_blob t = data
    /\ isEnabled (vad w') = isEnabled (vad w)
    /\ isProcessing (vad w') = true.
Proof.
  intros Hsize Hp Hc.
  assert (Hpos : (0 <? blob_size data) = true)
    by (apply Z.ltb_lt; unfold CONFIG.VAD.minAudioSize in Hsize; lia).
  assert (Hch : vad (VAD.ondataavailable data w) = set_audioChunks [data] (vad w)).
  { unfold VAD.ondataavailable. rewrite Hpos.
    cbn [vad upd_vad set_vad]. now rewrite Hc. }
  assert (Hblob : Blob [data] = data) by (unfold Blob; cbn; apply app_nil_r).
  destruct (onRecordingStop_forwards (VAD.ondataavailable data w))
    as (t & w' & E & Hb & Hv).
  - rewrite Hch. discriminate.
  - rewrite Hch. exact Hp.
  - rewrite Hch. cbn [audioChunks set_audioChunks]. now rewrite Hblob.
  - exists t, w'. split; [exact E|].
    split; [rewrite Hb, Hch; exact Hblob|].
    rewrite Hv, Hch. split; reflexivity.
Qed.

(** X21. Switching hands-free mode off in the middle of an utterance does
    not detach the recorder's handlers: the data the stopped recorder
    then delivers is queued, and if it reaches the minimum size (and no
    pipeline is running) it is passed to [Pipeline.run], with the mode
    already disabled. *)
Theorem capture_after_switch_off_is_still_sent (data : blob) (w : world) :
  isProcessing (vad w) = false ->
  CONFIG.VAD.minAudioSize <= blob_size data ->
  let w1 := handsFreeToggle_onchange false w in
  exists t w',
    VAD.onRecordingStop (VAD.ondataavailable data w1) = (Some t, w')
    /\ run_blob t = data
    /\ isEnabled (vad w') = false
    /\ isProcessing (vad w') = true.
Proof.
  intros Hproc Hsize. cbv zeta. rewrite toggle_off.
  destruct (stop_keeps_flags
              (upd_vad (set_isEnabled false)
                 (upd_el (set_handsFreeToggle_checked false) w))) as (A & B & C).
  destruct (late_data_is_forwarded data _ Hsize (eq_trans A Hproc) C)
    as (t & w' & E & Hb & He & Hp).
  exists t, w'. split; [exact E|]. split; [exact Hb|]. split; [|exact Hp].
  rewrite He. exact B.
Qed.

Lemma capture_after_switch_off_is_still_sent_witness :
  let w := final (VAD.monitorVolume (repeat 20%N 128) 100 listening_session) in
  let w1 := handsFreeToggle_onchange false w in
  recorder_is recording_ (vad_mediaRecorder (vad w)) = true
  /\ exists t w',
      VAD.onRecordingStop (VAD.ondataavailable (repeat 7%N 1000) w1) = (Some t, w')
      /\ run_blob t = repeat 7%N 1000
      /\ isEnabled (vad w') = false
      /\ isProcessing (vad w') = true.
Proof.
  intros w w1. split; [reflexivity|].
  apply (capture_after_switch_off_is_still_sent (repeat 7%N 1000) w);
    [reflexivity | vm_compute; discriminate].
Defined.

(** X22. The recorder's stop handler passes an utterance to
    [Pipeline.run] exactly when chunks were captured, no pipeline is
    already running and the chunks' total size reaches the minimum; it
    then passes their concatenation, marks the pipeline as running before
    the call and empties the chunk list. In every other case nothing is
    passed and the chunk list is emptied as well. *)
Theorem onRecordingStop_forwards_exactly_when_large_enough (w : world) :
  match VAD.onRecordingStop w with
  | (Some t, w') =>
      audioChunks (vad w) <> []
      /\ isProcessing (vad w) = false
      /\ CONFIG.VAD.minAudioSize <= blob_size (Blob (audioChunks (vad w)))
      /\ run_blob t = Blob (audioChunks (vad w))
      /\ isProcessing (vad w') = true
      /\ audioChunks (vad w') = []
  | (None, w') =>
      (audioChunks (vad w) = []
       \/ isProcessing (vad w) = true
       \/ blob_size (Blob (audioChunks (vad w))) < CONFIG.VAD.minAudioSize)
      /\ audioChunks (vad w') = []
      /\ isProcessing (vad w') = isProcessing (vad w)
  end.
Proof.
  unfold VAD.onRecordingStop.
  destruct (audioChunks (vad w)) as [|c cs] eqn:Hch.
  { cbn. split; [now left|]. split; reflexivity. }
  cbn [length Nat.eqb orb].
  destruct (isProcessing (vad w)) eqn:Hp.
  { cbn. split; [right; now left|]. split; [reflexivity|exact Hp]. }
  cbv zeta.
  destruct (blob_size (Blob (c :: cs)) <? CONFIG.VAD.minAudioSize) eqn:Hs.
  { cbn. split; [right; right; now apply Z.ltb_lt|]. split; reflexivity. }
  match goal with
  | |- context [Pipeline.run ?b ?W] =>
      pose proof (run_keeps_vad b W) as Hv;
      pose proof (run_task_blob b W) as Hb;
      destruct (Pipeline.run b W) as [t w']
  end.
  cbn [fst snd] in Hv, Hb. rewrite Hv.
  split; [discriminate|]. split; [reflexivity|].
  split; [now apply Z.ltb_ge|]. split; [exact Hb|]. split; reflexivity.
Qed.

(** X23. Once the promise of [Pipeline.run] is settled, either way, the
    resumed stop handler clears [isProcessing]; on a rejection it also
    shows "Error: " followed by the message in the response panel, logs
    it and returns the status to READY. *)
Theorem onRecordingStop_resumed_clears_processing
  (t : run_task) (o : outcome) (w : world) :
  promises w !! run_promise t = Some o ->
  o <> Pending ->
  let w' := VAD.onRecordingStop_resumed t w in
  isProcessing (vad w') = false
  /\ match o with
     | Rejected err =>
         textContent (response (el w')) = ("Error: " ++ err)%string
         /\ logsContainer (el w')
            = logsContainer (el w) ++ [(LogPipelineError err, log_error)]
         /\ statusIndicator (el w') = READY
     | _ => textContent (response (el w')) = textContent (response (el w))
            /\ logsContainer (el w') = logsContainer (el w)
     end.
Proof.
  intros Hp Ho. unfold VAD.onRecordingStop_resumed. rewrite Hp.
  destruct o as [|v|err]; [congruence| |];
    destruct (isEnabled (vad w)) eqn:He; cbn; rewrite ?He; cbn; repeat split.
Qed.

Lemma onRecordingStop_resumed_clears_processing_witness :
  let '(t, w1) := Pipeline.run [1%N] (upd_vad (set_isProcessing true) state0) in
  let w3 := Pipeline.run_connected t 5 (socket_errored 0 w1) in
  let w' := VAD.onRecordingStop_resumed t w3 in
  isProcessing (vad w3) = true
  /\ isProcessing (vad w') = false
  /\ textContent (response (el w')) = "Error: WebSocket connection failed"
  /\ logsContainer (el w')
     = logsContainer (el w3)
       ++ [(LogPipelineError "WebSocket connection failed", log_error)]
  /\ statusIndicator (el w') = READY.
Proof.
  split; [reflexivity|].
  apply (onRecordingStop_resumed_clears_processing
           (mkTask 0 1 [1%N]) (Rejected "WebSocket connection failed"));
    [reflexivity | discriminate].
Defined.

(** ** The playback queue: failures and clearing *)

(** X24. When the platform rejects the [play()] under way, the error is
    logged and the queue advances at once: the next waiting chunk, if
    any, is attempted (and only that one); with nothing waiting the queue
    goes idle. The failed chunk is not retried and no playback is cut. *)
Theorem playback_failure_advances (err : string) (w : world) :
  let w' := playback_failed err w in
  logsContainer (el w') = logsContainer (el w) ++ [(LogAudioPlayError err, log_error)]
  /\ cut_off w' = cut_off w
  /\ match queue (audio w) with
     | next :: rest =>
         queue (audio w') = rest
         /\ attempts w' = attempts w ++ [url next]
         /\ active w' = true
         /\ isPlaying (audio w') = true
         /\ ap_src (audioPlayer (el w')) = Some (url next)
     | [] =>
         isPlaying (audio w') = false
         /\ active w' = false
         /\ attempts w' = attempts w
     end.
Proof.
  cbv zeta. unfold playback_failed, play_catch.
  set (w1 := log _ _ _).
  assert (H1 : active w1 = false /\ queue (audio w1) = queue (audio w)
               /\ attempts w1 = attempts w /\ cut_off w1 = cut_off w
               /\ logsContainer (el w1)
                  = logsContainer (el w) ++ [(LogAudioPlayError err, log_error)])
    by (repeat split).
  destruct H1 as (A1 & Q1 & T1 & C1 & L1). clearbody w1.
  destruct (queue (audio w)) as [|next rest] eqn:Hq.
  - destruct (playNext_empty w1 Q1) as (P & _ & Pl & _).
    unfold cut_off, active, attempts in *. rewrite Pl, P.
    split; [|repeat split; assumption].
    unfold AudioQueue.playNext. rewrite Q1. cbn.
    destruct (isEnabled (vad w1) && negb (isProcessing (vad w1))); exact L1.
  - destruct (playNext_cons w1 next rest Q1 A1) as (P & Q & A & T & C & S & _).
    rewrite Q, T, C, A, P, S, T1, C1.
    split; [|repeat split].
    unfold AudioQueue.playNext. rewrite Q1. exact L1.
Qed.

(** X25. [clearAll] leaves the queue empty and idle with the audio element
    paused and without source, in agreement with the playing flag. It
    does not cancel anything else: the pending request, the promises and
    the sockets are as before and a recorder that is recording keeps
    recording. In hands-free mode it clears [isProcessing] and the
    speaking state even while a request is pending; with the mode off it
    leaves the hands-free state alone. *)
Theorem clearAll_idles_queue_only (w : world) :
  let w' := clearAll w in
  coherent w'
  /\ queue (audio w') = []
  /\ active w' = false
  /\ ap_src (audioPlayer (el w')) = None
  /\ pipelineResolve w' = pipelineResolve w
  /\ promises w' = promises w
  /\ sockets w' = sockets w
  /\ vad_mediaRecorder (vad w') = vad_mediaRecorder (vad w)
  /\ recording w' = recording w
  /\ if isEnabled (vad w)
     then isProcessing (vad w') = false /\ isSpeaking (vad w') = false
          /\ audioChunks (vad w') = []
     else vad w' = vad w.
Proof.
  cbv zeta. unfold clearAll, coherent, active.
  destruct (isEnabled (vad w)) eqn:He; cbn; rewrite ?He; cbn; repeat split.
Qed.

(** ** Manual recording *)

Lemma feed_keeps (datas : list blob) :
  forall w,
    Blob (rec_chunks (recording (feed datas w)))
    = Blob (rec_chunks (recording w)) ++ concat datas
    /\ rec_isActive (recording (feed datas w)) = rec_isActive (recording w)
    /\ rec_mediaRecorder (recording (feed datas w)) = rec_mediaRecorder (recording w)
    /\ el (feed datas w) = el w.
Proof.
  induction datas as [|data datas IH]; intros w.
  - cbn. now rewrite app_nil_r.
  - change (feed (data :: datas) w) with (feed datas (Recording.ondataavailable data w)).
    destruct (IH (Recording.ondataavailable data w)) as (B & A & M & E).
    rewrite B, A, M, E. unfold Recording.ondataavailable.
    destruct (0 <? blob_size data) eqn:Hpos; cbn.
    + unfold Blob. rewrite concat_app. cbn. rewrite app_nil_r, <- app_assoc.
      repeat split.
    + assert (data = []) as ->.
      { apply Z.ltb_ge in Hpos. unfold blob_size in Hpos.
        destruct data; [reflexivity|cbn in Hpos; lia]. }
      repeat split.
Qed.

Lemma start_recording_inactive (timer : nat) (now : Z) (w : world) :
  recorder_is inactive (rec_mediaRecorder (recording w)) = true ->
  exists w1,
    Recording.start_recording timer now w = Normal w1
    /\ rec_isActive (recording w1) = true
    /\ recorder_is recording_ (rec_mediaRecorder (recording w1)) = true
    /\ rec_chunks (recording w1) = []
    /\ rec_startTime (recording w1) = Some now
    /\ btn_label (recordBtn (el w1)) = StopRecording
    /\ statusIndicator (el w1) = RECORDING.
Proof.
  intros H. unfold Recording.start_recording. cbn [recording upd_recording set_recording
    rec_mediaRecorder set_rec_chunks].
  destruct (rec_mediaRecorder (recording w)) as [m|] eqn:Hm; [|discriminate H].
  rewrite H. eexists. split; [reflexivity|]. cbn. rewrite Hm. cbn. repeat split.
Qed.

(** X26. One manual capture, from click to click. With the microphone
    and the recorder available and no recording active, the first click
    starts recording (acquiring the recorder if there is none) with an
    empty chunk list. Whatever chunks the recorder then delivers, the
    second click stops it, disables the record button and shows
    PROCESSING, and the recorder's stop handler passes [Pipeline.run]
    exactly the delivered data, concatenated in order: nothing left over
    from an earlier capture is sent, and empty chunks add nothing. *)
Theorem manual_capture_sends_what_was_recorded
  (d d' : devices) (timer timer' : nat) (now now' : Z) (datas : list blob) (w : world) :
  getUserMedia d = Succeeds ->
  newMediaRecorder d = Succeeds ->
  rec_isActive (recording w) = false ->
  rec_mediaRecorder (recording w) = None
  \/ recorder_is inactive (rec_mediaRecorder (recording w)) = true ->
  exists w1 w3,
    Recording.toggle d timer now w = Normal w1
    /\ rec_isActive (recording w1) = true
    /\ recorder_is recording_ (rec_mediaRecorder (recording w1)) = true
    /\ btn_label (recordBtn (el w1)) = StopRecording
    /\ Recording.toggle d' timer' now' (feed datas w1) = Normal w3
    /\ rec_isActive (recording w3) = false
    /\ recorder_is inactive (rec_mediaRecorder (recording w3)) = true
    /\ disabled (recordBtn (el w3)) = true
    /\ statusIndicator (el w3) = PROCESSING
    /\ run_blob (fst (Recording.onstop w3)) = concat datas.
Proof.
  intros Hg Hr Hact Hrec.
  assert (Hstart : exists w1,
             Recording.start d timer now w = Normal w1
             /\ rec_isActive (recording w1) = true
             /\ recorder_is recording_ (rec_mediaRecorder (recording w1)) = true
             /\ rec_chunks (recording w1) = []
             /\ rec_startTime (recording w1) = Some now
             /\ btn_label (recordBtn (el w1)) = StopRecording
             /\ statusIndicator (el w1) = RECORDING).
  { unfold Recording.start.
    destruct (rec_mediaRecorder (recording w)) as [m|] eqn:Hm.
    - destruct Hrec as [Hrec|Hrec]; [discriminate Hrec|].
      apply start_recording_inactive. now rewrite Hm.
    - unfold Recording.init. rewrite Hg, Hr. cbv beta iota zeta.
      apply start_recording_inactive. reflexivity. }
  destruct Hstart as (w1 & E1 & A1 & R1 & C1 & _ & L1 & _).
  destruct (feed_keeps datas w1) as (B & A & M & _).
  exists w1.
  assert (Hstop : Recording.toggle d' timer' now' (feed datas w1)
                  = Normal (Recording.stop (feed datas w1)))
    by (unfold Recording.toggle; now rewrite A, A1).
  exists (Recording.stop (feed datas w1)).
  split; [unfold Recording.toggle; now rewrite Hact|].
  split; [exact A1|]. split; [exact R1|]. split; [exact L1|]. split; [exact Hstop|].
  assert (Hs : rec_mediaRecorder (recording (feed datas w1)) <> None)
    by (rewrite M; now apply recorder_is_Some in R1).
  unfold Recording.stop.
  destruct (rec_mediaRecorder (recording (feed datas w1))) as [m|] eqn:Hm;
    [|congruence].
  rewrite A, A1. cbn [negb].
  split; [reflexivity|]. split; [cbn; rewrite Hm; now destruct m|].
  split; [reflexivity|]. split; [reflexivity|].
  unfold Recording.onstop, Recording.process. rewrite run_task_blob.
  cbn [recording upd_recording set_recording rec_chunks set_rec_mediaRecorder
       set_rec_isActive upd_recordBtn upd_el set_el setStatus].
  rewrite B, C1. reflexivity.
Qed.

Lemma manual_capture_sends_what_was_recorded_witness :
  exists w1 w3,
    Recording.toggle all_available 1 0 open_session = Normal w1
    /\ rec_isActive (recording w1) = true
    /\ recorder_is recording_ (rec_mediaRecorder (recording w1)) = true
    /\ btn_label (recordBtn (el w1)) = StopRecording
    /\ Recording.toggle all_available 2 900 (feed [[1%N; 2%N]; []; [3%N]] w1) = Normal w3
    /\ rec_isActive (recording w3) = false
    /\ recorder_is inactive (rec_mediaRecorder (recording w3)) = true
    /\ disabled (recordBtn (el w3)) = true
    /\ statusIndicator (el w3) = PROCESSING
    /\ run_blob (fst (Recording.onstop w3)) = concat [[1%N; 2%N]; []; [3%N]].
Proof.
  apply (manual_capture_sends_what_was_recorded all_available all_available 1 2 0 900
           [[1%N; 2%N]; []; [3%N]] open_session);
    [reflexivity | reflexivity | reflexivity | left; reflexivity].
Defined.

(** X27. When manual recording is started without a recorder and its
    setup fails, [start] completes without starting anything: the
    recording state, the record button and the status are unchanged, and
    one "Microphone error" line is logged. If the microphone had been
    granted and only the recorder could not be built, the granted stream
    stays live with nothing referring to it, and the next click asks for
    the microphone again. *)
Theorem manual_start_failure_starts_nothing
  (d : devices) (timer : nat) (now : Z) (w : world) :
  rec_mediaRecorder (recording w) = None ->
  getUserMedia d <> Succeeds \/ newMediaRecorder d <> Succeeds ->
  exists w' e,
    Recording.start d timer now w = Normal w'
    /\ recording w' = recording w
    /\ recordBtn (el w') = recordBtn (el w)
    /\ statusIndicator (el w') = statusIndicator (el w)
    /\ logsContainer (el w') = logsContainer (el w) ++ [(LogMicrophoneError e, log_error)]
    /\ streams w' = streams w ++ match getUserMedia d with
                                 | Succeeds => [true]
                                 | Fails _ => []
                                 end.
Proof.
  intros Hm Hfail. unfold Recording.start, Recording.init. rewrite Hm.
  destruct (getUserMedia d) as [|e1] eqn:Hg.
  - destruct (newMediaRecorder d) as [|e2] eqn:Hr.
    + destruct Hfail as [H|H]; now destruct H.
    + eexists. exists e2. split; [reflexivity|]. repeat split.
  - eexists. exists e1. split; [reflexivity|]. cbn. rewrite app_nil_r. repeat split.
Qed.

Lemma manual_start_failure_starts_nothing_witness :
  exists w' e,
    Recording.start recorder_unavailable 1 0 state0 = Normal w'
    /\ recording w' = recording state0
    /\ recordBtn (el w') = recordBtn (el state0)
    /\ statusIndicator (el w') = statusIndicator (el state0)
    /\ logsContainer (el w')
       = logsContainer (el state0) ++ [(LogMicrophoneError e, log_error)]
    /\ streams w' = streams state0 ++ match getUserMedia recorder_unavailable with
                                      | Succeeds => [true]
                                      | Fails _ => []
                                      end.
Proof.
  apply (manual_start_failure_starts_nothing recorder_unavailable 1 0 state0);
    [reflexivity | right; discriminate].
Defined.

(** ** Streamed text *)

(** X1. Streamed text accumulates in arrival order. After [stt_start]
    and any number of [stt_segment] events the transcript panel shows the
    segments' contents, each followed by one space; after [llm_start] and
    any number of [llm_token] events the response panel shows the tokens'
    contents with no separator. In both cases nothing of what the panel
    showed before remains, and a content that is no string appears as
    its string conversion (a missing one as "undefined"). *)
Theorem streamed_text_accumulates (contents : list jsval) (now : Z) (w : world) :
  textContent
    (transcript
       (el (dispatch_all (map segment_message contents) now
              (final (WebSocketManager.handleMessage (bare_message "stt_start") now w)))))
  = joined " " contents
  /\ textContent
       (response
          (el (dispatch_all (map token_message contents) now
                 (final (WebSocketManager.handleMessage (bare_message "llm_start") now w)))))
     = joined "" contents.
Proof.
  split; [now rewrite segments_append | now rewrite tokens_append].
Qed.
